(** * Font installer: selection, extraction and installation pipeline

    A shallow embedding of [font-installer/fontofx.py] (and of
    [install_fonts] from [font-installer/font-fox.py]) together with the
    properties of the selection-and-install pipeline.

    Conventions of the embedding.
    - A Python [str] is a [string]; its characters are read as the code
      points 0..255.  Within that range [str.isspace], [str.lower] and the
      digits accepted by [int] are tabulated below as CPython has them.
    - A Python exception is a constructor of [exn]; code that may raise
      returns a [res].  The state of a run (input, output, scratch
      directory, commands launched) is a [world], threaded through the
      monad [M] together with the exceptions; what the program asks of its
      surroundings (Tk, the terminal, the disk, the commands) is a
      [platform].
    - Standard input is the list of the lines still unread; [input] raises
      [EOFError] on the empty list and [readline] returns the empty string.
    - [int] is modelled without CPython's configurable bound on the number
      of digits.  A [range] is a list; turning one into a list is where
      CPython gives up on a long one: [OverflowError] for a length beyond
      [sys.maxsize], [MemoryError] for one beyond the longest list there
      can be, on a 64-bit build.  Below these limits memory is taken to
      suffice (a machine short of it raises the same [MemoryError]
      earlier); a range no longer than the list of the fonts that were
      found always fits.
    - A command that is launched runs to an exit status, is not found
      ([FileNotFoundError]) or cannot be started ([OSError], for one
      permission denied).
    - The entries of a directory are kept in the order they were created.
      The file system is free to list them in another order; what is
      stated about a listing is stated up to that order.
    - The names of a directory are compared character by character (a
      case-sensitive file system), and archive members are unpacked the way
      [zipfile] does on POSIX. *)

From Stdlib Require Import List String Ascii ZArith Lia Bool Arith PeanoNat.
From Stdlib Require Import DecimalString Permutation.
From Stdlib Require DecimalFacts DecimalNat.
Import ListNotations.

Open Scope string_scope.
Open Scope list_scope.
Open Scope Z_scope.

(** ** Python strings *)

Module PyStr.

Definition code (c : ascii) : N := N_of_ascii c.

Definition between (lo hi : N) (c : ascii) : bool :=
  ((lo <=? code c) && (code c <=? hi))%N.

(** [str.isspace] on one character: the characters [str.strip] removes. *)
Definition isspace (c : ascii) : bool :=
  between 9 13 c || between 28 32 c
  || (code c =? 133)%N || (code c =? 160)%N.

(** [str.lower] on one character. *)
Definition lower_char (c : ascii) : ascii :=
  if between 65 90 c
     || (between 192 222 c && negb (code c =? 215)%N)
  then ascii_of_N (code c + 32)
  else c.

Fixpoint lower (s : string) : string :=
  match s with
  | EmptyString => EmptyString
  | String c r => String (lower_char c) (lower r)
  end.

Section Strip.
Variable drop : ascii -> bool.

Fixpoint lstrip_by (s : string) : string :=
  match s with
  | EmptyString => EmptyString
  | String c r => if drop c then lstrip_by r else s
  end.

Fixpoint rstrip_by (s : string) : string :=
  match s with
  | EmptyString => EmptyString
  | String c r =>
      match rstrip_by r with
      | EmptyString => if drop c then EmptyString else String c EmptyString
      | r' => String c r'
      end
  end.

Definition strip_by (s : string) : string := rstrip_by (lstrip_by s).
End Strip.

(** [s.strip()] *)
Definition strip : string -> string := strip_by isspace.

(** [c in s] for a one-character [c] *)
Fixpoint contains (c : ascii) (s : string) : bool :=
  match s with
  | EmptyString => false
  | String d r => Ascii.eqb c d || contains c r
  end.

(** [s.split(sep)] for a one-character separator: never the empty list. *)
Fixpoint split (sep : ascii) (s : string) : list string :=
  match s with
  | EmptyString => [EmptyString]
  | String c r =>
      if Ascii.eqb c sep then EmptyString :: split sep r
      else match split sep r with
           | h :: t => String c h :: t
           | [] => [String c EmptyString]
           end
  end.

(** [s.endswith(suffix)] *)
Definition endswith (s suffix : string) : bool :=
  let n := String.length s in
  let m := String.length suffix in
  (m <=? n)%nat && String.eqb (substring (n - m) m s) suffix.

(** [s.startswith(prefix)] *)
Definition startswith (s pre : string) : bool := String.prefix pre s.

(** [str(n)] for a natural number *)
Definition of_nat (n : nat) : string :=
  NilEmpty.string_of_uint (Nat.to_uint n).

End PyStr.

(** ** Exceptions and results *)

Inductive exn : Type :=
| ValueError
| IndexError
| EOFError
| BadZipFile
| OSError
| CalledProcessError
| FileNotFoundError
| KeyError
| OverflowError
| MemoryError
| SystemExit (status : Z).

Inductive res (A : Type) : Type :=
| Ok (a : A)
| Raise (e : exn).
Arguments Ok {A} a.
Arguments Raise {A} e.

(** ** [int(s)] for a string argument *)

Module PyInt.
Import PyStr.

Definition is_digit (c : ascii) : bool := between 48 57 c.

Definition digit_value (c : ascii) : Z := Z.of_N (code c) - 48.

(** The white space [int] skips at both ends: the ASCII white space of C
  and the non-ASCII characters that are [str.isspace]. *)
Definition int_space (c : ascii) : bool :=
between 9 13 c || (code c =? 32)%N
|| (code c =? 133)%N || (code c =? 160)%N.

(** Digits, single underscores allowed between two digits. *)
Fixpoint digits (acc : Z) (after_digit : bool) (s : string) : option Z :=
match s with
| EmptyString => if after_digit then Some acc else None
| String c r =>
    if is_digit c then digits (10 * acc + digit_value c) true r
    else if Ascii.eqb c "_" then
           if after_digit then digits acc false r else None
         else None
end.

Definition signed (s : string) : option Z :=
match s with
| String "-" r => option_map Z.opp (digits 0 false r)
| String "+" r => digits 0 false r
| _ => digits 0 false s
end.

(** [int(s)]: [None] stands for [ValueError]. *)
Definition int (s : string) : option Z := signed (strip_by int_space s).

End PyInt.

(** ** Lists the Python way *)

(** [list(range(start, stop))] *)
Definition range (start stop : Z) : list Z :=
  map (fun k => start + Z.of_nat k) (seq 0 (Z.to_nat (stop - start))).

(** [xs[i]]: a negative index counts from the end; [None] stands for
    [IndexError]. *)
Definition getitem {A : Type} (xs : list A) (i : Z) : option A :=
  let n := Z.of_nat (List.length xs) in
  if i <? 0 then
    if n + i <? 0 then None else nth_error xs (Z.to_nat (n + i))
  else nth_error xs (Z.to_nat i).

(** [[f(x) for x in xs]] where [f] may raise *)
Fixpoint traverse {A B : Type} (f : A -> option B) (xs : list A)
  : option (list B) :=
  match xs with
  | [] => Some []
  | x :: r =>
      match f x with
      | None => None
      | Some y => option_map (cons y) (traverse f r)
      end
  end.

(** ** Font candidates *)

Record font : Type := Font { path : string; name : string }.

(** ** The selection grammar

    The body of the [try] block of [select_fonts_cli] (lines 228-247); the
    piped branch of [main] (lines 416-431) repeats it word for word. *)

(** What one part of a selection line stands for: a single index, or the
    two ends of a range. *)
Inductive item : Type :=
| One (i : Z)
| Through (start end_ : Z).

(** The [int] calls on a part (lines 232-237); [None] for [ValueError]
    (from [int], or from unpacking a split that has not exactly two
    fields). *)
Definition part_item (part : string) : option item :=
  if PyStr.contains "-" part then
    match map PyInt.int (PyStr.split "-" part) with
    | [Some start; Some end_] => Some (Through start end_)
    | _ => None
    end
  else
    match PyInt.int part with
    | Some i => Some (One i)
    | None => None
    end.

(** The indices an item adds: [[i]], or [list(range(start, end + 1))]. *)
Definition item_indices (it : item) : list Z :=
  match it with
  | One i => [i]
  | Through start end_ => range start (end_ + 1)
  end.

(** [len(range(start, end + 1))] *)
Definition item_length (it : item) : Z :=
  match it with
  | One _ => 1
  | Through start end_ => Z.max 0 (end_ + 1 - start)
  end.

(** The indices a part names, every range listed in full however long it
    is; [None] for [ValueError]. *)
Definition part_indices (part : string) : option (list Z) :=
  option_map item_indices (part_item part).

Fixpoint parts_indices (parts : list string) (selected_indices : list Z)
  : option (list Z) :=
  match parts with
  | [] => Some selected_indices
  | part :: rest =>
      match part_indices part with
      | None => None
      | Some l => parts_indices rest (selected_indices ++ l)
      end
  end.

(** [sys.maxsize], and the most items a list has on a 64-bit CPython
    ([PY_SSIZE_T_MAX / sizeof(PyObject * )]). *)
Definition sys_maxsize : Z := 9223372036854775807.
Definition list_max : Z := 1152921504606846975.

(** [selected_indices.extend(range(start, end + 1))] before anything is
    copied: [len] of a range longer than [sys.maxsize] raises
    [OverflowError], and room for more than [list_max] items is refused
    with [MemoryError].  [held] is the number of candidates: the list of
    the candidates exists, so a range no longer than it is within both
    limits. *)
Definition extend_check (held : nat) (n : Z) : option exn :=
  if n <=? Z.of_nat held then None
  else if n >? sys_maxsize then Some OverflowError
  else if n >? list_max then Some MemoryError
  else None.

(** The [for part in parts] loop (lines 230-237): the indices collected,
    or the exception that ends the loop. *)
Fixpoint collect (held : nat) (parts : list string) (selected_indices : list Z)
  : res (list Z) :=
  match parts with
  | [] => Ok selected_indices
  | part :: rest =>
      match part_item part with
      | None => Raise ValueError
      | Some (One i) => collect held rest (selected_indices ++ [i])
      | Some (Through start end_) =>
          match extend_check held (item_length (Through start end_)) with
          | Some e => Raise e
          | None =>
              collect held rest (selected_indices ++ range start (end_ + 1))
          end
      end
  end.

(** What the block does with one selection line. *)
Inductive parsed : Type :=
| BadFormat                       (* ValueError was raised *)
| BadIndex                        (* some index is out of bounds *)
| Picked (fonts : res (list font))
| Died (e : exn).                 (* an exception the block does not catch *)

Definition out_of_bounds (n : nat) (idx : Z) : bool :=
  (idx <? 0) || (idx >=? Z.of_nat n).

Definition parse_selection (font_files : list font) (selection : string)
  : parsed :=
  match collect (List.length font_files) (PyStr.split "," selection) [] with
  | Raise ValueError => BadFormat
  | Raise e => Died e
  | Ok selected_indices =>
      let selected_indices := map (fun idx => idx - 1) selected_indices in
      if existsb (out_of_bounds (List.length font_files)) selected_indices
      then BadIndex
      else match traverse (getitem font_files) selected_indices with
           | Some fonts => Picked (Ok fonts)
           | None => Picked (Raise IndexError)
           end
  end.

(** ** Files on disk *)

(** A directory tree.  A directory lists its entries in the order they were
    created; [os.walk] and [os.listdir] report them in that order (the order
    of the operating system is not specified, and nothing below depends on
    it). *)
#[local] Unset Elimination Schemes.
Inductive node : Type :=
| File (data : string)
| Dir (kids : list (string * node)).
#[local] Set Elimination Schemes.

Section NodeInduction.
Variable P : node -> Prop.
Hypothesis on_file : forall data, P (File data).
Hypothesis on_dir :
  forall kids, Forall (fun kn => P (snd kn)) kids -> P (Dir kids).

Fixpoint node_induction (n : node) : P n :=
  match n with
  | File data => on_file data
  | Dir kids =>
      on_dir kids
        ((fix all (ks : list (string * node))
            : Forall (fun kn => P (snd kn)) ks :=
            match ks with
            | [] => Forall_nil _
            | kn :: ks' =>
                Forall_cons kn (node_induction (snd kn)) (all ks')
            end) kids)
  end.
End NodeInduction.

Definition dir : Type := list (string * node).

(** A member of a ZIP archive: its name inside the archive (components
    separated by [/], a trailing [/] for a directory), its content, and
    whether the stored check sum matches the content. *)
Record zip_entry : Type :=
  ZipEntry { filename : string; content : string; crc_ok : bool }.

(** What a path on disk holds when it is a regular file: a ZIP container
    with its members, or bytes that [zipfile.ZipFile] rejects with
    [BadZipFile] (the empty file is [Garbage ""]). *)
Inductive disk_file : Type :=
| Zip (entries : list zip_entry)
| Garbage (bytes : string).

(** ** The platform: everything the program asks of its surroundings *)

(** A call into Tk: the value it returns, or the text of the exception. *)
Inductive gui (A : Type) : Type :=
| GuiOk (a : A)
| GuiFail (msg : string).
Arguments GuiOk {A} a.
Arguments GuiFail {A} msg.

(** How the list dialog of [select_fonts_gui] ends: "Install Selected" with
    the rows marked in the list box, the dialog dismissed, or an
    exception. *)
Inductive dialog : Type :=
| Confirmed (curselection : nat -> bool)
| Dismissed
| Crashed (msg : string).

(** The outcome of launching an external command: the exit status of the
    process, the executable not being there ([FileNotFoundError]), or
    another failure to launch it (an [OSError] such as
    [PermissionError]). *)
Inductive proc : Type :=
| Exited (status : Z)
| Missing                      (* the executable is not found *)
| Denied.                      (* it is there and cannot be launched *)

Record platform : Type := Platform {
  GUI_AVAILABLE : bool;                       (* tkinter was imported *)
  isatty : bool;                              (* sys.stdin.isatty() *)
  askopenfilename : gui string;
  showerror : gui unit;
  askyesno : gui bool;
  showinfo : gui unit;
  list_dialog : dialog;
  expanduser : string -> string;
  isfile : string -> option disk_file;        (* None: not a regular file *)
  temp_dir : string;                          (* name of the scratch dir *)
  write_fault : list string -> bool;          (* writing there fails *)
  move_fault : string -> bool;                (* moving that file fails *)
  launch : nat -> list string -> proc         (* n-th command launched *)
}.

(** ** The state of a run *)

Record world : Type := World {
  stdin : list string;              (* lines not read yet *)
  stdout : list string;             (* what was printed, oldest first *)
  scratch : option node;            (* the scratch directory, if it exists *)
  commands : list (list string)     (* commands launched, oldest first *)
}.

Definition M (A : Type) : Type := world -> res A * world.

Definition ret {A} (a : A) : M A := fun w => (Ok a, w).

Definition raise {A} (e : exn) : M A := fun w => (Raise e, w).

Definition bind {A B} (m : M A) (k : A -> M B) : M B :=
  fun w =>
    match m w with
    | (Ok a, w') => k a w'
    | (Raise e, w') => (Raise e, w')
    end.

(** [try: m  except ...: handler]; [handler e = None] when no clause
    matches [e]. *)
Definition try_except {A} (m : M A) (handler : exn -> option (M A)) : M A :=
  fun w =>
    match m w with
    | (Ok a, w') => (Ok a, w')
    | (Raise e, w') =>
        match handler e with
        | Some h => h w'
        | None => (Raise e, w')
        end
    end.

Declare Scope py_scope.
Delimit Scope py_scope with py.
Notation "x <- m ;; k" := (bind m (fun x => k))
  (at level 61, m at next level, right associativity) : py_scope.
Notation "' pat <- m ;; k" := (bind m (fun x => match x with pat => k end))
  (at level 61, pat pattern, m at next level, right associativity) : py_scope.
Notation "m ;; k" := (bind m (fun _ => k))
  (at level 61, right associativity) : py_scope.
Open Scope py_scope.

Definition lift {A} (r : res A) : M A := fun w => (r, w).

(** [except Exception]: every exception but [SystemExit]. *)
Definition is_Exception (e : exn) : bool :=
  match e with SystemExit _ => false | _ => true end.

(** The class name of an exception, standing for its message in
    [f"...{e}"]. *)
Definition describe (e : exn) : string :=
  match e with
  | ValueError => "ValueError"
  | IndexError => "IndexError"
  | EOFError => "EOFError"
  | BadZipFile => "BadZipFile"
  | OSError => "OSError"
  | CalledProcessError => "CalledProcessError"
  | FileNotFoundError => "FileNotFoundError"
  | KeyError => "KeyError"
  | OverflowError => "OverflowError"
  | MemoryError => "MemoryError"
  | SystemExit _ => "SystemExit"
  end.

(** [print(s)] *)
Definition print (s : string) : M unit :=
  fun w => (Ok tt, World (stdin w) (stdout w ++ [s]) (scratch w) (commands w)).

(** [input(prompt)]: the prompt is written, then one line is read without
    its line end. *)
Definition input (prompt : string) : M string :=
  print prompt ;;
  fun w =>
    match stdin w with
    | [] => (Raise EOFError, w)
    | line :: rest =>
        (Ok line, World rest (stdout w) (scratch w) (commands w))
    end.

Definition newline : string := String (ascii_of_nat 10) EmptyString.

(** [sys.stdin.readline()]: the line with its line end, or the empty string
    at the end of the input. *)
Definition readline : M string :=
  fun w =>
    match stdin w with
    | [] => (Ok EmptyString, w)
    | line :: rest =>
        (Ok (line ++ newline)%string,
         World rest (stdout w) (scratch w) (commands w))
    end.

(** [sys.exit(status)] *)
Definition sys_exit {A} (status : Z) : M A := raise (SystemExit status).

Definition get_scratch : M (option node) := fun w => (Ok (scratch w), w).

Definition set_scratch (s : option node) : M unit :=
  fun w => (Ok tt, World (stdin w) (stdout w) s (commands w)).

(** [for x in xs: body(x)] *)
Fixpoint for_each {A} (xs : list A) (body : A -> M unit) : M unit :=
  match xs with
  | [] => ret tt
  | x :: r => body x ;; for_each r body
  end.

(** * The program *)

Module FontInstaller.
Section Program.

Variable env : platform.

(** [FONT_EXTENSIONS] *)
Definition FONT_EXTENSIONS : list string := [".ttf"; ".otf"; ".ttc"; ".dfont"].

(** [tk is None], [filedialog is None], [messagebox is None], ...: set
    together with [GUI_AVAILABLE] by the guarded import. *)
Definition tk_is_None : bool := negb (GUI_AVAILABLE env).

(** [is_font_file(filename)] *)
Definition is_font_file (filename : string) : bool :=
  existsb (PyStr.endswith (PyStr.lower filename)) FONT_EXTENSIONS.

(** *** Extraction *)

(** The path an archive member is written to, below the extraction
    directory: the components of its name without the empty ones, [.] and
    [..] (as [ZipFile._extract_member] cleans it). *)
Definition valid_part (x : string) : bool :=
  negb (String.eqb x "" || String.eqb x "." || String.eqb x "..").

Definition target (e : zip_entry) : list string :=
  filter valid_part (PyStr.split "/" (filename e)).

Definition is_dir (e : zip_entry) : bool := PyStr.endswith (filename e) "/".

(** The node created for the path [p] where nothing exists yet. *)
Fixpoint fresh (isdir : bool) (data : string) (p : list string) : node :=
  match p with
  | [] => if isdir then Dir [] else File data
  | c :: r => Dir [(c, fresh isdir data r)]
  end.

(** Entry [c] of a directory replaced by [f] of it, or created. *)
Fixpoint place_in (c : string) (f : node -> option node) (new : node)
         (kids : dir) : option dir :=
  match kids with
  | [] => Some [(c, new)]
  | (c', n) :: rest =>
      if String.eqb c c' then
        match f n with
        | Some n' => Some ((c', n') :: rest)
        | None => None
        end
      else option_map (cons (c', n)) (place_in c f new rest)
  end.

(** One member written below the node [n]; [None] stands for the
    [OSError] raised when a directory is in the way of a file, or a file
    in the way of a directory.  An existing file is overwritten. *)
Fixpoint place (isdir : bool) (data : string) (p : list string) (n : node)
         {struct p} : option node :=
  match p with
  | [] =>
      match n with
      | File _ => if isdir then None else Some (File data)
      | Dir _ => if isdir then Some n else None
      end
  | c :: r =>
      match n with
      | File _ => None
      | Dir kids =>
          option_map Dir
            (place_in c (place isdir data r) (fresh isdir data r) kids)
      end
  end.

(** What is written to the file of a member: its content, or nothing when
    the check sum fails, which is found out as the content is read, before
    any of it is copied (for a member read in one piece). *)
Definition written (e : zip_entry) : string :=
  if crc_ok e then content e else "".

(** [ZipFile._extract_member]: one member unpacked into the extraction
    directory. *)
Definition extract_member (e : zip_entry) : M unit :=
  s <- get_scratch ;;
  (* a missing extraction directory is created on the way *)
  let n := match s with Some n => n | None => Dir [] end in
  if write_fault env (target e) then raise OSError
  else
    match place (is_dir e) (written e) (target e) n with
    | None => raise OSError
    | Some n' =>
        if is_dir e || crc_ok e then set_scratch (Some n')
        else
          (* the file is created, the check sum fails while its content
             is read *)
          set_scratch (Some n') ;; raise BadZipFile
    end.

(** [ZipFile.getinfo(name)]: the member recorded under that name, which is
    the last one of that name in the archive. *)
Definition getinfo (entries : list zip_entry) (name : string) : M zip_entry :=
  match find (fun e => String.eqb (filename e) name) (rev entries) with
  | Some member => ret member
  | None => raise KeyError
  end.

(** [zip_ref.extractall(extract_dir)]: the names of [namelist()] in turn,
    each unpacked from the member [getinfo] finds for it. *)
Definition extractall (entries : list zip_entry) : M unit :=
  for_each (map filename entries)
           (fun name => member <- getinfo entries name ;; extract_member member).

(** [zipfile.ZipFile(zip_path, 'r')] *)
Definition ZipFile (zip_path : string) : M (list zip_entry) :=
  match isfile env zip_path with
  | None => raise FileNotFoundError
  | Some (Garbage _) => raise BadZipFile
  | Some (Zip entries) => ret entries
  end.

(** [os.path.join(root, file)] for a relative [file] *)
Definition path_join (root file : string) : string :=
  if String.eqb root "" || PyStr.endswith root "/" then (root ++ file)%string
  else (root ++ "/" ++ file)%string.

Definition is_file_node (n : node) : bool :=
  match n with File _ => true | Dir _ => false end.

(** [os.walk(top)] for the path [top] of an existing directory: for every
    directory, top down, its path, the names of its sub-directories and
    the names of its other entries.  The entries come in the order they
    were created; the file system is free to list them in another one,
    and what is stated about the fonts that are found (how many there are,
    what holds of each of them) holds whatever the order. *)
Fixpoint walk (top : string) (n : node)
  : list (string * list string * list string) :=
  match n with
  | File _ => []
  | Dir kids =>
      (top,
       map fst (filter (fun kn => negb (is_file_node (snd kn))) kids),
       map fst (filter (fun kn => is_file_node (snd kn)) kids))
      :: flat_map (fun kn => walk (path_join top (fst kn)) (snd kn)) kids
  end.

(** The two nested [for] loops of [extract_zip] (lines 62-69). *)
Definition found_fonts (walked : list (string * list string * list string))
  : list font :=
  flat_map
    (fun '(root, _, files) =>
       map (fun file => Font (path_join root file) file)
           (filter is_font_file files))
    walked.

(** [extract_zip(zip_path, extract_dir)], for the path [extract_dir] of a
    directory, as [main] calls it with the temporary directory. *)
Definition extract_zip (zip_path extract_dir : string) : M (list font) :=
  try_except
    (entries <- ZipFile zip_path ;;
     extractall entries ;;
     s <- get_scratch ;;
     match s with
     | None => ret []           (* [os.walk] of a missing directory *)
     | Some n => ret (found_fonts (walk extract_dir n))
     end)
    (fun e =>
       match e with
       | BadZipFile =>
           Some (print "Error: The selected file is not a valid ZIP file." ;;
                 ret [])
       | _ =>
           if is_Exception e then
             Some (print ("Error extracting ZIP file: " ++ describe e)%string ;;
                   ret [])
           else None
       end).

(** *** Installation of one font *)

(** [subprocess.run(cmd, check=True)] *)
Definition subprocess_run (cmd : list string) : M unit :=
  fun w =>
    match launch env (List.length (commands w)) cmd with
    | Missing => (Raise FileNotFoundError, w)
    | Denied => (Raise OSError, w)
    | Exited status =>
        let w' := World (stdin w) (stdout w) (scratch w)
                        (commands w ++ [cmd]) in
        if status =? 0 then (Ok tt, w') else (Raise CalledProcessError, w')
    end.

(** [install_font(font_path)] *)
Definition install_font (font_path : string) : M bool :=
  try_except
    (subprocess_run ["open"; font_path] ;;
     print "Font opened in Font Book." ;;
     let applescript_file := "install-font.scpt" in
     subprocess_run ["osascript"; applescript_file] ;;
     print "AppleScript executed." ;;
     ret true)
    (fun e =>
       match e with
       | CalledProcessError =>
           Some (print ("Error installing font: " ++ describe e)%string ;;
                 ret false)
       | FileNotFoundError =>
           Some (print ("Would install font: " ++ font_path)%string ;;
                 ret true)
       | _ => None
       end).

(** *** Selection *)

(** The listing printed by [select_fonts_cli] (lines 210-216). *)
Fixpoint listing (idx : nat) (font_files : list font) : M unit :=
  match font_files with
  | [] => ret tt
  | f :: r =>
      print ("[" ++ PyStr.of_nat (idx + 1) ++ "] " ++ name f)%string ;;
      listing (S idx) r
  end.

Definition set_stdin (lines : list string) : M unit :=
  fun w => (Ok tt, World lines (stdout w) (scratch w) (commands w)).

(** The [while True] loop of [select_fonts_cli] (lines 218-250).  Every
    pass reads one line, so the loop is a recursion on the lines that are
    still unread, with [input] written out on them: the prompt is printed,
    then [EOFError] is raised on the empty input, or the first line is
    taken. *)
Fixpoint select_loop (font_files : list font) (unread : list string)
  : M (list font) :=
  print (newline ++ "Your selection: ") ;;
  match unread with
  | [] => raise EOFError
  | line :: rest =>
      set_stdin rest ;;
      let selection := PyStr.lower (PyStr.strip line) in
      if String.eqb selection "q" then ret []
      else if String.eqb selection "all" then ret font_files
      else
        match parse_selection font_files selection with
        | Picked r => lift r
        | BadIndex =>
            print "Invalid selection. Please enter valid numbers." ;;
            select_loop font_files rest
        | BadFormat =>
            print "Invalid input. Please enter numbers, ranges, 'all', or 'q'." ;;
            select_loop font_files rest
        | Died e => raise e
        end
  end.

(** [select_fonts_cli(font_files)] *)
Definition select_fonts_cli (font_files : list font) : M (list font) :=
  print (newline ++ "Available fonts:") ;;
  listing 0 font_files ;;
  print (newline ++ "Enter the numbers of the fonts you want to install, separated by commas.") ;;
  print "For example: 1,3,5 or 1-5 for a range." ;;
  print "Enter 'all' to install all fonts or 'q' to quit." ;;
  fun w => select_loop font_files (stdin w) w.

(** The rows of the list box that are marked, in list order. *)
Fixpoint marked {A} (curselection : nat -> bool) (idx : nat) (xs : list A)
  : list A :=
  match xs with
  | [] => []
  | x :: r =>
      if curselection idx then x :: marked curselection (S idx) r
      else marked curselection (S idx) r
  end.

(** [select_fonts_gui(font_files)] *)
Definition select_fonts_gui (font_files : list font) : M (list font) :=
  if negb (GUI_AVAILABLE env) || tk_is_None then
    print "GUI not available. Using command-line interface instead." ;;
    select_fonts_cli font_files
  else
    match list_dialog env with
    | Confirmed curselection => ret (marked curselection 0 font_files)
    | Dismissed => ret []
    | Crashed msg =>
        print ("Error in GUI mode: " ++ msg)%string ;;
        print "Falling back to CLI mode." ;;
        select_fonts_cli font_files
    end.

(** *** The command line and [main] *)

(** The parsed arguments ([--version] and usage errors leave the program
    inside [parse_args]). *)
Record args : Type := Args {
  zip : option string;
  gui_flag : bool;
  cli_flag : bool;
  install_all_flag : bool;
  auto : bool
}.

(** Lines 282-291: [(use_cli, use_gui)]. *)
Definition interface_mode (a : args) : bool * bool :=
  if auto a then (true, false)
  else
    let use_cli := cli_flag a || negb (GUI_AVAILABLE env) || tk_is_None in
    let use_gui :=
      negb use_cli && (gui_flag a || GUI_AVAILABLE env) && negb tk_is_None in
    (use_cli, use_gui).

(** [not zip_path], for [None] and for the empty string alike *)
Definition unset (zip_path : string) : bool := String.eqb zip_path "".

(** [os.path.basename] *)
Definition basename (p : string) : string := last (PyStr.split "/" p) "".

(** Lines 294-340: the archive to process, and the interface mode as the
    file dialog leaves it. *)
Definition choose_zip (a : args) (use_cli use_gui : bool)
  : M (string * bool * bool) :=
  let zip_path := match zip a with Some p => p | None => "" end in
  '(zip_path, use_cli, use_gui) <-
    (if use_gui && unset zip_path then
       let failed msg :=
         print ("Failed to open GUI file dialog: " ++ msg)%string ;;
         ret (zip_path, true, false) in
       if tk_is_None then failed "Tkinter modules not properly loaded"
       else match askopenfilename env with
            | GuiOk chosen => ret (chosen, use_cli, use_gui)
            | GuiFail msg => failed msg
            end
     else ret (zip_path, use_cli, use_gui)) ;;
  (if unset zip_path && negb use_cli then
     print "No ZIP file selected. Exiting." ;; sys_exit 0
   else ret tt) ;;
  zip_path <-
    (if unset zip_path && use_cli then
       (if auto a then
          print "Error: In auto mode, you must specify a ZIP file with the --zip option." ;;
          sys_exit 1
        else ret tt) ;;
       try_except
         (typed <- input "Enter the path to the ZIP file containing fonts: " ;;
          let zip_path := PyStr.strip typed in
          if unset zip_path then
            print "No ZIP file specified. Exiting." ;; sys_exit 0
          else ret zip_path)
         (fun e =>
            match e with
            | EOFError =>
                Some (print "Error: In non-interactive mode, you must specify a ZIP file with the --zip option." ;;
                      sys_exit 1)
            | _ => None
            end)
     else ret zip_path) ;;
  let zip_path := expanduser env zip_path in
  match isfile env zip_path with
  | None =>
      print ("Error: File not found: " ++ zip_path)%string ;; sys_exit 1
  | Some _ => ret (zip_path, use_cli, use_gui)
  end.

(** A message box whose exception is caught and printed (lines 349-353,
    461-465). *)
Definition show (box : gui unit) : M unit :=
  match box with
  | GuiOk _ => ret tt
  | GuiFail msg => print ("GUI error: " ++ msg)%string
  end.

Definition found_message (font_files : list font) : string :=
  ("Found " ++ PyStr.of_nat (List.length font_files) ++ " font files.")%string.

(** Lines 360-390: [(install_all, use_cli, use_gui)]. *)
Definition ask_install_all (a : args) (use_cli use_gui : bool)
           (font_files : list font) : M (bool * bool * bool) :=
  let auto_mode := auto a in
  let install_all := install_all_flag a || auto_mode in
  if negb install_all then
    '(install_all, use_cli, use_gui) <-
      (if use_gui && negb tk_is_None then
         match askyesno env with
         | GuiOk answer => ret (answer, use_cli, use_gui)
         | GuiFail msg =>
             print ("GUI error: " ++ msg)%string ;;
             ret (install_all, true, false)
         end
       else ret (install_all, use_cli, use_gui)) ;;
    if use_cli && negb auto_mode then
      let question :=
        (found_message font_files ++ " Install all? (y/n): ")%string in
      try_except
        (if isatty env then
           typed <- input question ;;
           let response := PyStr.lower (PyStr.strip typed) in
           ret (PyStr.startswith response "y", use_cli, use_gui)
         else
           print question ;;
           typed <- readline ;;
           let response := PyStr.lower (PyStr.strip typed) in
           print response ;;
           ret (PyStr.startswith response "y", use_cli, use_gui))
        (fun e =>
           match e with
           | EOFError =>
               Some (print "Running in non-interactive mode. Installing all fonts by default." ;;
                     ret (true, use_cli, use_gui))
           | _ => None
           end)
    else ret (install_all, use_cli, use_gui)
  else ret (install_all, use_cli, use_gui).

(** Lines 408-434: the selection read from piped input. *)
Definition piped_selection (font_files : list font) : M (list font) :=
  typed <- readline ;;
  let selection := PyStr.strip typed in
  if String.eqb selection "all" then ret font_files
  else if String.eqb selection "q" then ret []
  else
    match parse_selection font_files selection with
    | Picked r => lift r
    | BadIndex =>
        print "Invalid selection in piped input. Installing all fonts by default." ;;
        ret font_files
    | BadFormat =>
        print "Invalid input format in piped input. Installing all fonts by default." ;;
        ret font_files
    | Died e => raise e
    end.

(** Lines 393-437: [fonts_to_install]. *)
Definition fonts_to_install (a : args) (install_all use_gui : bool)
           (font_files : list font) : M (list font) :=
  if install_all then ret font_files
  else if auto a then
    print "Auto mode is enabled but install-all not specified. Installing all fonts by default." ;;
    ret font_files
  else if use_gui then select_fonts_gui font_files
  else
    try_except
      (if isatty env then select_fonts_cli font_files
       else piped_selection font_files)
      (fun e =>
         match e with
         | EOFError =>
             Some (print "Running in non-interactive mode. Installing all fonts by default." ;;
                   ret font_files)
         | _ => None
         end).

(** Lines 444-453: the installation loop with its two counters. *)
Fixpoint install_batch (fonts : list font) (successful failed : nat)
  : M (nat * nat) :=
  match fonts with
  | [] => ret (successful, failed)
  | f :: rest =>
      print ("Installing: " ++ name f)%string ;;
      ok <- install_font (path f) ;;
      if ok then install_batch rest (successful + 1)%nat failed
      else install_batch rest successful (failed + 1)%nat
  end.

(** [with tempfile.TemporaryDirectory() as temp_dir: body]: the directory
    is created empty and removed when the block is left, whether [body]
    returns or raises. *)
Definition with_TemporaryDirectory {A} (body : string -> M A) : M A :=
  fun w =>
    let '(r, w') :=
      body (temp_dir env)
           (World (stdin w) (stdout w) (Some (Dir [])) (commands w)) in
    (r, World (stdin w') (stdout w') None (commands w')).

(** [main()], from the parsed arguments on. *)
Definition main (a : args) : M unit :=
  let '(use_cli, use_gui) := interface_mode a in
  '(zip_path, use_cli, use_gui) <- choose_zip a use_cli use_gui ;;
  with_TemporaryDirectory (fun temp_dir =>
    print ("Extracting " ++ basename zip_path ++ "...")%string ;;
    font_files <- extract_zip zip_path temp_dir ;;
    (match font_files with
     | [] =>
         let error_msg := "No font files found in the ZIP file." in
         (if use_gui && negb tk_is_None then show (showerror env)
          else ret tt) ;;
         print error_msg ;;
         sys_exit 1
     | _ => ret tt
     end) ;;
    print (found_message font_files) ;;
    '(install_all, use_cli, use_gui) <-
      ask_install_all a use_cli use_gui font_files ;;
    fonts <- fonts_to_install a install_all use_gui font_files ;;
    (match fonts with
     | [] => print "No fonts selected for installation. Exiting." ;;
             sys_exit 0
     | _ => ret tt
     end) ;;
    print ("Installing " ++ PyStr.of_nat (List.length fonts) ++ " fonts...")%string ;;
    '(successful, failed) <- install_batch fonts 0%nat 0%nat ;;
    let summary_message :=
      ("Installation complete!" ++ newline ++ newline
       ++ "Successfully installed: " ++ PyStr.of_nat successful ++ " fonts"
       ++ newline
       ++ "Failed to install: " ++ PyStr.of_nat failed ++ " fonts")%string in
    print summary_message ;;
    if use_gui && negb tk_is_None then show (showinfo env) else ret tt).



(** The exit status of the process for the outcome of [main]. *)
Definition exit_status (r : res unit) : Z :=
  match r with
  | Ok _ => 0
  | Raise (SystemExit status) => status
  | Raise _ => 1                 (* an uncaught exception *)
  end.

End Program.
End FontInstaller.

(** * The older installer, [font-fox.py] *)

Module FontFox.
Section Program.

Variable env : platform.

Definition font_extensions : list string := [".ttf"; ".otf"; ".dfont"].

(** [os.listdir] of the scratch directory.  The names come in the order the
    entries were created; the file system is free to list them in another
    one, and the statements about the listing hold up to that order. *)
Definition listdir (s : option node) : res (list string) :=
  match s with
  | Some (Dir kids) => Ok (map fst kids)
  | Some (File _) => Raise OSError
  | None => Raise FileNotFoundError
  end.

(** [shutil.move] of one entry of the scratch directory into the font
    directory of the user; the font directory itself is not part of the
    state. *)
Definition move (font : string) : M unit :=
  if move_fault env font then raise OSError
  else
    s <- get_scratch ;;
    match s with
    | Some (Dir kids) =>
        set_scratch
          (Some (Dir (filter (fun kn => negb (String.eqb (fst kn) font)) kids)))
    | _ => raise FileNotFoundError
    end.

(** [install_fonts(zip_path)] *)
Definition install_fonts (zip_path : string) : M unit :=
  let temp_extract_dir :=
    (expanduser env "~" ++ "/Downloads/extracted_fonts")%string in
  (* lines 20-22: the directory is removed if it exists, then created *)
  set_scratch (Some (Dir [])) ;;
  extracted <-
    try_except
      (entries <- FontInstaller.ZipFile env zip_path ;;
       FontInstaller.extractall env entries ;;
       print ("Extracted fonts to " ++ temp_extract_dir)%string ;;
       ret true)
      (fun e =>
         match e with
         | BadZipFile => Some (print "Error: Invalid ZIP file." ;; ret false)
         | _ => None
         end) ;;
  if negb extracted then ret tt                   (* line 31: return *)
  else
    s <- get_scratch ;;
    names <- lift (listdir s) ;;
    let font_files :=
      filter (fun f => existsb (PyStr.endswith f) font_extensions) names in
    match font_files with
    | [] => print "No valid font files found in the ZIP."   (* line 39 *)
    | _ =>
        for_each font_files
          (fun font => move font ;; print ("Installed: " ++ font)%string) ;;
        set_scratch None ;;                        (* line 48: rmtree *)
        print "Font installation complete!"
    end.

End Program.
End FontFox.

(** * Vocabulary of the statements *)

Import FontInstaller.

(** The two ways a selection line reaches the grammar: typed at the prompt
    of [select_fonts_cli], or read from piped input by [main]. *)
Inductive cli_mode : Type := Interactive | Piped.

Definition cli_select (mode : cli_mode) (font_files : list font)
  : M (list font) :=
  match mode with
  | Interactive => select_fonts_cli font_files
  | Piped => piped_selection font_files
  end.

(** The selection stage of [main] (lines 360-437): whether to install
    everything is settled first, then the fonts to install are chosen. *)
Definition selection_stage (env : platform) (a : args)
           (use_cli use_gui : bool) (font_files : list font)
  : M (list font) :=
  '(install_all, use_cli, use_gui) <-
    ask_install_all env a use_cli use_gui font_files ;;
  fonts_to_install env a install_all use_gui font_files.

(** The text the grammar is applied to, for the line as it stands in the
    input. *)
Definition selection_text (mode : cli_mode) (line : string) : string :=
  match mode with
  | Interactive => PyStr.lower (PyStr.strip line)
  | Piped => PyStr.strip (line ++ newline)
  end.

(** The 1-based indices a selection names, in the order they are typed;
    [None] when the text does not follow the grammar. *)
Definition typed_indices (selection : string) : option (list Z) :=
  parts_indices (PyStr.split "," selection) [].

Definition is_keyword (selection : string) : bool :=
  String.eqb selection "q" || String.eqb selection "all".

(** An index that names a candidate of a list of [n]. *)
Definition names_candidate (n : nat) (i : Z) : Prop := 1 <= i <= Z.of_nat n.

(** The ranges of the selection can be listed: reading it raises nothing
    but [ValueError]. *)
Definition listable (held : nat) (selection : string) : Prop :=
  forall e, collect held (PyStr.split "," selection) [] = Raise e ->
            e = ValueError.

(** A selection that is refused: not a keyword, with ranges that can be
    listed, and either outside the grammar or with an index that names no
    candidate. *)
Definition refused (font_files : list font) (selection : string) : Prop :=
  is_keyword selection = false
  /\ listable (List.length font_files) selection
  /\ match typed_indices selection with
     | None => True
     | Some idxs => Exists (fun i => ~ names_candidate (List.length font_files) i) idxs
     end.

(** The line a refused selection is answered with, at the prompt and in
    piped input. *)
Definition refusal (mode : cli_mode) (selection : string) : string :=
  match mode, typed_indices selection with
  | Interactive, Some _ => "Invalid selection. Please enter valid numbers."
  | Interactive, None =>
      "Invalid input. Please enter numbers, ranges, 'all', or 'q'."
  | Piped, Some _ =>
      "Invalid selection in piped input. Installing all fonts by default."
  | Piped, None =>
      "Invalid input format in piped input. Installing all fonts by default."
  end.

(** A range token whose start is greater than its end. *)
Definition reversed_range (part : string) : Prop :=
  PyStr.contains "-" part = true
  /\ exists start end_,
       map PyInt.int (PyStr.split "-" part) = [Some start; Some end_]
       /\ start > end_.

(** [fonts] lists, for each 1-based index of [idxs] in turn, the candidate
    it names. *)
Definition picks (font_files : list font) (idxs : list Z) (fonts : list font)
  : Prop :=
  Forall2 (fun i f => nth_error font_files (Z.to_nat (i - 1)) = Some f)
          idxs fonts.

Definition prompt : string := (newline ++ "Your selection: ")%string.


(** What [select_fonts_cli] prints before its first prompt. *)
Fixpoint listing_lines (idx : nat) (font_files : list font) : list string :=
  match font_files with
  | [] => []
  | f :: r =>
      ("[" ++ PyStr.of_nat (idx + 1) ++ "] " ++ name f)%string
      :: listing_lines (S idx) r
  end.

Definition banner (font_files : list font) : list string :=
  [(newline ++ "Available fonts:")%string]
  ++ listing_lines 0 font_files
  ++ [(newline ++ "Enter the numbers of the fonts you want to install, separated by commas.")%string;
      "For example: 1,3,5 or 1-5 for a range.";
      "Enter 'all' to install all fonts or 'q' to quit."].

Definition is_reversed_range (part : string) : bool :=
  PyStr.contains "-" part
  && match map PyInt.int (PyStr.split "-" part) with
     | [Some start; Some end_] => start >? end_
     | _ => false
     end.

Definition font_eq_dec (f g : font) : {f = g} + {f <> g}.
Proof. decide equality; apply string_dec. Defined.

(** [xs] can be obtained from [ys] by deleting elements. *)
Fixpoint is_subsequence (xs ys : list font) : bool :=
  match ys with
  | [] => match xs with [] => true | _ => false end
  | y :: ys' =>
      match xs with
      | [] => true
      | x :: xs' =>
          if font_eq_dec x y then is_subsequence xs' ys'
          else is_subsequence xs ys'
      end
  end.

Definition with_stdin (lines : list string) (w : world) : world :=
  World lines (stdout w) (scratch w) (commands w).

Definition printed (out : list string) (w : world) : world :=
  World (stdin w) (stdout w ++ out) (scratch w) (commands w).

(** A terminal without Tk: the platform of the examples, up to the files on
    disk, the faults of the disk and the fate of the commands. *)
Definition terminal (files : string -> option disk_file)
           (faults : list string -> bool)
           (launches : nat -> list string -> proc) : platform :=
  {| GUI_AVAILABLE := false;
     isatty := true;
     askopenfilename := GuiFail "no display";
     showerror := GuiOk tt;
     askyesno := GuiOk false;
     showinfo := GuiOk tt;
     list_dialog := Dismissed;
     expanduser := fun p => p;
     isfile := files;
     temp_dir := "/tmp/fonts";
     write_fault := faults;
     move_fault := fun _ => false;
     launch := launches |}.

(** An archive with three fonts, a directory and a text file. *)
Definition sample_archive : list zip_entry :=
  [ZipEntry "a.ttf" "A" true; ZipEntry "sub/" "" true;
   ZipEntry "sub/B.OTF" "B" true; ZipEntry "notes.txt" "n" true;
   ZipEntry "c.dfont" "C" true].

Definition sample_files (p : string) : option disk_file :=
  if String.eqb p "fonts.zip" then Some (Zip sample_archive)
  else if String.eqb p "empty.zip" then Some (Garbage "")
  else if String.eqb p "notes.zip" then Some (Zip [ZipEntry "notes.txt" "n" true])
  else None.

(** Every file written, every command succeeding. *)
Definition sample_platform : platform :=
  terminal sample_files (fun _ => false) (fun _ _ => Exited 0).

Definition sample_args : args :=
  {| zip := Some "fonts.zip"; gui_flag := false; cli_flag := true;
     install_all_flag := false; auto := false |}.

Definition idle : world := World [] [] None [].

(** The world in which [main] calls [extract_zip]: the scratch directory
    has just been created. *)
Definition scratch_created : world := World [] [] (Some (Dir [])) [].

(** Opening or unpacking the archive raises. *)
Definition extraction_fails (env : platform) (zip_path : string) (w : world)
  : Prop :=
  match isfile env zip_path with
  | Some (Zip entries) => exists e, fst (extractall env entries w) = Raise e
  | Some (Garbage _) => True
  | None => True
  end.

Definition font_a : font := Font "/tmp/fonts/a.ttf" "a.ttf".
Definition font_b : font := Font "/tmp/fonts/sub/B.OTF" "B.OTF".
Definition font_c : font := Font "/tmp/fonts/c.dfont" "c.dfont".
Definition sample_fonts : list font := [font_a; font_b; font_c].

(** ** Selection lines as the listing invites them

    The tokens of the grammar, and the line that spells a list of tokens
    with decimal numbers and no white space. *)

Inductive token : Type :=
| Single (i : nat)
| Span (first last : nat).

Definition render_token (t : token) : string :=
  match t with
  | Single i => PyStr.of_nat i
  | Span first last => (PyStr.of_nat first ++ "-" ++ PyStr.of_nat last)%string
  end.

Fixpoint render_line (tokens : list token) : string :=
  match tokens with
  | [] => ""
  | [t] => render_token t
  | t :: rest => (render_token t ++ "," ++ render_line rest)%string
  end.

(** The 1-based indices a token stands for: itself, or every index from
    the first to the last of a span, both included. *)
Definition token_indices (t : token) : list Z :=
  match t with
  | Single i => [Z.of_nat i]
  | Span first last => range (Z.of_nat first) (Z.of_nat last + 1)
  end.

(** Every character of the string satisfies [f]. *)
Fixpoint all_chars (f : ascii -> bool) (s : string) : bool :=
  match s with
  | EmptyString => true
  | String c r => f c && all_chars f r
  end.

(** The characters of a rendered line: digits, comma and hyphen. *)
Definition is_plain (c : ascii) : bool :=
  PyInt.is_digit c || Ascii.eqb c "," || Ascii.eqb c "-".

(** ** What a computation touches *)

(** [m] leaves the part [part] of the state as it found it. *)
Definition preserves {X A : Type} (part : world -> X) (m : M A) : Prop :=
  forall w, part (snd (m w)) = part w.

(** The value of [m] and the scratch directory it leaves depend on the
    scratch directory it finds, not on the rest of the state. *)
Definition disk_determined {A} (m : M A) : Prop :=
  forall w w', scratch w = scratch w' ->
    fst (m w) = fst (m w') /\ scratch (snd (m w)) = scratch (snd (m w')).

(** ** Archives and the tree they are unpacked to *)

(** The member that is unpacked when the name of [e] comes up: the last
    member of the archive with that name. *)
Definition member_for (entries : list zip_entry) (e : zip_entry) : zip_entry :=
  match find (fun e' => String.eqb (filename e') (filename e)) (rev entries) with
  | Some member => member
  | None => e
  end.

(** The members in the order [extractall] unpacks them. *)
Definition members (entries : list zip_entry) : list zip_entry :=
  map (member_for entries) entries.

(** Two lists of members with the same names, one by one. *)
Definition same_names (es ms : list zip_entry) : Prop :=
  Forall2 (fun e m => filename m = filename e) es ms.

(** Members unpacked one after the other. *)
Definition unpack (env : platform) (ms : list zip_entry) : M unit :=
  for_each ms (extract_member env).

(** The paths of the files below a node, relative to it. *)
Fixpoint files_of (n : node) : list (list string) :=
  match n with
  | File _ => [[]]
  | Dir kids =>
      flat_map (fun kn => map (cons (fst kn)) (files_of (snd kn))) kids
  end.

(** The paths of the directories at and below a node, relative to it. *)
Fixpoint dirs_of (n : node) : list (list string) :=
  match n with
  | File _ => []
  | Dir kids =>
      [] :: flat_map (fun kn => map (cons (fst kn)) (dirs_of (snd kn))) kids
  end.

(** [p] is an initial segment of [q], [q] itself included. *)
Fixpoint is_prefix (p q : list string) : bool :=
  match p with
  | [] => true
  | c :: p' =>
      match q with
      | [] => false
      | d :: q' => String.eqb c d && is_prefix p' q'
      end
  end.

(** The member [e] is a file written at, or above, the path of [e']. *)
Definition in_the_way (e e' : zip_entry) : bool :=
  negb (is_dir e) && is_prefix (target e) (target e').

(** The members of an archive can all be unpacked side by side: a file
    member is written to a path of its own, which is not the extraction
    directory itself and is neither the path of another member nor above
    one. *)
Fixpoint conflict_free (entries : list zip_entry) : bool :=
  match entries with
  | [] => true
  | e :: rest =>
      (is_dir e || match target e with [] => false | _ => true end)
      && forallb (fun e' => negb (in_the_way e e') && negb (in_the_way e' e))
                 rest
      && conflict_free rest
  end.

(** Unpacking the member meets no fault of the disk or of the archive. *)
Definition sound_member (env : platform) (e : zip_entry) : bool :=
  negb (write_fault env (target e)) && (is_dir e || crc_ok e).

(** The member is a file whose name, as it is written to disk, has one of
    the font extensions. *)
Definition is_font_member (e : zip_entry) : bool :=
  negb (is_dir e) && is_font_file (last (target e) "").

(** The path names a font file. *)
Definition is_font_path (p : list string) : bool := is_font_file (last p "").

(** What [place] adds to a tree: the file it writes, and directories on
    the way to it. *)
Definition placed (isdir : bool) (p : list string) (n n' : node) : Prop :=
  Permutation (files_of n') ((if isdir then [] else [p]) ++ files_of n)
  /\ forall q, In q (dirs_of n') ->
               In q (dirs_of n)
               \/ (is_prefix q p = true /\ (isdir = false -> q <> p)).

(** No command fails to be launched for a reason other than not being
    there. *)
Definition launchable (env : platform) : Prop :=
  forall n cmd, launch env n cmd <> Denied.

(** The fonts handed to [install_font] in turn, each announced first: what
    each call returned and the state after the last one, or the exception
    of the first call that raised. *)
Fixpoint attempts (env : platform) (fonts : list font) (w : world)
  : res (list bool) * world :=
  match fonts with
  | [] => (Ok [], w)
  | f :: rest =>
      match install_font env (path f)
                         (printed [("Installing: " ++ name f)%string] w) with
      | (Ok ok, w1) =>
          match attempts env rest w1 with
          | (Ok oks, w') => (Ok (ok :: oks), w')
          | (Raise e, w') => (Raise e, w')
          end
      | (Raise e, w1) => (Raise e, w1)
      end
  end.


(** A platform on which opening [B.OTF] fails. *)
Definition flaky_platform : platform :=
  terminal sample_files (fun _ => false)
           (fun _ cmd =>
              match cmd with
              | [_; file] =>
                  if String.eqb file "/tmp/fonts/sub/B.OTF" then Exited 1
                  else Exited 0
              | _ => Exited 0
              end).

(** A platform whose disk refuses [sub/B.OTF]. *)
Definition faulty_platform : platform :=
  terminal sample_files
           (fun p => match p with
                     | ["sub"; file] => String.eqb file "B.OTF"
                     | _ => false
                     end)
           (fun _ _ => Exited 0).

(** An archive in which one name occurs twice. *)
Definition twice_archive : list zip_entry :=
  [ZipEntry "a.ttf" "first" true; ZipEntry "a.ttf" "second" true].

Definition twice_platform : platform :=
  terminal (fun p => if String.eqb p "twice.zip" then Some (Zip twice_archive)
                     else None)
           (fun _ => false) (fun _ _ => Exited 0).

(** The archive is there and is unpacked without an error. *)
Definition unpacked (env : platform) (zip_path : string) (w : world) : bool :=
  match isfile env zip_path with
  | Some (Zip entries) =>
      match fst (extractall env entries w) with
      | Ok _ => true
      | Raise _ => false
      end
  | _ => false
  end.

(** ** How a run may end *)

(** The arguments with [--gui] set as [b]. *)
Definition set_gui_flag (b : bool) (a : args) : args :=
  {| zip := zip a; gui_flag := b; cli_flag := cli_flag a;
     install_all_flag := install_all_flag a; auto := auto a |}.

(** Every value [m] returns satisfies [Q] and every exception it raises
    satisfies [P]. *)
Definition ends {A} (Q : A -> Prop) (P : exn -> Prop) (m : M A) : Prop :=
  forall w, match fst (m w) with Ok a => Q a | Raise e => P e end.

Definition anything {A} (a : A) : Prop := True.


Definition is_eof (e : exn) : Prop := e = EOFError.

(** [sys.exit(0)] or [sys.exit(1)] *)
Definition is_exit (e : exn) : Prop := e = SystemExit 0 \/ e = SystemExit 1.

(** The run is in GUI mode and its list dialog fails. *)
Definition selector_crashes (env : platform) (a : args) : Prop :=
  auto a = false /\ cli_flag a = false /\ GUI_AVAILABLE env = true
  /\ exists msg, list_dialog env = Crashed msg.


(** Some command cannot be launched. *)
Definition launch_denied (env : platform) : Prop :=
  exists n cmd, launch env n cmd = Denied.


(** When [m] raises anything but the [OSError] of a launch, no command was
    launched on the way. *)
Definition raises_before_launch {A} (m : M A) : Prop :=
  forall w,
    match fst (m w) with
    | Raise e => e = OSError \/ commands (snd (m w)) = commands w
    | Ok _ => True
    end.

(** A desktop with Tk on which the list dialog fails. *)
Definition crashing_desktop : platform :=
  {| GUI_AVAILABLE := true;
     isatty := false;
     askopenfilename := GuiOk "fonts.zip";
     showerror := GuiOk tt;
     askyesno := GuiOk false;
     showinfo := GuiOk tt;
     list_dialog := Crashed "no display";
     expanduser := fun p => p;
     isfile := sample_files;
     temp_dir := "/tmp/fonts";
     write_fault := fun _ => false;
     move_fault := fun _ => false;
     launch := fun _ _ => Exited 0 |}.

Definition desktop_args : args :=
  {| zip := Some "fonts.zip"; gui_flag := false; cli_flag := false;
     install_all_flag := false; auto := false |}.

(** [--auto --zip=fonts.zip] *)
Definition auto_args : args :=
  {| zip := Some "fonts.zip"; gui_flag := false; cli_flag := false;
     install_all_flag := false; auto := true |}.

(** A machine without [open] and [osascript]. *)
Definition off_platform : platform :=
  terminal sample_files (fun _ => false) (fun _ _ => Missing).

(** [--cli --zip=notes.zip]: an archive without fonts. *)
Definition notes_args : args :=
  {| zip := Some "notes.zip"; gui_flag := false; cli_flag := true;
     install_all_flag := false; auto := false |}.

(** [--cli --zip=absent.zip]: no such file. *)
Definition absent_args : args :=
  {| zip := Some "absent.zip"; gui_flag := false; cli_flag := true;
     install_all_flag := false; auto := false |}.

(** The summary [main] prints after the installation (lines 456-458). *)
Definition summary (successful failed : nat) : string :=
  ("Installation complete!" ++ newline ++ newline
   ++ "Successfully installed: " ++ PyStr.of_nat successful ++ " fonts"
   ++ newline
   ++ "Failed to install: " ++ PyStr.of_nat failed ++ " fonts")%string.

(** The test [install_fonts] of [font-fox.py] applies to a name (line
    35). *)
Definition fox_accepts (f : string) : bool :=
  existsb (PyStr.endswith f) FontFox.font_extensions.

(** No option on the command line. *)
Definition bare_args : args :=
  {| zip := None; gui_flag := false; cli_flag := false;
     install_all_flag := false; auto := false |}.

(** * Properties *)

Example int_examples :
  map PyInt.int [" 1 "; "+1"; "1_0"; "_1"; "1_"; "1__0"; "007"; ""; "+ 1";
                 "-0"; "--1"; "1 2"; "-12"]
  = [Some 1; Some 1; Some 10; None; None; None; Some 7; None; None;
     Some 0; None; None; Some (-12)].
Proof. reflexivity. Qed.

Example split_examples :
  PyStr.split "," "a,,b" = ["a"; ""; "b"]
  /\ PyStr.split "," "" = [""]
  /\ PyStr.split "," "," = [""; ""].
Proof. repeat split. Qed.


(** ** The selection grammar *)

Lemma out_of_bounds_false (n : nat) (i : Z) :
  out_of_bounds n (i - 1) = false <-> names_candidate n i.
Proof.
  unfold out_of_bounds, names_candidate.
  rewrite orb_false_iff, Z.ltb_ge, Z.geb_leb, Z.leb_gt. lia.
Qed.

Lemma getitem_in_bounds (font_files : list font) (idx : Z) :
  out_of_bounds (List.length font_files) idx = false ->
  exists f, getitem font_files idx = Some f
            /\ nth_error font_files (Z.to_nat idx) = Some f.
Proof.
  unfold out_of_bounds, getitem. intros H.
  apply orb_false_iff in H as [Hlo Hhi]. rewrite Hlo.
  rewrite Z.geb_leb, Z.leb_gt in Hhi. apply Z.ltb_ge in Hlo.
  destruct (nth_error font_files (Z.to_nat idx)) as [f|] eqn:E.
  - now exists f.
  - apply nth_error_None in E. lia.
Qed.

Lemma traverse_getitem (font_files : list font) (idxs : list Z) :
  Forall (names_candidate (List.length font_files)) idxs ->
  exists fonts,
    traverse (getitem font_files) (map (fun idx => idx - 1) idxs) = Some fonts
    /\ picks font_files idxs fonts.
Proof.
  induction 1 as [|i idxs Hi _ IH].
  - exists []. split; [reflexivity | constructor].
  - destruct IH as (fonts & Ht & Hp).
    apply out_of_bounds_false, getitem_in_bounds in Hi as (f & Hg & Hn).
    exists (f :: fonts). cbn. rewrite Hg, Ht. split; [reflexivity|].
    now constructor.
Qed.

Lemma existsb_out_of_bounds (n : nat) (idxs : list Z) :
  existsb (out_of_bounds n) (map (fun idx => idx - 1) idxs) = false
  <-> Forall (names_candidate n) idxs.
Proof.
  induction idxs as [|i idxs IH]; cbn.
  - split; [constructor | reflexivity].
  - rewrite orb_false_iff, IH, out_of_bounds_false.
    split; [intros []; now constructor | now inversion 1].
Qed.

(** *** The loop of the parser and the grammar *)

Lemma in_range (i start stop : Z) :
  In i (range start stop) <-> start <= i < stop.
Proof.
  unfold range. rewrite in_map_iff. split.
  - intros (k & <- & Hk). apply in_seq in Hk. lia.
  - intros H. exists (Z.to_nat (i - start)). split; [lia|].
    apply in_seq. lia.
Qed.

(** A range whose indices all name candidates is no longer than the list
    of the candidates. *)
Lemma item_length_within (held : nat) (it : item) :
  Forall (names_candidate held) (item_indices it) ->
  item_length it <= Z.max 1 (Z.of_nat held).
Proof.
  destruct it as [i|start end_]; cbn [item_indices item_length]; [lia|].
  intros H. rewrite Forall_forall in H.
  destruct (Z_le_gt_dec start end_) as [Hle|Hgt]; [|lia].
  pose proof (H start (proj2 (in_range start start (end_ + 1)) ltac:(lia))) as [H1 _].
  pose proof (H end_ (proj2 (in_range end_ start (end_ + 1)) ltac:(lia))) as [_ H2].
  lia.
Qed.

Lemma extend_check_within (held : nat) (n : Z) :
  n <= Z.of_nat held -> extend_check held n = None.
Proof.
  intros H. unfold extend_check. now rewrite (proj2 (Z.leb_le _ _) H).
Qed.

(** What the loop collects is what the grammar reads. *)
Lemma collect_ok (held : nat) (parts : list string) :
  forall acc idxs,
    collect held parts acc = Ok idxs -> parts_indices parts acc = Some idxs.
Proof.
  induction parts as [|part rest IH]; intros acc idxs H; cbn in *.
  - now injection H as ->.
  - unfold part_indices. destruct (part_item part) as [[i|start end_]|];
      cbn [option_map item_indices]; [now apply IH | | discriminate].
    destruct (extend_check _ _); [discriminate | now apply IH].
Qed.

Lemma collect_ValueError (held : nat) (parts : list string) :
  forall acc,
    collect held parts acc = Raise ValueError -> parts_indices parts acc = None.
Proof.
  induction parts as [|part rest IH]; intros acc H; cbn in *; [discriminate|].
  unfold part_indices. destruct (part_item part) as [[i|start end_]|];
    cbn [option_map item_indices]; [now apply IH | | reflexivity].
  destruct (extend_check held _) as [e|] eqn:E; [|now apply IH].
  exfalso. unfold extend_check in E.
  destruct (_ <=? _); [discriminate|].
  destruct (_ >? sys_maxsize); [injection E as <-; discriminate H|].
  destruct (_ >? list_max); [injection E as <-; discriminate H | discriminate].
Qed.


(** Indices that all name candidates are collected as the grammar reads
    them. *)
Lemma collect_candidates (held : nat) (parts : list string) :
  forall acc idxs,
    parts_indices parts acc = Some idxs ->
    Forall (names_candidate held) idxs ->
    collect held parts acc = Ok idxs.
Proof.
  induction parts as [|part rest IH]; intros acc idxs H Hall; cbn in *.
  - now injection H as ->.
  - unfold part_indices in H.
    destruct (part_item part) as [it|]; cbn [option_map] in H; [|discriminate].
    assert (Hsub : Forall (names_candidate held) (item_indices it)).
    { clear IH. assert (G : forall parts acc idxs,
                 parts_indices parts acc = Some idxs -> incl acc idxs).
      { induction parts as [|p r IHp]; intros acc' idxs' Hp; cbn in Hp.
        - injection Hp as ->. apply incl_refl.
        - destruct (part_indices p); [|discriminate].
          intros x Hx. apply (IHp _ _ Hp). apply in_or_app. now left. }
      apply Forall_forall. intros x Hx. rewrite Forall_forall in Hall.
      apply Hall. apply (G _ _ _ H). apply in_or_app. now right. }
    destruct it as [i|start end_]; cbn [item_indices] in *; [now apply IH|].
    pose proof (item_length_within held (Through start end_) Hsub) as Hlen.
    destruct (Z_le_gt_dec start end_) as [Hle|Hgt].
    + rewrite Forall_forall in Hsub.
      pose proof (Hsub start (proj2 (in_range start start (end_ + 1)) ltac:(lia))) as [H1 _].
      pose proof (Hsub end_ (proj2 (in_range end_ start (end_ + 1)) ltac:(lia))) as [_ H2].
      rewrite extend_check_within by (cbn [item_length]; lia). now apply IH.
    + rewrite extend_check_within by (cbn [item_length]; lia). now apply IH.
Qed.

(** The outcomes of the grammar on one selection text. *)
Lemma parse_selection_picked (font_files : list font) (selection : string)
      (idxs : list Z) :
  typed_indices selection = Some idxs ->
  Forall (names_candidate (List.length font_files)) idxs ->
  exists fonts,
    parse_selection font_files selection = Picked (Ok fonts)
    /\ picks font_files idxs fonts.
Proof.
  unfold typed_indices, parse_selection. intros Hty Hall.
  rewrite (collect_candidates _ _ _ _ Hty Hall).
  rewrite (proj2 (existsb_out_of_bounds _ _) Hall).
  destruct (traverse_getitem font_files idxs Hall) as (fonts & -> & Hp).
  now exists fonts.
Qed.

Lemma parse_selection_refused (font_files : list font) (selection : string) :
  refused font_files selection ->
  parse_selection font_files selection = BadFormat
  \/ parse_selection font_files selection = BadIndex.
Proof.
  unfold refused, listable, typed_indices, parse_selection.
  intros (_ & Hl & H).
  destruct (collect _ _ _) as [idxs|e] eqn:Ec.
  - right. rewrite (collect_ok _ _ _ _ Ec) in H.
    destruct (existsb _ _) eqn:E; [reflexivity | exfalso].
    apply existsb_out_of_bounds in E.
    apply Exists_exists in H as (i & Hin & Hno).
    rewrite Forall_forall in E. auto.
  - left. now rewrite (Hl e eq_refl).
Qed.


Lemma keyword_not_typed (selection : string) :
  is_keyword selection = true -> typed_indices selection = None.
Proof.
  unfold is_keyword. intros H. apply orb_true_iff in H as [H|H];
    apply String.eqb_eq in H; subst; reflexivity.
Qed.

(** ** Running the selectors *)

Lemma print_run (s : string) (w : world) :
  print s w = (Ok tt, printed [s] w).
Proof. reflexivity. Qed.

Lemma set_stdin_run (lines : list string) (w : world) :
  set_stdin lines w = (Ok tt, with_stdin lines w).
Proof. reflexivity. Qed.

Lemma printed_app (a b : list string) (w : world) :
  printed b (printed a w) = printed (a ++ b) w.
Proof. unfold printed; cbn. now rewrite app_assoc. Qed.

(** One pass of the loop of [select_fonts_cli]. *)
Lemma select_loop_step (font_files : list font) (line : string)
      (rest : list string) (w : world) :
  select_loop font_files (line :: rest) w =
  let w1 := with_stdin rest (printed [prompt] w) in
  let selection := PyStr.lower (PyStr.strip line) in
  if String.eqb selection "q" then (Ok [], w1)
  else if String.eqb selection "all" then (Ok font_files, w1)
  else match parse_selection font_files selection with
       | Picked r => (r, w1)
       | BadIndex =>
           select_loop font_files rest
             (printed ["Invalid selection. Please enter valid numbers."] w1)
       | BadFormat =>
           select_loop font_files rest
             (printed ["Invalid input. Please enter numbers, ranges, 'all', or 'q'."] w1)
       | Died e => (Raise e, w1)
       end.
Proof.
  cbn [select_loop]. unfold bind at 1. rewrite print_run.
  unfold bind at 1. rewrite set_stdin_run. cbv zeta. fold prompt.
  destruct (String.eqb _ "q"); [reflexivity|].
  destruct (String.eqb _ "all"); [reflexivity|].
  destruct (parse_selection _ _); reflexivity.
Qed.

Lemma select_loop_eof (font_files : list font) (w : world) :
  select_loop font_files [] w = (Raise EOFError, printed [prompt] w).
Proof. reflexivity. Qed.

(** The value the loop returns depends on the input only. *)
Lemma select_loop_value (font_files : list font) (lines : list string)
      (w w' : world) :
  fst (select_loop font_files lines w) = fst (select_loop font_files lines w').
Proof.
  revert w w'. induction lines as [|line rest IH]; intros w w'.
  - reflexivity.
  - rewrite !select_loop_step. cbv zeta.
    destruct (String.eqb _ "q"); [reflexivity|].
    destruct (String.eqb _ "all"); [reflexivity|].
    destruct (parse_selection _ _); auto.
Qed.

(** The loop only reads input and prints. *)
Lemma select_loop_frame (font_files : list font) (lines : list string)
      (w : world) :
  scratch (snd (select_loop font_files lines w)) = scratch w
  /\ commands (snd (select_loop font_files lines w)) = commands w.
Proof.
  revert w. induction lines as [|line rest IH]; intros w.
  - now cbn.
  - rewrite select_loop_step. cbv zeta.
    destruct (String.eqb _ "q"); [now cbn|].
    destruct (String.eqb _ "all"); [now cbn|].
    destruct (parse_selection _ _); try now cbn.
    all: match goal with
         | |- context [select_loop _ _ ?w1] =>
             destruct (IH w1) as [-> ->]; now cbn
         end.
Qed.

Lemma printed_nil (w : world) : printed [] w = w.
Proof. unfold printed. rewrite app_nil_r. now destruct w. Qed.

Lemma listing_run (font_files : list font) (idx : nat) (w : world) :
  listing idx font_files w = (Ok tt, printed (listing_lines idx font_files) w).
Proof.
  revert idx w. induction font_files as [|f r IH]; intros idx w.
  - cbn [listing listing_lines]. now rewrite printed_nil.
  - cbn [listing listing_lines]. unfold bind at 1.
    now rewrite print_run, IH, printed_app.
Qed.

Lemma select_fonts_cli_run (font_files : list font) (w : world) :
  select_fonts_cli font_files w
  = select_loop font_files (stdin w) (printed (banner font_files) w).
Proof.
  unfold select_fonts_cli, banner.
  unfold bind at 1. rewrite print_run.
  unfold bind at 1. rewrite listing_run.
  unfold bind at 1. rewrite print_run.
  unfold bind at 1. rewrite print_run.
  unfold bind at 1. rewrite print_run.
  rewrite !printed_app. cbn [stdin printed]. reflexivity.
Qed.

Lemma input_run (question line : string) (rest : list string) (w : world) :
  stdin w = line :: rest ->
  input question w = (Ok line, with_stdin rest (printed [question] w)).
Proof.
  intros Hin. unfold input. unfold bind at 1. rewrite print_run.
  cbn [stdin printed]. now rewrite Hin.
Qed.

Lemma readline_run (line : string) (rest : list string) (w : world) :
  stdin w = line :: rest ->
  readline w = (Ok (line ++ newline)%string, with_stdin rest w).
Proof. unfold readline. now intros ->. Qed.

(** The selection read from piped input, one line being there. *)
Lemma piped_selection_step (font_files : list font) (line : string)
      (rest : list string) (w : world) :
  stdin w = line :: rest ->
  piped_selection font_files w =
  let w1 := with_stdin rest w in
  let selection := PyStr.strip (line ++ newline) in
  if String.eqb selection "all" then (Ok font_files, w1)
  else if String.eqb selection "q" then (Ok [], w1)
  else match parse_selection font_files selection with
       | Picked r => (r, w1)
       | BadIndex =>
           (Ok font_files,
            printed ["Invalid selection in piped input. Installing all fonts by default."] w1)
       | BadFormat =>
           (Ok font_files,
            printed ["Invalid input format in piped input. Installing all fonts by default."] w1)
       | Died e => (Raise e, w1)
       end.
Proof.
  intros Hin. unfold piped_selection.
  unfold bind at 1. rewrite (readline_run _ _ _ Hin). cbv zeta.
  destruct (String.eqb _ "all"); [reflexivity|].
  destruct (String.eqb _ "q"); [reflexivity|].
  destruct (parse_selection _ _); reflexivity.
Qed.

Lemma piped_selection_eof (font_files : list font) (w : world) :
  stdin w = [] ->
  piped_selection font_files w =
  (Ok font_files,
   printed ["Invalid input format in piped input. Installing all fonts by default."] w).
Proof.
  intros Hin. unfold piped_selection, bind, readline. now rewrite Hin.
Qed.

Lemma not_keyword (selection : string) (idxs : list Z) :
  typed_indices selection = Some idxs ->
  String.eqb selection "q" = false /\ String.eqb selection "all" = false.
Proof.
  intros H. split.
  - destruct (String.eqb selection "q") eqn:E; [|reflexivity].
    apply String.eqb_eq in E. subst. discriminate.
  - destruct (String.eqb selection "all") eqn:E; [|reflexivity].
    apply String.eqb_eq in E. subst. discriminate.
Qed.

(** A line that names candidates only is answered by these candidates, one
    for each index and in the order of the indices, in either mode. *)
Lemma cli_select_picked (mode : cli_mode) (font_files : list font)
      (line : string) (rest : list string) (w : world) (idxs : list Z) :
  stdin w = line :: rest ->
  typed_indices (selection_text mode line) = Some idxs ->
  Forall (names_candidate (List.length font_files)) idxs ->
  exists fonts,
    fst (cli_select mode font_files w) = Ok fonts
    /\ stdin (snd (cli_select mode font_files w)) = rest
    /\ picks font_files idxs fonts.
Proof.
  intros Hin Hty Hall.
  destruct (not_keyword _ _ Hty) as [Hq Ha].
  destruct (parse_selection_picked font_files _ idxs Hty Hall)
    as (fonts & Hp & Hpicks).
  exists fonts. destruct mode; cbn [cli_select selection_text] in *.
  - rewrite select_fonts_cli_run, Hin, select_loop_step. cbv zeta. rewrite Hq, Ha, Hp. now cbn.
  - rewrite (piped_selection_step _ _ _ _ Hin). cbv zeta.
    rewrite Hq, Ha, Hp. now cbn.
Qed.

Lemma picks_length (font_files : list font) (idxs : list Z)
      (fonts : list font) :
  picks font_files idxs fonts -> List.length fonts = List.length idxs.
Proof. intros H. symmetry. exact (Forall2_length H). Qed.

Lemma picks_count (font_files : list font) (idxs : list Z)
      (fonts : list font) (k : nat) (f : font) :
  NoDup font_files ->
  Forall (names_candidate (List.length font_files)) idxs ->
  picks font_files idxs fonts ->
  nth_error font_files k = Some f ->
  count_occ font_eq_dec fonts f = count_occ Z.eq_dec idxs (Z.of_nat k + 1).
Proof.
  intros Hnd Hall Hp Hk. induction Hp as [|i g idxs fonts Hi _ IH].
  - reflexivity.
  - inversion Hall as [|? ? Hci Hrest]; subst. specialize (IH Hrest).
    unfold names_candidate in Hci. cbn [count_occ].
    destruct (font_eq_dec g f) as [->|Hne], (Z.eq_dec i (Z.of_nat k + 1)) as [->|Hni].
    + now rewrite IH.
    + exfalso. apply Hni.
      assert (Z.to_nat (i - 1) = k); [|lia].
      apply (proj1 (NoDup_nth_error font_files) Hnd); [lia | congruence].
    + exfalso. replace (Z.to_nat (Z.of_nat k + 1 - 1)) with k in Hi by lia.
      congruence.
    + exact IH.
Qed.

Lemma picks_nth (font_files : list font) (idxs : list Z) (fonts : list font)
      (k : nat) (i : Z) :
  picks font_files idxs fonts ->
  nth_error idxs k = Some i ->
  nth_error fonts k = nth_error font_files (Z.to_nat (i - 1)).
Proof.
  intros Hp. revert k. induction Hp as [|j g idxs fonts Hj _ IH]; intros k Hk.
  - now destruct k.
  - destruct k as [|k]; cbn in *.
    + injection Hk as ->. now symmetry.
    + now apply IH.
Qed.

(** ** Repeated indices and the order of the selection *)

(** C1, as the code has it.  Candidates being pairwise distinct, a valid
    selection line is answered, at the prompt and from piped input alike,
    by one copy of a candidate for every time its 1-based index is named:
    the result has as many elements as the line names indices, and a
    candidate occurs in it as often as its index occurs in the line. *)
Theorem selection_repeats_candidates
        (mode : cli_mode) (font_files : list font) (line : string)
        (rest : list string) (w : world) (idxs : list Z) :
  NoDup font_files ->
  stdin w = line :: rest ->
  typed_indices (selection_text mode line) = Some idxs ->
  Forall (names_candidate (List.length font_files)) idxs ->
  exists fonts,
    fst (cli_select mode font_files w) = Ok fonts
    /\ List.length fonts = List.length idxs
    /\ forall k f, nth_error font_files k = Some f ->
                   count_occ font_eq_dec fonts f
                   = count_occ Z.eq_dec idxs (Z.of_nat k + 1).
Proof.
  intros Hnd Hin Hty Hall.
  destruct (cli_select_picked mode font_files line rest w idxs Hin Hty Hall)
    as (fonts & Hrun & _ & Hp).
  exists fonts. split; [exact Hrun|]. split.
  - exact (picks_length _ _ _ Hp).
  - intros k f Hk. exact (picks_count _ _ _ k f Hnd Hall Hp Hk).
Qed.

(** C2, as the code has it.  The k-th element of the selection returned for
    a valid line is the candidate named by the k-th index of the line: the
    selection follows the order in which the indices were typed. *)
Theorem selection_follows_typed_order
        (mode : cli_mode) (font_files : list font) (line : string)
        (rest : list string) (w : world) (idxs : list Z) :
  stdin w = line :: rest ->
  typed_indices (selection_text mode line) = Some idxs ->
  Forall (names_candidate (List.length font_files)) idxs ->
  exists fonts,
    fst (cli_select mode font_files w) = Ok fonts
    /\ List.length fonts = List.length idxs
    /\ forall k i, nth_error idxs k = Some i ->
                   nth_error fonts k
                   = nth_error font_files (Z.to_nat (i - 1)).
Proof.
  intros Hin Hty Hall.
  destruct (cli_select_picked mode font_files line rest w idxs Hin Hty Hall)
    as (fonts & Hrun & _ & Hp).
  exists fonts. split; [exact Hrun|]. split.
  - exact (picks_length _ _ _ Hp).
  - intros k i Hk. exact (picks_nth _ _ _ k i Hp Hk).
Qed.

Lemma sample_fonts_distinct : NoDup sample_fonts.
Proof.
  repeat constructor; cbn; intuition discriminate.
Defined.

Lemma all_name_candidates (n : nat) (idxs : list Z) :
  forallb (fun i => (1 <=? i) && (i <=? Z.of_nat n)) idxs = true ->
  Forall (names_candidate n) idxs.
Proof.
  intros H. apply Forall_forall. intros i Hi.
  rewrite forallb_forall in H. specialize (H i Hi).
  apply andb_true_iff in H as [H1 H2].
  apply Z.leb_le in H1, H2. now split.
Defined.

Lemma selection_repeats_candidates_witness :
  exists fonts,
    fst (cli_select Piped sample_fonts (with_stdin ["2,1,2"] idle)) = Ok fonts
    /\ List.length fonts = 3%nat
    /\ forall k f, nth_error sample_fonts k = Some f ->
                   count_occ font_eq_dec fonts f
                   = count_occ Z.eq_dec [2; 1; 2] (Z.of_nat k + 1).
Proof.
  apply (selection_repeats_candidates
           Piped sample_fonts "2,1,2" [] (with_stdin ["2,1,2"] idle) [2; 1; 2]).
  - exact sample_fonts_distinct.
  - reflexivity.
  - reflexivity.
  - apply all_name_candidates. reflexivity.
Defined.

(** C1 as the specification has it fails: the line ["1,1"] is answered by
    the first candidate twice, at the prompt and from piped input. *)
Lemma repeated_index_counterexample :
  fst (cli_select Interactive sample_fonts (with_stdin ["1,1"] idle))
  = Ok [font_a; font_a]
  /\ fst (cli_select Piped sample_fonts (with_stdin ["1,1"] idle))
     = Ok [font_a; font_a]
  /\ count_occ font_eq_dec [font_a; font_a] font_a = 2%nat.
Proof. repeat split. Qed.

Lemma selection_follows_typed_order_witness :
  exists fonts,
    fst (cli_select Interactive sample_fonts (with_stdin ["3,1"] idle))
    = Ok fonts
    /\ List.length fonts = 2%nat
    /\ forall k i, nth_error [3; 1] k = Some i ->
                   nth_error fonts k
                   = nth_error sample_fonts (Z.to_nat (i - 1)).
Proof.
  apply (selection_follows_typed_order
           Interactive sample_fonts "3,1" [] (with_stdin ["3,1"] idle) [3; 1]).
  - reflexivity.
  - reflexivity.
  - apply all_name_candidates. reflexivity.
Defined.

(** C2 as the specification has it fails: the line ["3,1"] is answered by
    the third candidate before the first, which is not the order of the
    candidate list. *)
Lemma typed_order_counterexample :
  fst (cli_select Interactive sample_fonts (with_stdin ["3,1"] idle))
  = Ok [font_c; font_a]
  /\ fst (cli_select Piped sample_fonts (with_stdin ["3,1"] idle))
     = Ok [font_c; font_a]
  /\ is_subsequence [font_c; font_a] sample_fonts = false.
Proof. repeat split. Qed.

(** ** Refused selections *)

Lemma keyword_false (selection : string) :
  is_keyword selection = false ->
  String.eqb selection "q" = false /\ String.eqb selection "all" = false.
Proof. unfold is_keyword. intros H. now apply orb_false_iff in H. Qed.

Lemma bad_parse_refused (font_files : list font) (selection : string) :
  is_keyword selection = false ->
  parse_selection font_files selection = BadFormat
  \/ parse_selection font_files selection = BadIndex ->
  refused font_files selection.
Proof.
  intros Hk Hbad. split; [exact Hk|].
  unfold listable, parse_selection, typed_indices in *.
  destruct (collect _ _ _) as [idxs|e] eqn:Ec.
  - split; [discriminate|]. rewrite (collect_ok _ _ _ _ Ec).
    destruct (existsb _ _) eqn:E.
    + apply existsb_exists in E as (x & Hin & Hx).
      apply in_map_iff in Hin as (i & <- & Hin).
      apply Exists_exists. exists i. split; [exact Hin|].
      intros Hc. apply out_of_bounds_false in Hc. congruence.
    + destruct (traverse _ _); destruct Hbad; discriminate.
  - assert (He : e = ValueError)
      by (destruct e; destruct Hbad; try discriminate; reflexivity).
    subst e. split; [now intros e [= <-]|].
    now rewrite (collect_ValueError _ _ _ Ec).
Qed.

(** Which of the two refusals a refused selection gets. *)
Lemma parse_selection_refusal (font_files : list font) (selection : string) :
  refused font_files selection ->
  parse_selection font_files selection
  = match typed_indices selection with
    | Some _ => BadIndex
    | None => BadFormat
    end.
Proof.
  intros Href. pose proof Href as (_ & Hl & H).
  unfold listable, typed_indices, parse_selection in *.
  destruct (collect _ _ _) as [idxs|e] eqn:Ec.
  - rewrite (collect_ok _ _ _ _ Ec) in *.
    destruct (existsb _ _) eqn:E; [reflexivity | exfalso].
    apply existsb_out_of_bounds in E.
    apply Exists_exists in H as (i & Hin & Hno).
    rewrite Forall_forall in E. auto.
  - rewrite (Hl e eq_refl) in *. now rewrite (collect_ValueError _ _ _ Ec).
Qed.

(** A refused line at the prompt: the message is printed and the loop goes
    round, prompting again for the line that follows. *)
Lemma select_loop_refusal (font_files : list font) (line : string)
      (rest : list string) (w : world) :
  refused font_files (selection_text Interactive line) ->
  select_loop font_files (line :: rest) w
  = select_loop font_files rest
      (printed [refusal Interactive (selection_text Interactive line)]
               (with_stdin rest (printed [prompt] w))).
Proof.
  intros Href. rewrite select_loop_step. cbv zeta.
  cbn [selection_text] in *.
  destruct (keyword_false _ (proj1 Href)) as [-> ->].
  rewrite (parse_selection_refusal _ _ Href). unfold refusal.
  now destruct (typed_indices _).
Qed.

Lemma select_loop_refused (font_files : list font) (line : string)
      (rest : list string) (w : world) :
  refused font_files (selection_text Interactive line) ->
  exists msg,
    select_loop font_files (line :: rest) w
    = select_loop font_files rest
        (printed [msg] (with_stdin rest (printed [prompt] w))).
Proof. intros Href. eexists. now apply select_loop_refusal. Qed.

Lemma select_loop_skips (font_files : list font) (bad rest : list string)
      (w : world) :
  Forall (fun l => refused font_files (selection_text Interactive l)) bad ->
  fst (select_loop font_files (bad ++ rest) w)
  = fst (select_loop font_files rest w).
Proof.
  intros Hbad. revert w. induction Hbad as [|line bad Hl _ IH]; intros w.
  - reflexivity.
  - cbn [app].
    destruct (select_loop_refused font_files line (bad ++ rest) w Hl)
      as (msg & ->).
    rewrite IH. apply select_loop_value.
Qed.





Lemma refused_by_evaluation (font_files : list font) (selection : string) :
  is_keyword selection = false ->
  match parse_selection font_files selection with
  | BadFormat | BadIndex => true
  | _ => false
  end = true ->
  refused font_files selection.
Proof.
  intros Hk Hp. apply bad_parse_refused; [exact Hk|].
  destruct (parse_selection font_files selection);
    [now left | now right | discriminate | discriminate].
Defined.



(** ** Installing everything *)

(** [--install-all] and [--auto] set [install_all] without a question. *)
Lemma install_all_flags (env : platform) (a : args) (use_cli use_gui : bool)
      (font_files : list font) (w : world) :
  install_all_flag a || auto a = true ->
  ask_install_all env a use_cli use_gui font_files w
  = (Ok (true, use_cli, use_gui), w).
Proof. unfold ask_install_all. now intros ->. Qed.

(** C4.  With [install_all] set, the fonts to install are the candidates
    that were found, unchanged and in the same order, and nothing is read
    or printed on the way; [--install-all] and [--auto] set it, so that the
    selection stage of [main] as a whole is the identity under them. *)
Theorem install_all_is_identity
        (env : platform) (a : args) (use_cli use_gui : bool)
        (font_files : list font) (w : world) :
  install_all_flag a || auto a = true ->
  selection_stage env a use_cli use_gui font_files w = (Ok font_files, w)
  /\ forall a' use_gui' w',
       fonts_to_install env a' true use_gui' font_files w'
       = (Ok font_files, w').
Proof.
  intros Hflag. split.
  - unfold selection_stage. unfold bind at 1.
    now rewrite (install_all_flags env a use_cli use_gui font_files w Hflag).
  - reflexivity.
Qed.

Lemma install_all_is_identity_witness :
  selection_stage sample_platform
    {| zip := Some "fonts.zip"; gui_flag := false; cli_flag := false;
       install_all_flag := true; auto := false |}
    true false sample_fonts idle
  = (Ok sample_fonts, idle)
  /\ forall a' use_gui' w',
       fonts_to_install sample_platform a' true use_gui' sample_fonts w'
       = (Ok sample_fonts, w').
Proof.
  apply (install_all_is_identity
           sample_platform
           {| zip := Some "fonts.zip"; gui_flag := false; cli_flag := false;
              install_all_flag := true; auto := false |}
           true false sample_fonts idle).
  reflexivity.
Defined.

(** ** Installation *)

(** Every outcome of [install_font], by the fate of its two commands. *)
Lemma install_font_run (env : platform) (font_path : string) (w : world) :
  let n := List.length (commands w) in
  let opened :=
    World (stdin w) (stdout w) (scratch w) (commands w ++ [["open"; font_path]]) in
  let scripted :=
    World (stdin w) (stdout w ++ ["Font opened in Font Book."]) (scratch w)
          ((commands w ++ [["open"; font_path]])
             ++ [["osascript"; "install-font.scpt"]]) in
  install_font env font_path w =
  match launch env n ["open"; font_path] with
  | Missing => (Ok true, printed [("Would install font: " ++ font_path)%string] w)
  | Denied => (Raise OSError, w)
  | Exited status =>
      if status =? 0 then
        match launch env (S n) ["osascript"; "install-font.scpt"] with
        | Missing =>
            (Ok true,
             printed ["Font opened in Font Book.";
                      ("Would install font: " ++ font_path)%string] opened)
        | Denied =>
            (Raise OSError, printed ["Font opened in Font Book."] opened)
        | Exited status' =>
            if status' =? 0 then
              (Ok true, printed ["AppleScript executed."] scripted)
            else
              (Ok false,
               printed ["Error installing font: CalledProcessError"] scripted)
        end
      else
        (Ok false, printed ["Error installing font: CalledProcessError"] opened)
  end.
Proof.
  cbv zeta. unfold install_font, try_except.
  unfold bind at 1. unfold subprocess_run at 1.
  destruct (launch env (List.length (commands w)) ["open"; font_path])
    as [status| |]; [|reflexivity|reflexivity].
  destruct (status =? 0); [|reflexivity].
  unfold bind at 1. rewrite print_run.
  unfold bind at 1. unfold subprocess_run at 1.
  cbn [commands printed]. rewrite length_app, Nat.add_1_r.
  destruct (launch env _ ["osascript"; "install-font.scpt"]) as [status'| |]; cbn [length].
  - destruct (status' =? 0); reflexivity.
  - unfold bind, print, ret, printed; cbn. now rewrite <- app_assoc.
  - reflexivity.
Qed.

(** [install_font] returns, or raises the [OSError] of a command that
    cannot be launched; it only adds to the output. *)
Lemma install_font_outcome (env : platform) (font_path : string) (w : world) :
  exists w' out,
    stdout w' = stdout w ++ out
    /\ ((exists ok, install_font env font_path w = (Ok ok, w'))
        \/ (install_font env font_path w = (Raise OSError, w')
            /\ exists n cmd, launch env n cmd = Denied)).
Proof.
  rewrite install_font_run. cbv zeta.
  destruct (launch env _ ["open"; font_path]) as [status| |] eqn:E1.
  - destruct (status =? 0).
    + destruct (launch env _ ["osascript"; _]) as [status'| |] eqn:E2.
      * destruct (status' =? 0); do 2 eexists;
          (split; [|left; eexists; reflexivity]);
          cbn; rewrite <- app_assoc; reflexivity.
      * do 2 eexists; (split; [|left; eexists; reflexivity]); reflexivity.
      * do 2 eexists; (split; [|right; split; [reflexivity | eauto]]);
          reflexivity.
    + do 2 eexists; (split; [|left; eexists; reflexivity]); reflexivity.
  - do 2 eexists; (split; [|left; eexists; reflexivity]); reflexivity.
  - exists w, []. split; [now rewrite app_nil_r|].
    right. split; [reflexivity | eauto].
Qed.

Lemma install_font_total (env : platform) (font_path : string) (w : world) :
  launchable env ->
  exists ok w',
    install_font env font_path w = (Ok ok, w')
    /\ exists out, stdout w' = stdout w ++ out.
Proof.
  intros Hl.
  destruct (install_font_outcome env font_path w)
    as (w' & out & Hout & [(ok & Hrun) | (_ & n & cmd & Hd)]).
  - exists ok, w'. eauto.
  - now destruct (Hl n cmd).
Qed.

(** The loop of [main] is the calls of [install_font] in turn, counted. *)
Lemma install_batch_attempts (env : platform) (fonts : list font) :
  forall (successful failed : nat) (w : world),
    install_batch env fonts successful failed w
    = match attempts env fonts w with
      | (Ok oks, w') =>
          (Ok ((successful + count_occ bool_dec oks true)%nat,
               (failed + count_occ bool_dec oks false)%nat), w')
      | (Raise e, w') => (Raise e, w')
      end.
Proof.
  induction fonts as [|f rest IH]; intros successful failed w.
  - cbn. unfold ret. now rewrite !Nat.add_0_r.
  - cbn [install_batch attempts]. unfold bind at 1. rewrite print_run.
    unfold bind at 1.
    destruct (install_font env (path f) _) as [[[|]|e] w1]; [| |reflexivity].
    + rewrite IH. destruct (attempts env rest w1) as [[oks|e] w'];
        [|reflexivity].
      cbn [count_occ]. destruct (bool_dec true true) as [_|H]; [|now destruct H].
      destruct (bool_dec true false) as [H|_]; [discriminate|].
      now rewrite <- Nat.add_assoc.
    + rewrite IH. destruct (attempts env rest w1) as [[oks|e] w'];
        [|reflexivity].
      cbn [count_occ]. destruct (bool_dec false false) as [_|H]; [|now destruct H].
      destruct (bool_dec false true) as [H|_]; [discriminate|].
      now rewrite <- Nat.add_assoc.
Qed.

(** Every font is tried, unless a command cannot be launched. *)
Lemma attempts_outcome (env : platform) (fonts : list font) :
  forall w,
    exists w' out,
      stdout w' = stdout w ++ out
      /\ ((exists oks,
             attempts env fonts w = (Ok oks, w')
             /\ List.length oks = List.length fonts
             /\ Forall (fun f => In ("Installing: " ++ name f)%string out)
                       fonts)
          \/ (attempts env fonts w = (Raise OSError, w')
              /\ exists n cmd, launch env n cmd = Denied)).
Proof.
  induction fonts as [|f rest IH]; intros w.
  - exists w, []. split; [now rewrite app_nil_r|].
    left. exists []. repeat split. constructor.
  - cbn [attempts].
    destruct (install_font_outcome env (path f)
                (printed [("Installing: " ++ name f)%string] w))
      as (w1 & out1 & Hout1 & [(ok & ->) | (-> & Hd)]).
    + destruct (IH w1) as (w' & out & Hout & [(oks & -> & Hlen & Hall) | (-> & Hd)]).
      * exists w', ((("Installing: " ++ name f)%string :: out1) ++ out).
        split; [rewrite Hout, Hout1; cbn; now rewrite <- !app_assoc|].
        left. exists (ok :: oks). split; [reflexivity|].
        split; [cbn; now rewrite Hlen|].
        constructor; [now left|].
        eapply Forall_impl; [|exact Hall]. cbn. intros g Hg.
        right. apply in_or_app. now right.
      * exists w', ((("Installing: " ++ name f)%string :: out1) ++ out).
        split; [rewrite Hout, Hout1; cbn; now rewrite <- !app_assoc|].
        right. now split.
    + exists w1, (("Installing: " ++ name f)%string :: out1).
      split; [rewrite Hout1; cbn; now rewrite <- !app_assoc|].
      right. now split.
Qed.

Lemma count_occ_bool (oks : list bool) :
  (count_occ bool_dec oks true + count_occ bool_dec oks false
   = List.length oks)%nat.
Proof.
  induction oks as [|[|] oks IH]; cbn [count_occ List.length]; [reflexivity| |].
  - destruct (bool_dec true true) as [_|H]; [|now destruct H].
    destruct (bool_dec true false) as [H|_]; [discriminate|]. lia.
  - destruct (bool_dec false false) as [_|H]; [|now destruct H].
    destruct (bool_dec false true) as [H|_]; [discriminate|]. lia.
Qed.

(** The loop of [main] tries every font it is given, where every command
    can be launched or is not there. *)
Lemma install_batch_total (env : platform) (fonts : list font)
      (successful failed : nat) (w : world) :
  launchable env ->
  exists successful' failed' w',
    install_batch env fonts successful failed w
    = (Ok (successful', failed'), w')
    /\ (successful' + failed' = successful + failed + List.length fonts)%nat
    /\ exists out,
         stdout w' = stdout w ++ out
         /\ Forall (fun f => In ("Installing: " ++ name f)%string out) fonts.
Proof.
  intros Hl. rewrite install_batch_attempts.
  destruct (attempts_outcome env fonts w)
    as (w' & out & Hout & [(oks & -> & Hlen & Hall) | (_ & n & cmd & Hd)]).
  - do 3 eexists. split; [reflexivity|]. split; [|eauto].
    pose proof (count_occ_bool oks). lia.
  - now destruct (Hl n cmd).
Qed.




(** ** What a computation leaves untouched *)

Section Preserves.
Context {X : Type} (part : world -> X).

Lemma preserves_ret {A} (a : A) : preserves part (ret a).
Proof. now intros w. Qed.

Lemma preserves_raise {A} (e : exn) : preserves part (@raise A e).
Proof. now intros w. Qed.

Lemma preserves_lift {A} (r : res A) : preserves part (lift r).
Proof. now intros w. Qed.

Lemma preserves_bind {A B} (m : M A) (k : A -> M B) :
  preserves part m -> (forall a, preserves part (k a)) -> preserves part (bind m k).
Proof.
  intros Hm Hk w. unfold bind. specialize (Hm w).
  destruct (m w) as [[a|e] w1]; cbn in *; [|exact Hm].
  now rewrite Hk.
Qed.

Lemma preserves_try {A} (m : M A) (handler : exn -> option (M A)) :
  preserves part m ->
  (forall e h, handler e = Some h -> preserves part h) ->
  preserves part (try_except m handler).
Proof.
  intros Hm Hh w. unfold try_except. specialize (Hm w).
  destruct (m w) as [[a|e] w1]; cbn in *; [exact Hm|].
  destruct (handler e) as [h|] eqn:E; [|exact Hm].
  now rewrite (Hh e h E).
Qed.

Lemma preserves_for_each {A} (xs : list A) (body : A -> M unit) :
  (forall x, preserves part (body x)) -> preserves part (for_each xs body).
Proof.
  intros Hb. induction xs as [|x r IH]; cbn [for_each].
  - apply preserves_ret.
  - apply preserves_bind; auto.
Qed.
End Preserves.

Lemma print_preserves_stdin s : preserves stdin (print s).
Proof. now intros w. Qed.
Lemma print_preserves_scratch s : preserves scratch (print s).
Proof. now intros w. Qed.
Lemma print_preserves_commands s : preserves commands (print s).
Proof. now intros w. Qed.

Lemma input_preserves_scratch s : preserves scratch (input s).
Proof. intros w. unfold input, bind, print. cbn. now destruct (stdin w). Qed.
Lemma input_preserves_commands s : preserves commands (input s).
Proof. intros w. unfold input, bind, print. cbn. now destruct (stdin w). Qed.

Lemma readline_preserves_scratch : preserves scratch readline.
Proof. intros w. unfold readline. now destruct (stdin w). Qed.
Lemma readline_preserves_commands : preserves commands readline.
Proof. intros w. unfold readline. now destruct (stdin w). Qed.

Lemma get_scratch_preserves {X} (part : world -> X) : preserves part get_scratch.
Proof. now intros w. Qed.

Lemma set_scratch_preserves_stdin s : preserves stdin (set_scratch s).
Proof. now intros w. Qed.
Lemma set_scratch_preserves_commands s : preserves commands (set_scratch s).
Proof. now intros w. Qed.

Lemma subprocess_run_preserves_stdin env cmd :
  preserves stdin (subprocess_run env cmd).
Proof.
  intros w. unfold subprocess_run.
  destruct (launch env _ cmd) as [status| |]; [|reflexivity|reflexivity].
  now destruct (status =? 0).
Qed.
Lemma subprocess_run_preserves_scratch env cmd :
  preserves scratch (subprocess_run env cmd).
Proof.
  intros w. unfold subprocess_run.
  destruct (launch env _ cmd) as [status| |]; [|reflexivity|reflexivity].
  now destruct (status =? 0).
Qed.

Create HintDb frame.
#[export] Hint Resolve
  preserves_ret preserves_raise preserves_lift
  print_preserves_stdin print_preserves_scratch print_preserves_commands
  input_preserves_scratch input_preserves_commands
  readline_preserves_scratch readline_preserves_commands
  get_scratch_preserves set_scratch_preserves_stdin
  set_scratch_preserves_commands
  subprocess_run_preserves_stdin subprocess_run_preserves_scratch : frame.

(** Goes through the binds, handlers and case distinctions of a
    computation, closing the leaves with the facts of [frame]. *)
Ltac frame :=
  repeat first
    [ solve [auto with frame]
    | progress intros
    | apply preserves_bind
    | apply preserves_for_each
    | apply preserves_try;
      [| let e := fresh "e" in let h := fresh "h" in let H := fresh "H" in
         intros e h H; destruct e; cbn in H;
         try discriminate H; try (injection H as <-) ]
    | match goal with
      | |- preserves _ (match ?x with _ => _ end) => destruct x
      | |- preserves _ (let '(_, _) := ?x in _) => destruct x
      | |- preserves _ (sys_exit _) => apply preserves_raise
      end ].

Lemma select_loop_preserves_scratch font_files lines :
  preserves scratch (select_loop font_files lines).
Proof. intros w. apply select_loop_frame. Qed.

Lemma select_loop_preserves_commands font_files lines :
  preserves commands (select_loop font_files lines).
Proof. intros w. apply select_loop_frame. Qed.

Lemma select_fonts_cli_preserves_scratch font_files :
  preserves scratch (select_fonts_cli font_files).
Proof.
  intros w. rewrite select_fonts_cli_run.
  now rewrite select_loop_preserves_scratch.
Qed.

Lemma select_fonts_cli_preserves_commands font_files :
  preserves commands (select_fonts_cli font_files).
Proof.
  intros w. rewrite select_fonts_cli_run.
  now rewrite select_loop_preserves_commands.
Qed.

#[export] Hint Resolve
  select_fonts_cli_preserves_scratch select_fonts_cli_preserves_commands
  : frame.

Lemma choose_zip_preserves_scratch env a use_cli use_gui :
  preserves scratch (choose_zip env a use_cli use_gui).
Proof. unfold choose_zip. frame. Qed.

Lemma choose_zip_preserves_commands env a use_cli use_gui :
  preserves commands (choose_zip env a use_cli use_gui).
Proof. unfold choose_zip. frame. Qed.

Lemma extract_member_preserves_stdin env e :
  preserves stdin (extract_member env e).
Proof. unfold extract_member. frame. Qed.

Lemma extract_member_preserves_commands env e :
  preserves commands (extract_member env e).
Proof. unfold extract_member. frame. Qed.

#[export] Hint Resolve
  extract_member_preserves_stdin extract_member_preserves_commands : frame.

Lemma extract_zip_preserves_stdin env zip_path extract_dir :
  preserves stdin (extract_zip env zip_path extract_dir).
Proof. unfold extract_zip, extractall, ZipFile, getinfo. frame. Qed.

Lemma extract_zip_preserves_commands env zip_path extract_dir :
  preserves commands (extract_zip env zip_path extract_dir).
Proof. unfold extract_zip, extractall, ZipFile, getinfo. frame. Qed.

(** ** The scratch directory *)

Lemma with_TemporaryDirectory_removes {A} (env : platform)
      (body : string -> M A) (w : world) :
  scratch (snd (with_TemporaryDirectory env body w)) = None.
Proof.
  unfold with_TemporaryDirectory. now destruct (body _ _).
Qed.

(** After [main], the scratch directory it created is gone, however the run
    ended; a run that ends before the directory is created does not create
    it. *)
Lemma main_removes_scratch (env : platform) (a : args) (w : world) :
  scratch w = None -> scratch (snd (main env a w)) = None.
Proof.
  intros Hw. unfold main. destruct (interface_mode env a) as [use_cli use_gui].
  unfold bind at 1.
  pose proof (choose_zip_preserves_scratch env a use_cli use_gui w) as Hz.
  destruct (choose_zip env a use_cli use_gui w) as [[[[zip_path uc] ug]|e] w1];
    cbn [snd] in *.
  - apply with_TemporaryDirectory_removes.
  - congruence.
Qed.

(** C9 on [font-fox.py]: given a file that is not a ZIP container (here the
    empty file), or an archive without fonts, [install_fonts] returns
    normally and the extraction directory it created is still there. *)
Theorem install_fonts_leaves_scratch_behind :
  FontFox.install_fonts sample_platform "empty.zip" idle
  = (Ok tt, World [] ["Error: Invalid ZIP file."] (Some (Dir [])) [])
  /\ FontFox.install_fonts sample_platform "notes.zip" idle
     = (Ok tt,
        World [] ["Extracted fonts to ~/Downloads/extracted_fonts";
                  "No valid font files found in the ZIP."]
              (Some (Dir [("notes.txt", File "n")])) []).
Proof. split; reflexivity. Qed.

(** The same for every platform and every file [zipfile] rejects. *)
Lemma install_fonts_bad_zip (env : platform) (zip_path bytes : string)
      (w : world) :
  isfile env zip_path = Some (Garbage bytes) ->
  fst (FontFox.install_fonts env zip_path w) = Ok tt
  /\ scratch (snd (FontFox.install_fonts env zip_path w)) = Some (Dir []).
Proof.
  intros H. unfold FontFox.install_fonts, bind, try_except, ZipFile.
  cbn. now rewrite H.
Qed.

(** ** Failed extraction *)

Lemma extract_member_raises (env : platform) (e : zip_entry) (w w' : world)
      (x : exn) :
  extract_member env e w = (Raise x, w') -> x = OSError \/ x = BadZipFile.
Proof.
  unfold extract_member, bind, get_scratch. cbn.
  destruct (write_fault env (target e)); [intros [= <- _]; now left|].
  destruct (place _ _ _ _); [|intros [= <- _]; now left].
  destruct (is_dir e || crc_ok e); cbn; [discriminate|].
  intros [= <- _]; now right.
Qed.

(** The name of a member decides where and how it is unpacked. *)
Lemma same_name (e e' : zip_entry) :
  filename e = filename e' ->
  target e = target e' /\ is_dir e = is_dir e'
  /\ is_font_member e = is_font_member e'.
Proof. unfold is_font_member, target, is_dir. now intros ->. Qed.

Lemma member_for_spec (entries : list zip_entry) (e : zip_entry) :
  In e entries ->
  find (fun e' => String.eqb (filename e') (filename e)) (rev entries)
  = Some (member_for entries e)
  /\ In (member_for entries e) entries
  /\ filename (member_for entries e) = filename e.
Proof.
  intros Hin. unfold member_for.
  destruct (find _ (rev entries)) as [m|] eqn:E.
  - apply find_some in E as [Hm Hname]. split; [reflexivity|]. split.
    + now apply in_rev.
    + now apply String.eqb_eq.
  - exfalso. apply in_rev in Hin.
    pose proof (find_none _ _ E e Hin) as Hno. cbn in Hno.
    now rewrite String.eqb_refl in Hno.
Qed.

Lemma getinfo_run (entries : list zip_entry) (e : zip_entry) (w : world) :
  In e entries ->
  getinfo entries (filename e) w = (Ok (member_for entries e), w).
Proof.
  intros Hin. unfold getinfo.
  now rewrite (proj1 (member_for_spec entries e Hin)).
Qed.

(** [extractall] unpacks the members [members] lists, in that order. *)
Lemma extractall_unpack (env : platform) (entries : list zip_entry)
      (w : world) :
  extractall env entries w = unpack env (members entries) w.
Proof.
  unfold extractall, members, unpack.
  assert (H : forall l,
             incl l entries ->
             forall w,
               for_each (map filename l)
                        (fun name =>
                           member <- getinfo entries name ;;
                           extract_member env member) w
               = for_each (map (member_for entries) l) (extract_member env) w).
  { induction l as [|e l IH]; intros Hl w0; [reflexivity|].
    cbn [map for_each]. unfold bind at 1 2 4.
    rewrite (getinfo_run entries e w0) by (apply Hl; now left).
    destruct (extract_member env (member_for entries e) w0) as [[[]|x] w1];
      [|reflexivity].
    apply IH. intros e' He'. apply Hl. now right. }
  apply H, incl_refl.
Qed.

Lemma unpack_raises (env : platform) (ms : list zip_entry)
      (w w' : world) (x : exn) :
  unpack env ms w = (Raise x, w') -> x = OSError \/ x = BadZipFile.
Proof.
  unfold unpack. revert w.
  induction ms as [|e rest IH]; intros w; cbn [for_each].
  - discriminate.
  - unfold bind at 1. destruct (extract_member env e w) as [[[]|y] w1] eqn:E.
    + apply IH.
    + intros [= <- _]. exact (extract_member_raises _ _ _ _ _ E).
Qed.

Lemma extractall_raises (env : platform) (entries : list zip_entry)
      (w w' : world) (x : exn) :
  extractall env entries w = (Raise x, w') -> x = OSError \/ x = BadZipFile.
Proof. rewrite extractall_unpack. apply unpack_raises. Qed.

(** [extract_zip] step by step. *)
Lemma extract_zip_run (env : platform) (zip_path extract_dir : string)
      (w : world) :
  extract_zip env zip_path extract_dir w =
  match isfile env zip_path with
  | None =>
      (Ok [], printed ["Error extracting ZIP file: FileNotFoundError"] w)
  | Some (Garbage _) =>
      (Ok [], printed ["Error: The selected file is not a valid ZIP file."] w)
  | Some (Zip entries) =>
      match extractall env entries w with
      | (Ok _, w1) =>
          (Ok match scratch w1 with
              | Some n => found_fonts (walk extract_dir n)
              | None => []
              end, w1)
      | (Raise BadZipFile, w1) =>
          (Ok [], printed ["Error: The selected file is not a valid ZIP file."] w1)
      | (Raise e, w1) =>
          if is_Exception e
          then (Ok [], printed [("Error extracting ZIP file: " ++ describe e)%string] w1)
          else (Raise e, w1)
      end
  end.
Proof.
  unfold extract_zip, try_except, ZipFile.
  destruct (isfile env zip_path) as [[entries|bytes]|]; try reflexivity.
  unfold bind at 1. cbn [ret]. unfold bind at 1.
  destruct (extractall env entries w) as [[[]|x] w1].
  - unfold bind, get_scratch. cbn. now destruct (scratch w1).
  - now destruct x.
Qed.

(** The outcome of [extract_zip] by what opening and unpacking do. *)
Lemma extract_zip_cases (env : platform) (zip_path extract_dir : string)
      (w : world) :
  (extraction_fails env zip_path w ->
   fst (extract_zip env zip_path extract_dir w) = Ok [])
  /\ exists fonts, fst (extract_zip env zip_path extract_dir w) = Ok fonts.
Proof.
  rewrite extract_zip_run. unfold extraction_fails.
  destruct (isfile env zip_path) as [[entries|bytes]|]; cbn; eauto.
  destruct (extractall env entries w) as [[[]|x] w1] eqn:E; cbn.
  - split; [intros (e & He); discriminate | eauto].
  - destruct (extractall_raises _ _ _ _ _ E) as [-> | ->]; cbn; eauto.
Qed.

(** C7.  When the file is not a ZIP container (or is no file at all), or
    when unpacking raises, [extract_zip] returns the empty list; and
    whatever it is given, it returns a list and raises nothing. *)
Theorem extract_zip_failure_is_empty
        (env : platform) (zip_path extract_dir : string) (w : world) :
  extraction_fails env zip_path w ->
  fst (extract_zip env zip_path extract_dir w) = Ok []
  /\ forall zip_path' extract_dir' w',
       exists fonts,
         fst (extract_zip env zip_path' extract_dir' w') = Ok fonts.
Proof.
  intros Hfail. split.
  - now apply extract_zip_cases.
  - intros z d w'. apply extract_zip_cases.
Qed.

Lemma extract_zip_failure_is_empty_witness :
  fst (extract_zip sample_platform "empty.zip" "/tmp/fonts" scratch_created)
  = Ok []
  /\ forall zip_path' extract_dir' w',
       exists fonts,
         fst (extract_zip sample_platform zip_path' extract_dir' w') = Ok fonts.
Proof.
  apply (extract_zip_failure_is_empty
           sample_platform "empty.zip" "/tmp/fonts" scratch_created).
  exact I.
Defined.

(** ** What extraction depends on *)

Lemma disk_determined_bind {A B} (m : M A) (k : A -> M B) :
  disk_determined m -> (forall a, disk_determined (k a)) ->
  disk_determined (bind m k).
Proof.
  intros Hm Hk w w' Hs. unfold bind. destruct (Hm w w' Hs) as [Hv Hd].
  destruct (m w) as [[a|e] w1], (m w') as [[a'|e'] w1']; cbn in *;
    try discriminate.
  - injection Hv as <-. now apply Hk.
  - injection Hv as <-. now split.
Qed.

Lemma disk_determined_for_each {A} (xs : list A) (body : A -> M unit) :
  (forall x, disk_determined (body x)) -> disk_determined (for_each xs body).
Proof.
  intros Hb. induction xs as [|x r IH]; cbn [for_each].
  - now intros w w' Hs.
  - apply disk_determined_bind; auto.
Qed.

Lemma extract_member_disk_determined (env : platform) (e : zip_entry) :
  disk_determined (extract_member env e).
Proof.
  intros w w' Hs. unfold extract_member, bind, get_scratch. cbn. rewrite Hs.
  destruct (write_fault env (target e)); [now split|].
  destruct (place _ _ _ _); [|now split].
  now destruct (is_dir e || crc_ok e).
Qed.

Lemma extract_zip_disk_determined (env : platform)
      (zip_path extract_dir : string) :
  disk_determined (extract_zip env zip_path extract_dir).
Proof.
  intros w w' Hs. rewrite !extract_zip_run.
  destruct (isfile env zip_path) as [[entries|bytes]|]; try (now split).
  destruct (disk_determined_for_each (members entries) (extract_member env)
              (extract_member_disk_determined env) w w' Hs) as [Hv Hd].
  fold (unpack env (members entries)) in Hv, Hd.
  rewrite <- !extractall_unpack in Hv, Hd.
  destruct (extractall env entries w) as [[[]|x] w1],
           (extractall env entries w') as [[[]|x'] w1']; cbn in *;
    try discriminate.
  - rewrite Hd. now split.
  - injection Hv as <-. destruct x; cbn; now split.
Qed.

(** ** Reversed ranges *)

Lemma range_reversed (start end_ : Z) :
  start > end_ -> range start (end_ + 1) = [].
Proof.
  intros H. unfold range. now replace (Z.to_nat (end_ + 1 - start)) with 0%nat by lia.
Qed.

Lemma reversed_range_indices (part : string) :
  reversed_range part -> part_indices part = Some [].
Proof.
  intros (Hc & start & end_ & Hs & Hgt). unfold part_indices, part_item.
  rewrite Hc, Hs. cbn [option_map item_indices]. now rewrite range_reversed.
Qed.

Lemma reversed_ranges_indices (parts : list string) (acc : list Z) :
  Forall reversed_range parts -> parts_indices parts acc = Some acc.
Proof.
  intros H. revert acc. induction H as [|part parts Hp _ IH]; intros acc.
  - reflexivity.
  - cbn [parts_indices]. rewrite (reversed_range_indices _ Hp), app_nil_r.
    apply IH.
Qed.

(** A line of reversed ranges is accepted by the loop and selects
    nothing. *)
Lemma select_fonts_cli_reversed (font_files : list font) (line : string)
      (rest : list string) (w : world) :
  stdin w = line :: rest ->
  Forall reversed_range (PyStr.split "," (selection_text Interactive line)) ->
  select_fonts_cli font_files w
  = (Ok [], with_stdin rest (printed (banner font_files ++ [prompt]) w)).
Proof.
  intros Hin Hrev.
  pose proof (reversed_ranges_indices _ [] Hrev) as Hty.
  fold (typed_indices (selection_text Interactive line)) in Hty.
  destruct (not_keyword _ _ Hty) as [Hq Ha].
  rewrite select_fonts_cli_run, Hin, select_loop_step. cbv zeta.
  cbn [selection_text] in *. rewrite Hq, Ha.
  destruct (parse_selection_picked font_files _ [] Hty (Forall_nil _))
    as (fonts & -> & Hp).
  inversion Hp; subst. now rewrite printed_app.
Qed.

(** ** A run of [main] at the terminal *)

Lemma choose_zip_given (env : platform) (a : args) (use_cli use_gui : bool)
      (p : string) (d : disk_file) (w : world) :
  zip a = Some p -> unset p = false ->
  isfile env (expanduser env p) = Some d ->
  choose_zip env a use_cli use_gui w = (Ok (expanduser env p, use_cli, use_gui), w).
Proof.
  intros Hz Hu Hf. unfold choose_zip. rewrite Hz, Hu, andb_false_r.
  unfold bind, ret. cbn. rewrite Hu. cbn. now rewrite Hf.
Qed.

Lemma ask_install_all_declined (env : platform) (a : args)
      (font_files : list font) (answer : string) (rest : list string)
      (w : world) :
  install_all_flag a = false -> auto a = false -> isatty env = true ->
  stdin w = answer :: rest ->
  PyStr.startswith (PyStr.lower (PyStr.strip answer)) "y" = false ->
  ask_install_all env a true false font_files w
  = (Ok (false, true, false),
     with_stdin rest
       (printed [(found_message font_files ++ " Install all? (y/n): ")%string] w)).
Proof.
  intros Hf Ha Ht Hin Hn. unfold ask_install_all. rewrite Hf, Ha, Ht.
  cbn [orb negb andb]. unfold bind at 1. cbn [ret andb].
  unfold try_except. unfold bind at 1.
  rewrite (input_run _ _ _ _ Hin). unfold ret. now rewrite Hn.
Qed.

Lemma fonts_to_install_at_terminal (env : platform) (a : args)
      (font_files fonts : list font) (w w' : world) :
  auto a = false -> isatty env = true ->
  select_fonts_cli font_files w = (Ok fonts, w') ->
  fonts_to_install env a false false font_files w = (Ok fonts, w').
Proof.
  intros Ha Ht Hs. unfold fonts_to_install, try_except.
  now rewrite Ha, Ht, Hs.
Qed.

(** C10.  A line made of ranges whose start exceeds their end names no
    index: at the prompt it is accepted at once, one line being read, and
    selects nothing.  A run of [main] at the terminal in which fonts were
    found, installing all was declined and such a line was typed ends with
    exit status 0 after "No fonts selected for installation. Exiting.",
    with no command launched and no further line read. *)
Theorem reversed_ranges_select_nothing
        (env : platform) (a : args) (p : string) (d : disk_file)
        (f : font) (fs : list font) (answer line : string)
        (rest : list string) (w : world) :
  interface_mode env a = (true, false) ->
  install_all_flag a = false -> auto a = false -> isatty env = true ->
  zip a = Some p -> unset p = false ->
  isfile env (expanduser env p) = Some d ->
  fst (extract_zip env (expanduser env p) (temp_dir env) scratch_created)
  = Ok (f :: fs) ->
  stdin w = answer :: line :: rest ->
  PyStr.startswith (PyStr.lower (PyStr.strip answer)) "y" = false ->
  Forall reversed_range (PyStr.split "," (selection_text Interactive line)) ->
  typed_indices (selection_text Interactive line) = Some []
  /\ (forall font_files w0,
        stdin w0 = line :: rest ->
        select_fonts_cli font_files w0
        = (Ok [], with_stdin rest (printed (banner font_files ++ [prompt]) w0)))
  /\ fst (main env a w) = Raise (SystemExit 0)
  /\ exit_status (fst (main env a w)) = 0
  /\ stdin (snd (main env a w)) = rest
  /\ commands (snd (main env a w)) = commands w
  /\ last (stdout (snd (main env a w))) ""
     = "No fonts selected for installation. Exiting.".
Proof.
  intros Hmode Hflag Hauto Htty Hzip Hset Hfile Hfound Hin Hno Hrev.
  split; [exact (reversed_ranges_indices _ [] Hrev)|].
  split; [intros font_files w0 H0;
          exact (select_fonts_cli_reversed font_files line rest w0 H0 Hrev)|].
  assert (Hmain : exists out,
             main env a w
             = (Raise (SystemExit 0),
                World rest
                      (out ++ ["No fonts selected for installation. Exiting."])
                      None (commands w))).
  { unfold main. rewrite Hmode. unfold bind at 1.
    rewrite (choose_zip_given env a true false p d w Hzip Hset Hfile).
    unfold with_TemporaryDirectory.
    unfold bind at 1. rewrite print_run.
    set (w1 := printed _ _).
    unfold bind at 1.
    pose proof (extract_zip_preserves_stdin env (expanduser env p) (temp_dir env) w1) as Hs.
    pose proof (extract_zip_preserves_commands env (expanduser env p) (temp_dir env) w1) as Hc.
    destruct (extract_zip_disk_determined env (expanduser env p) (temp_dir env)
                w1 scratch_created eq_refl) as [Hv _].
    rewrite Hfound in Hv.
    destruct (extract_zip env (expanduser env p) (temp_dir env) w1) as [r w2].
    cbn [fst snd] in Hv, Hs, Hc. subst r.
    unfold bind at 1. cbn [ret]. unfold bind at 1. rewrite print_run.
    unfold bind at 1.
    rewrite (ask_install_all_declined env a (f :: fs) answer (line :: rest)
               (printed [found_message (f :: fs)] w2) Hflag Hauto Htty)
      by (cbn [stdin printed]; first [now rewrite Hs | exact Hno]).
    unfold bind at 1.
    erewrite fonts_to_install_at_terminal; try eassumption;
      [|apply (select_fonts_cli_reversed (f :: fs) line rest);
        [reflexivity | exact Hrev]].
    unfold bind at 1. unfold bind at 1. rewrite print_run.
    unfold sys_exit, raise. cbn [stdin stdout commands printed with_stdin].
    rewrite Hc. eexists. reflexivity. }
  destruct Hmain as (out & ->). cbn [fst snd exit_status stdin commands stdout].
  repeat split. apply last_last.
Qed.

Lemma is_reversed_range_true (part : string) :
  is_reversed_range part = true -> reversed_range part.
Proof.
  unfold is_reversed_range, reversed_range. intros H.
  apply andb_true_iff in H as [Hc Hr]. split; [exact Hc|].
  destruct (map PyInt.int (PyStr.split "-" part)) as [|[start|] [|[end_|] [|]]];
    try discriminate.
  exists start, end_. split; [reflexivity|]. now apply Z.gtb_gt.
Defined.

Lemma all_reversed_ranges (parts : list string) :
  forallb is_reversed_range parts = true -> Forall reversed_range parts.
Proof.
  intros H. apply Forall_forall. intros part Hin.
  apply is_reversed_range_true. rewrite forallb_forall in H. now apply H.
Defined.

Lemma reversed_ranges_select_nothing_witness :
  typed_indices (selection_text Interactive "3-1, 2-1") = Some []
  /\ (forall font_files w0,
        stdin w0 = "3-1, 2-1" :: ["1"] ->
        select_fonts_cli font_files w0
        = (Ok [], with_stdin ["1"] (printed (banner font_files ++ [prompt]) w0)))
  /\ fst (main sample_platform sample_args (with_stdin ["n"; "3-1, 2-1"; "1"] idle))
     = Raise (SystemExit 0)
  /\ exit_status
       (fst (main sample_platform sample_args
                  (with_stdin ["n"; "3-1, 2-1"; "1"] idle))) = 0
  /\ stdin (snd (main sample_platform sample_args
                      (with_stdin ["n"; "3-1, 2-1"; "1"] idle))) = ["1"]
  /\ commands (snd (main sample_platform sample_args
                         (with_stdin ["n"; "3-1, 2-1"; "1"] idle)))
     = commands (with_stdin ["n"; "3-1, 2-1"; "1"] idle)
  /\ last (stdout (snd (main sample_platform sample_args
                             (with_stdin ["n"; "3-1, 2-1"; "1"] idle)))) ""
     = "No fonts selected for installation. Exiting.".
Proof.
  apply (reversed_ranges_select_nothing
           sample_platform sample_args "fonts.zip" (Zip sample_archive)
           font_a [font_c; font_b] "n" "3-1, 2-1" ["1"]
           (with_stdin ["n"; "3-1, 2-1"; "1"] idle));
    try reflexivity.
  apply all_reversed_ranges. reflexivity.
Defined.

(** ** Unpacking an archive *)

Lemma is_prefix_refl (p : list string) : is_prefix p p = true.
Proof.
  induction p as [|c p IH]; [reflexivity|].
  cbn. now rewrite String.eqb_refl.
Qed.

Lemma files_of_dir_cons (c : string) (k : node) (kids : dir) :
  files_of (Dir ((c, k) :: kids))
  = map (cons c) (files_of k) ++ files_of (Dir kids).
Proof. reflexivity. Qed.

Lemma dirs_of_dir_cons (c : string) (k : node) (kids : dir) (q : list string) :
  In q (dirs_of (Dir ((c, k) :: kids)))
  <-> In q (map (cons c) (dirs_of k)) \/ In q (dirs_of (Dir kids)).
Proof.
  cbn [dirs_of flat_map fst snd In]. rewrite in_app_iff. tauto.
Qed.

Lemma files_of_fresh (isdir : bool) (data : string) (p : list string) :
  files_of (fresh isdir data p) = if isdir then [] else [p].
Proof.
  induction p as [|c p IH]; cbn [fresh].
  - now destruct isdir.
  - cbn [files_of flat_map fst snd]. rewrite IH, app_nil_r. now destruct isdir.
Qed.

Lemma dirs_of_fresh (isdir : bool) (data : string) (p q : list string) :
  In q (dirs_of (fresh isdir data p)) ->
  is_prefix q p = true /\ (isdir = false -> q <> p).
Proof.
  revert q. induction p as [|c p IH]; intros q; cbn [fresh].
  - destruct isdir; cbn; [|tauto].
    intros [<-|[]]. split; [reflexivity | discriminate].
  - cbn [dirs_of flat_map fst snd]. rewrite app_nil_r. intros [<-|Hin].
    + split; [reflexivity | discriminate].
    + apply in_map_iff in Hin as (q' & <- & Hq').
      destruct (IH q' Hq') as [Hp Hne]. split.
      * cbn. now rewrite String.eqb_refl.
      * intros Hf [= E]. now apply Hne.
Qed.

Lemma place_in_spec (isdir : bool) (data : string) (c : string)
      (r : list string) :
  (forall k,
      (forall q, In q (files_of k) -> is_prefix q r = false) ->
      (isdir = false -> ~ In r (dirs_of k)) ->
      exists k', place isdir data r k = Some k' /\ placed isdir r k k') ->
  forall kids,
    (forall q, In q (files_of (Dir kids)) -> is_prefix q (c :: r) = false) ->
    (isdir = false -> ~ In (c :: r) (dirs_of (Dir kids))) ->
    exists kids',
      place_in c (place isdir data r) (fresh isdir data r) kids = Some kids'
      /\ placed isdir (c :: r) (Dir kids) (Dir kids').
Proof.
  intros IHr. induction kids as [|[c' k] kids IH]; intros HA HB.
  - exists [(c, fresh isdir data r)]. split; [reflexivity|]. split.
    + rewrite files_of_dir_cons, files_of_fresh. cbn.
      destruct isdir; reflexivity.
    + intros q Hq. apply dirs_of_dir_cons in Hq as [Hq|Hq]; [right | now left].
      apply in_map_iff in Hq as (q' & <- & Hq').
      destruct (dirs_of_fresh _ _ _ _ Hq') as [Hp Hne]. split.
      * cbn. now rewrite String.eqb_refl.
      * intros Hf [= E]. now apply Hne.
  - cbn [place_in]. destruct (String.eqb c c') eqn:Ec.
    + apply String.eqb_eq in Ec. subst c'.
      destruct (IHr k) as (k' & -> & Hperm & Hdirs).
      * intros q Hq. specialize (HA (c :: q)).
        rewrite files_of_dir_cons in HA. cbn [is_prefix] in HA.
        rewrite String.eqb_refl in HA. apply HA.
        apply in_or_app. left. now apply in_map.
      * intros Hf Hin. apply (HB Hf). apply dirs_of_dir_cons. left.
        now apply in_map.
      * exists ((c, k') :: kids). split; [reflexivity|]. split.
        -- rewrite !files_of_dir_cons.
           apply (Permutation_map (cons c)) in Hperm.
           rewrite Hperm, map_app, <- app_assoc. now destruct isdir.
        -- intros q Hq. apply dirs_of_dir_cons in Hq as [Hq|Hq].
           ++ apply in_map_iff in Hq as (q' & <- & Hq').
              destruct (Hdirs q' Hq') as [Hold | [Hp Hne]].
              ** left. apply dirs_of_dir_cons. left. now apply in_map.
              ** right. split; [cbn; now rewrite String.eqb_refl|].
                 intros Hf [= E]. now apply Hne.
           ++ left. apply dirs_of_dir_cons. now right.
    + destruct IH as (kids' & -> & Hperm & Hdirs).
      * intros q Hq. apply HA. rewrite files_of_dir_cons.
        apply in_or_app. now right.
      * intros Hf Hin. apply (HB Hf). apply dirs_of_dir_cons. now right.
      * exists ((c', k) :: kids'). split; [reflexivity|]. split.
        -- rewrite !files_of_dir_cons, Hperm.
           destruct isdir; cbn [app]; [reflexivity|].
           apply Permutation_sym, Permutation_middle.
        -- intros q Hq. apply dirs_of_dir_cons in Hq as [Hq|Hq].
           ++ left. apply dirs_of_dir_cons. now left.
           ++ destruct (Hdirs q Hq) as [Hold | Hnew]; [left | now right].
              apply dirs_of_dir_cons. now right.
Qed.

Lemma place_spec (isdir : bool) (data : string) (p : list string) (n : node) :
  (forall q, In q (files_of n) -> is_prefix q p = false) ->
  (isdir = false -> ~ In p (dirs_of n)) ->
  exists n', place isdir data p n = Some n' /\ placed isdir p n n'.
Proof.
  revert n. induction p as [|c r IH]; intros n HA HB.
  - destruct n as [d|kids].
    + specialize (HA [] (or_introl eq_refl)). discriminate.
    + destruct isdir.
      * exists (Dir kids). split; [reflexivity|]. split; [reflexivity|].
        intros q Hq. now left.
      * exfalso. apply HB; [reflexivity | now left].
  - destruct n as [d|kids].
    + specialize (HA [] (or_introl eq_refl)). discriminate.
    + destruct (place_in_spec isdir data c r IH kids HA HB)
        as (kids' & Hp & Hplaced).
      exists (Dir kids'). cbn [place]. now rewrite Hp.
Qed.

Lemma extract_member_ok (env : platform) (e : zip_entry) (n n' : node)
      (w : world) :
  sound_member env e = true ->
  scratch w = Some n ->
  place (is_dir e) (written e) (target e) n = Some n' ->
  extract_member env e w
  = (Ok tt, World (stdin w) (stdout w) (Some n') (commands w)).
Proof.
  unfold sound_member, extract_member, bind, get_scratch.
  intros Hs Hw Hp. apply andb_true_iff in Hs as [Hf Hc].
  apply negb_true_iff in Hf. cbn. now rewrite Hw, Hf, Hp, Hc.
Qed.

(** Unpacking an archive whose members do not collide succeeds and adds one
    file for each file member. *)
Lemma unpack_ok (env : platform) (entries : list zip_entry) :
  forall (n : node) (w : world),
    forallb (sound_member env) entries = true ->
    conflict_free entries = true ->
    scratch w = Some n ->
    (forall e q, In e entries -> In q (files_of n) ->
                 is_prefix q (target e) = false) ->
    (forall e, In e entries -> is_dir e = false ->
               ~ In (target e) (dirs_of n)) ->
    exists w' n',
      unpack env entries w = (Ok tt, w')
      /\ scratch w' = Some n'
      /\ Permutation
           (files_of n')
           (map target (filter (fun e => negb (is_dir e)) entries)
              ++ files_of n).
Proof.
  unfold unpack.
  induction entries as [|e rest IH]; intros n w Hsound Hfree Hw HA HB.
  - exists w, n. now repeat split.
  - cbn [forallb] in Hsound. apply andb_true_iff in Hsound as [Hse Hsrest].
    cbn [conflict_free] in Hfree.
    apply andb_true_iff in Hfree as [Hfree Hfrest].
    apply andb_true_iff in Hfree as [_ Hpairs].
    rewrite forallb_forall in Hpairs.
    destruct (place_spec (is_dir e) (written e) (target e) n)
      as (n1 & Hplace & Hperm & Hdirs).
    { intros q Hq. apply (HA e q); [now left | exact Hq]. }
    { intros Hf. apply HB; [now left | exact Hf]. }
    cbn [for_each]. unfold bind at 1.
    rewrite (extract_member_ok env e n n1 w Hse Hw Hplace).
    destruct (IH n1 (World (stdin w) (stdout w) (Some n1) (commands w)))
      as (w' & n' & Hrun & Hw' & Hperm'); try assumption; try reflexivity.
    { intros e' q He' Hq.
      apply (Permutation_in _ Hperm) in Hq. apply in_app_or in Hq as [Hq|Hq].
      - destruct (is_dir e) eqn:Ed; [destruct Hq|].
        destruct Hq as [<-|[]].
        specialize (Hpairs e' He'). apply andb_true_iff in Hpairs as [H1 _].
        unfold in_the_way in H1. now rewrite Ed in H1; apply negb_true_iff in H1.
      - apply (HA e' q); [now right | exact Hq]. }
    { intros e' He' Hf Hin. destruct (Hdirs _ Hin) as [Hold | [Hp _]].
      - apply (HB e'); [now right | exact Hf | exact Hold].
      - specialize (Hpairs e' He'). apply andb_true_iff in Hpairs as [_ H2].
        unfold in_the_way in H2. rewrite Hf, Hp in H2. discriminate. }
    exists w', n'. split; [exact Hrun|]. split; [exact Hw'|].
    rewrite Hperm', Hperm. cbn [filter].
    destruct (is_dir e); cbn [negb map app]; [reflexivity|].
    apply Permutation_sym, Permutation_middle.
Qed.

(** ** Scanning the tree *)

Lemma found_fonts_app (l l' : list (string * list string * list string)) :
  found_fonts (l ++ l') = found_fonts l ++ found_fonts l'.
Proof. unfold found_fonts. apply flat_map_app. Qed.

Lemma found_fonts_cons (root : string) (dirs files : list string)
      (l : list (string * list string * list string)) :
  found_fonts ((root, dirs, files) :: l)
  = map (fun file => Font (path_join root file) file)
        (filter is_font_file files)
    ++ found_fonts l.
Proof. reflexivity. Qed.

Lemma files_of_dir_nonempty (kids : dir) (q : list string) :
  In q (files_of (Dir kids)) -> q <> [].
Proof.
  cbn [files_of]. intros H. apply in_flat_map in H as (kn & _ & Hq).
  apply in_map_iff in Hq as (q' & <- & _). discriminate.
Qed.

Lemma filter_length_ext {A} (f g : A -> bool) (l : list A) :
  (forall x, In x l -> f x = g x) ->
  List.length (filter f l) = List.length (filter g l).
Proof.
  intros H. induction l as [|x l IH]; [reflexivity|]. cbn [filter].
  rewrite (H x (or_introl eq_refl)).
  assert (IH' : List.length (filter f l) = List.length (filter g l))
    by (apply IH; intros y Hy; apply H; now right).
  destruct (g x); cbn [List.length]; now rewrite IH'.
Qed.

Lemma filter_map_length {A B} (f : B -> bool) (g : A -> B) (l : list A) :
  List.length (filter f (map g l))
  = List.length (filter (fun x => f (g x)) l).
Proof.
  induction l as [|x l IH]; [reflexivity|]. cbn [map filter].
  destruct (f (g x)); cbn [List.length]; now rewrite IH.
Qed.

(** The scan of [extract_zip] finds one font for each file of the tree that
    is named like a font. *)
Lemma found_fonts_count (n : node) :
  forall top,
    List.length (found_fonts (walk top n))
    = List.length (filter is_font_path (files_of n)).
Proof.
  induction n as [d|kids IH] using node_induction; intros top.
  - reflexivity.
  - cbn [walk]. rewrite found_fonts_cons, length_app, length_map.
    induction kids as [|[c k] kids IHk].
    + reflexivity.
    + inversion IH as [|? ? Hk Hkids]; subst. specialize (IHk Hkids).
      rewrite files_of_dir_cons, filter_app, length_app, <- IHk.
      cbn [flat_map fst snd]. rewrite found_fonts_app, length_app.
      cbn [snd] in Hk. destruct k as [d|kids2].
      * cbn [filter is_file_node snd map fst walk files_of].
        change (found_fonts []) with (@nil font).
        unfold is_font_path at 1. cbn [last].
        destruct (is_font_file c); cbn [List.length filter map]; lia.
      * rewrite (Hk (path_join top c)).
        cbn [filter is_file_node snd negb].
        rewrite (filter_map_length is_font_path (cons c)).
        rewrite (filter_length_ext (fun x => is_font_path (c :: x)) is_font_path).
        -- lia.
        -- intros q Hq. apply files_of_dir_nonempty in Hq.
           unfold is_font_path. destruct q; [contradiction | reflexivity].
Qed.

Lemma found_fonts_names (l : list (string * list string * list string)) :
  Forall (fun f => is_font_file (name f) = true) (found_fonts l).
Proof.
  induction l as [|[[root dirs] files] l IH]; [constructor|].
  rewrite found_fonts_cons. apply Forall_app. split; [|exact IH].
  apply Forall_forall. intros f Hf.
  apply in_map_iff in Hf as (file & <- & Hfile).
  now apply filter_In in Hfile.
Qed.

Lemma permutation_filter_length {A} (f : A -> bool) (l l' : list A) :
  Permutation l l' ->
  List.length (filter f l) = List.length (filter f l').
Proof.
  induction 1 as [|x l l' _ IH|x y l|l l' l'' _ IH1 _ IH2]; cbn [filter].
  - reflexivity.
  - destruct (f x); cbn [List.length]; now rewrite IH.
  - now destruct (f x), (f y).
  - now rewrite IH1.
Qed.

Lemma font_members_count (entries : list zip_entry) :
  List.length
    (filter is_font_path
            (map target (filter (fun e => negb (is_dir e)) entries)))
  = List.length (filter is_font_member entries).
Proof.
  induction entries as [|e rest IH]; [reflexivity|].
  cbn [filter]. unfold is_font_member at 1.
  destruct (is_dir e); cbn [negb andb map filter]; [exact IH|].
  fold (is_font_path (target e)).
  destruct (is_font_path (target e)); cbn [List.length]; now rewrite IH.
Qed.

Lemma conflict_free_nonempty (entries : list zip_entry) (e : zip_entry) :
  conflict_free entries = true -> In e entries -> is_dir e = false ->
  target e <> [].
Proof.
  induction entries as [|e' rest IH]; [contradiction|].
  cbn [conflict_free]. intros H Hin Hf.
  apply andb_true_iff in H as [H Hrest]. apply andb_true_iff in H as [H _].
  destruct Hin as [->|Hin]; [|now apply IH].
  rewrite Hf in H. cbn in H. intros E. now rewrite E in H.
Qed.

(** *** The members behind the names *)

Lemma members_same_names (entries : list zip_entry) :
  same_names entries (members entries)
  /\ Forall (fun m => In m entries) (members entries).
Proof.
  unfold same_names, members.
  assert (H : forall l,
             incl l entries ->
             Forall2 (fun e m => filename m = filename e)
                     l (map (member_for entries) l)
             /\ Forall (fun m => In m entries) (map (member_for entries) l)).
  { induction l as [|e l IH]; intros Hl; [split; constructor|].
    destruct (member_for_spec entries e (Hl e (or_introl eq_refl)))
      as (_ & Hin & Hname).
    destruct IH as [IH1 IH2]; [intros e' He'; apply Hl; now right|].
    split; now constructor. }
  apply H, incl_refl.
Qed.

Lemma same_names_file_targets (es ms : list zip_entry) :
  same_names es ms ->
  map target (filter (fun e => negb (is_dir e)) ms)
  = map target (filter (fun e => negb (is_dir e)) es).
Proof.
  induction 1 as [|e m es ms Hname _ IH]; [reflexivity|]. cbn [filter].
  destruct (same_name m e Hname) as (Ht & Hd & _). rewrite Hd.
  destruct (is_dir e); cbn [negb map]; now rewrite ?Ht, IH.
Qed.

Lemma same_names_font_members (es ms : list zip_entry) :
  same_names es ms ->
  List.length (filter is_font_member ms)
  = List.length (filter is_font_member es).
Proof.
  induction 1 as [|e m es ms Hname _ IH]; [reflexivity|]. cbn [filter].
  destruct (same_name m e Hname) as (_ & _ & Hf). rewrite Hf.
  destruct (is_font_member e); cbn [List.length]; now rewrite IH.
Qed.

Lemma same_names_in_the_way (e m e' m' : zip_entry) :
  filename m = filename e -> filename m' = filename e' ->
  in_the_way m m' = in_the_way e e'.
Proof.
  intros H H'. unfold in_the_way.
  destruct (same_name m e H) as (-> & -> & _).
  now destruct (same_name m' e' H') as (-> & _ & _).
Qed.

Lemma same_names_conflict_free (es ms : list zip_entry) :
  same_names es ms -> conflict_free ms = conflict_free es.
Proof.
  induction 1 as [|e m es ms Hname Hrest IH]; [reflexivity|].
  cbn [conflict_free]. rewrite IH.
  destruct (same_name m e Hname) as (-> & -> & _).
  do 2 f_equal. clear IH.
  induction Hrest as [|e' m' es ms Hname' _ IH']; [reflexivity|].
  cbn [forallb]. rewrite IH'.
  now rewrite (same_names_in_the_way e m e' m' Hname Hname'),
              (same_names_in_the_way e' m' e m Hname' Hname).
Qed.

(** A sufficient condition that can be checked on the archive alone. *)
Lemma extract_zip_of_conflict_free_archive
      (env : platform) (zip_path extract_dir : string)
      (entries : list zip_entry) (w : world) :
  isfile env zip_path = Some (Zip entries) ->
  scratch w = Some (Dir []) ->
  forallb (sound_member env) entries = true ->
  conflict_free entries = true ->
  exists fonts,
    fst (extract_zip env zip_path extract_dir w) = Ok fonts
    /\ List.length fonts = List.length (filter is_font_member entries).
Proof.
  intros Hfile Hw Hsound Hfree.
  destruct (members_same_names entries) as [Hnames Hin].
  assert (Hsound' : forallb (sound_member env) (members entries) = true).
  { apply forallb_forall. intros m Hm. rewrite forallb_forall in Hsound.
    rewrite Forall_forall in Hin. auto. }
  rewrite <- (same_names_conflict_free _ _ Hnames) in Hfree.
  destruct (unpack_ok env (members entries) (Dir []) w Hsound' Hfree Hw)
    as (w' & n' & Hrun & Hw' & Hperm).
  { intros e q _ []. }
  { intros e He Hf [Hq|[]].
    now apply (conflict_free_nonempty (members entries) e Hfree He Hf). }
  rewrite extract_zip_run, Hfile, extractall_unpack, Hrun, Hw'. cbn [fst].
  exists (found_fonts (walk extract_dir n')). split; [reflexivity|].
  rewrite found_fonts_count, (permutation_filter_length _ _ _ Hperm).
  cbn [files_of flat_map]. rewrite app_nil_r, font_members_count.
  apply same_names_font_members, Hnames.
Qed.

(** *** Unpacking that succeeded *)

(** A member that was unpacked adds its path to the files of the tree when
    it is a file written to a new path, and leaves the files of the tree as
    they are when it is a directory. *)
Lemma place_in_files (isdir : bool) (data : string) (c : string)
      (r : list string) :
  (forall k k',
      place isdir data r k = Some k' ->
      (isdir = false -> ~ In r (files_of k)) ->
      Permutation (files_of k') ((if isdir then [] else [r]) ++ files_of k)) ->
  forall kids kids',
    place_in c (place isdir data r) (fresh isdir data r) kids = Some kids' ->
    (isdir = false -> ~ In (c :: r) (files_of (Dir kids))) ->
    Permutation (files_of (Dir kids'))
                ((if isdir then [] else [c :: r]) ++ files_of (Dir kids)).
Proof.
  intros IHr. induction kids as [|[c' k] kids IH]; intros kids' Hp Hnew.
  - injection Hp as <-. rewrite files_of_dir_cons, files_of_fresh.
    destruct isdir; reflexivity.
  - cbn [place_in] in Hp. destruct (String.eqb c c') eqn:Ec.
    + apply String.eqb_eq in Ec. subst c'.
      destruct (place isdir data r k) as [k'|] eqn:Ek; [|discriminate].
      injection Hp as <-. rewrite !files_of_dir_cons.
      assert (Hk : Permutation (files_of k')
                               ((if isdir then [] else [r]) ++ files_of k)).
      { apply IHr; [exact Ek|]. intros Hf Hin. apply (Hnew Hf).
        rewrite files_of_dir_cons. apply in_or_app. left. now apply in_map. }
      apply (Permutation_map (cons c)) in Hk.
      rewrite Hk, map_app, <- app_assoc. now destruct isdir.
    + destruct (place_in c _ _ kids) as [kids''|] eqn:Ek; [|discriminate].
      injection Hp as <-. rewrite !files_of_dir_cons.
      rewrite (IH kids'' eq_refl).
      * destruct isdir; cbn [app]; [reflexivity|].
        apply Permutation_sym, Permutation_middle.
      * intros Hf Hin. apply (Hnew Hf). rewrite files_of_dir_cons.
        apply in_or_app. now right.
Qed.

Lemma place_files (isdir : bool) (data : string) (p : list string)
      (n n' : node) :
  place isdir data p n = Some n' ->
  (isdir = false -> ~ In p (files_of n)) ->
  Permutation (files_of n') ((if isdir then [] else [p]) ++ files_of n).
Proof.
  revert n n'. induction p as [|c r IH]; intros n n' Hp Hnew.
  - destruct n as [d|kids]; cbn [place] in Hp.
    + destruct isdir; [discriminate|].
      exfalso. apply Hnew; [reflexivity | now left].
    + destruct isdir; [|discriminate]. now injection Hp as <-.
  - destruct n as [d|kids]; cbn [place] in Hp; [discriminate|].
    destruct (place_in c _ _ kids) as [kids'|] eqn:Ek; [|discriminate].
    injection Hp as <-.
    exact (place_in_files isdir data c r IH kids kids' Ek Hnew).
Qed.

Lemma extract_member_done (env : platform) (e : zip_entry) (n : node)
      (w w' : world) :
  scratch w = Some n ->
  extract_member env e w = (Ok tt, w') ->
  exists n',
    place (is_dir e) (written e) (target e) n = Some n'
    /\ scratch w' = Some n'.
Proof.
  unfold extract_member, bind, get_scratch. cbn. intros ->.
  destruct (write_fault env (target e)); [discriminate|].
  destruct (place _ _ _ n) as [n'|]; [|discriminate].
  destruct (is_dir e || crc_ok e); cbn; [|discriminate].
  intros [= <-]. now exists n'.
Qed.

Lemma unpack_files (env : platform) (entries : list zip_entry) :
  forall (n : node) (w w' : world),
    scratch w = Some n ->
    unpack env entries w = (Ok tt, w') ->
    NoDup (map target (filter (fun e => negb (is_dir e)) entries)) ->
    (forall e, In e entries -> is_dir e = false ->
               ~ In (target e) (files_of n)) ->
    exists n',
      scratch w' = Some n'
      /\ Permutation
           (files_of n')
           (map target (filter (fun e => negb (is_dir e)) entries)
              ++ files_of n).
Proof.
  unfold unpack.
  induction entries as [|e rest IH]; intros n w w' Hw Hrun Hnd Hnew.
  - injection Hrun as <-. now exists n.
  - cbn [for_each] in Hrun. unfold bind at 1 in Hrun.
    destruct (extract_member env e w) as [[[]|x] w1] eqn:He; [|discriminate].
    destruct (extract_member_done env e n w w1 Hw He) as (n1 & Hplace & Hw1).
    assert (Hperm : Permutation (files_of n1)
                      ((if is_dir e then [] else [target e]) ++ files_of n)).
    { apply (place_files _ _ _ _ _ Hplace).
      intros Hf. apply Hnew; [now left | exact Hf]. }
    cbn [filter] in Hnd |- *.
    destruct (IH n1 w1 w' Hw1 Hrun) as (n' & Hw' & Hperm').
    { destruct (is_dir e); cbn [negb map] in Hnd; [exact Hnd|].
      now inversion Hnd. }
    { intros e' He' Hf Hin. apply (Permutation_in _ Hperm) in Hin.
      apply in_app_or in Hin as [Hin|Hin].
      - destruct (is_dir e) eqn:Ed; [destruct Hin|].
        destruct Hin as [Heq|[]]. cbn [negb map] in Hnd.
        inversion Hnd as [|? ? Hnotin _]; subst. apply Hnotin.
        rewrite Heq. apply in_map. apply filter_In. split; [exact He'|].
        now rewrite Hf.
      - apply (Hnew e'); [now right | exact Hf | exact Hin]. }
    exists n'. split; [exact Hw'|]. rewrite Hperm', Hperm.
    destruct (is_dir e); cbn [negb map app]; [reflexivity|].
    apply Permutation_sym, Permutation_middle.
Qed.

(** C6, as the code has it.  When the archive is unpacked without an error
    and its file members are written to pairwise distinct paths,
    [extract_zip] returns exactly one candidate for each member that is a
    file with a font extension, upper or lower case, in the name it is
    written under; every candidate has such a name, and the content of the
    members plays no part. *)
Theorem extract_zip_counts_font_members
        (env : platform) (zip_path extract_dir : string)
        (entries : list zip_entry) (w : world) :
  isfile env zip_path = Some (Zip entries) ->
  scratch w = Some (Dir []) ->
  fst (extractall env entries w) = Ok tt ->
  NoDup (map target (filter (fun e => negb (is_dir e)) entries)) ->
  exists fonts,
    fst (extract_zip env zip_path extract_dir w) = Ok fonts
    /\ List.length fonts = List.length (filter is_font_member entries)
    /\ Forall (fun f => is_font_file (name f) = true) fonts.
Proof.
  intros Hfile Hw Hrun Hnd.
  destruct (members_same_names entries) as [Hnames _].
  destruct (extractall env entries w) as [r w'] eqn:Eall.
  cbn [fst] in Hrun. subst r.
  rewrite extractall_unpack in Eall.
  rewrite <- (same_names_file_targets _ _ Hnames) in Hnd.
  destruct (unpack_files env (members entries) (Dir []) w w' Hw Eall Hnd)
    as (n' & Hw' & Hperm).
  { intros e _ _ []. }
  rewrite extract_zip_run, Hfile, extractall_unpack, Eall, Hw'. cbn [fst].
  exists (found_fonts (walk extract_dir n')). split; [reflexivity|]. split.
  - rewrite found_fonts_count, (permutation_filter_length _ _ _ Hperm).
    cbn [files_of flat_map]. rewrite app_nil_r, font_members_count.
    apply same_names_font_members, Hnames.
  - apply found_fonts_names.
Qed.

Lemma extract_zip_counts_font_members_witness :
  exists fonts,
    fst (extract_zip sample_platform "fonts.zip" "/tmp/fonts" scratch_created)
    = Ok fonts
    /\ List.length fonts = List.length (filter is_font_member sample_archive)
    /\ Forall (fun f => is_font_file (name f) = true) fonts.
Proof.
  apply (extract_zip_counts_font_members
           sample_platform "fonts.zip" "/tmp/fonts" sample_archive
           scratch_created); try reflexivity.
  repeat constructor; cbn; intuition discriminate.
Defined.

(** C6 as the specification has it fails: of an archive with two members
    named [a.ttf], both with a font extension, one candidate is returned,
    the second member having been written over the first. *)
Lemma repeated_member_counterexample :
  List.length twice_archive = 2%nat
  /\ List.length (filter (fun e => is_font_file (filename e)) twice_archive)
     = 2%nat
  /\ extract_zip twice_platform "twice.zip" "/tmp/fonts" scratch_created
     = (Ok [Font "/tmp/fonts/a.ttf" "a.ttf"],
        World [] [] (Some (Dir [("a.ttf", File "second")])) []).
Proof. repeat split. Qed.

(** ** Lines spelled with decimal numbers *)

Lemma all_chars_app (f : ascii -> bool) (s t : string) :
  all_chars f (s ++ t)%string = all_chars f s && all_chars f t.
Proof.
  induction s as [|c s IH]; [reflexivity|]. cbn. now rewrite IH, andb_assoc.
Qed.

Lemma all_chars_impl (f g : ascii -> bool) (s : string) :
  (forall c, f c = true -> g c = true) ->
  all_chars f s = true -> all_chars g s = true.
Proof.
  intros Hfg. induction s as [|c s IH]; [reflexivity|]. cbn.
  intros H. apply andb_true_iff in H as [Hc Hs].
  now rewrite (Hfg c Hc), IH.
Qed.

Lemma string_of_uint_digits (d : Decimal.uint) :
  all_chars PyInt.is_digit (NilEmpty.string_of_uint d) = true.
Proof. induction d; cbn; auto. Qed.

Lemma to_uint_nonnil (n : nat) : Nat.to_uint n <> Decimal.Nil.
Proof.
  rewrite <- (DecimalNat.Unsigned.of_to n) at 1.
  rewrite DecimalNat.Unsigned.to_of. apply DecimalFacts.unorm_nonnil.
Qed.

Lemma of_nat_digits (n : nat) :
  all_chars PyInt.is_digit (PyStr.of_nat n) = true.
Proof. apply string_of_uint_digits. Qed.

Lemma of_nat_nonempty (n : nat) : PyStr.of_nat n <> "".
Proof.
  unfold PyStr.of_nat. pose proof (to_uint_nonnil n) as H.
  destruct (Nat.to_uint n); [contradiction | discriminate ..].
Qed.

(** [int] reads back the digits of a numeral. *)
Lemma digits_of_uint (d : Decimal.uint) :
  forall (acc : nat) (after_digit : bool),
    d <> Decimal.Nil \/ after_digit = true ->
    PyInt.digits (Z.of_nat acc) after_digit (NilEmpty.string_of_uint d)
    = Some (Z.of_nat (Nat.of_uint_acc d acc)).
Proof.
  induction d as [|d IH|d IH|d IH|d IH|d IH|d IH|d IH|d IH|d IH|d IH];
    intros acc after_digit Hd;
    [destruct Hd as [Hd| ->]; [contradiction | reflexivity] | ..].
  all: cbn [NilEmpty.string_of_uint PyInt.digits Nat.of_uint_acc];
    match goal with
    | |- context [PyInt.is_digit ?c] => change (PyInt.is_digit c) with true
    end;
    cbv iota; rewrite <- (IH _ true (or_intror eq_refl)); f_equal;
    rewrite Nat.tail_mul_spec;
    match goal with
    | |- context [PyInt.digit_value ?c] =>
        let v := eval vm_compute in (PyInt.digit_value c) in
        change (PyInt.digit_value c) with v
    end;
    lia.
Qed.

Lemma plain_not_space (c : ascii) :
  is_plain c = true ->
  PyStr.isspace c = false /\ PyInt.int_space c = false
  /\ PyStr.lower_char c = c.
Proof.
  destruct c as [[] [] [] [] [] [] [] []]; intros H;
    try discriminate H; repeat split.
Qed.

Lemma digit_is_plain (c : ascii) : PyInt.is_digit c = true -> is_plain c = true.
Proof. unfold is_plain. now intros ->. Qed.

Lemma lstrip_by_keeps (drop : ascii -> bool) (s : string) :
  all_chars (fun c => negb (drop c)) s = true -> PyStr.lstrip_by drop s = s.
Proof.
  destruct s as [|c s]; [reflexivity|]. cbn. intros H.
  apply andb_true_iff in H as [Hc _]. apply negb_true_iff in Hc.
  now rewrite Hc.
Qed.

Lemma rstrip_by_keeps (drop : ascii -> bool) (s : string) :
  all_chars (fun c => negb (drop c)) s = true -> PyStr.rstrip_by drop s = s.
Proof.
  induction s as [|c s IH]; [reflexivity|]. cbn. intros H.
  apply andb_true_iff in H as [Hc Hs]. apply negb_true_iff in Hc.
  rewrite (IH Hs). destruct s; [now rewrite Hc | reflexivity].
Qed.

Lemma strip_by_keeps (drop : ascii -> bool) (s : string) :
  all_chars (fun c => negb (drop c)) s = true -> PyStr.strip_by drop s = s.
Proof.
  intros H. unfold PyStr.strip_by.
  now rewrite (lstrip_by_keeps _ _ H), (rstrip_by_keeps _ _ H).
Qed.

(** The line end that [readline] leaves is stripped, and nothing else. *)
Lemma rstrip_by_line_end (drop : ascii -> bool) (s : string) :
  drop (ascii_of_nat 10) = true ->
  all_chars (fun c => negb (drop c)) s = true ->
  PyStr.rstrip_by drop (s ++ newline) = s.
Proof.
  intros Hnl. cbn in Hnl. induction s as [|c s IH]; cbn.
  - now rewrite Hnl.
  - intros H. apply andb_true_iff in H as [Hc Hs]. apply negb_true_iff in Hc.
    cbn in IH. rewrite (IH Hs). destruct s; [now rewrite Hc | reflexivity].
Qed.

Lemma strip_line_end (s : string) :
  all_chars is_plain s = true -> PyStr.strip (s ++ newline) = s.
Proof.
  intros H.
  assert (Hns : all_chars (fun c => negb (PyStr.isspace c)) s = true).
  { apply (all_chars_impl is_plain); [|exact H].
    intros c Hc. now rewrite (proj1 (plain_not_space c Hc)). }
  unfold PyStr.strip, PyStr.strip_by. destruct s as [|c s]; [reflexivity|].
  assert (Hl : PyStr.lstrip_by PyStr.isspace (String c s ++ newline)
               = (String c s ++ newline)%string).
  { cbn in Hns |- *. apply andb_true_iff in Hns as [Hc _].
    apply negb_true_iff in Hc. now rewrite Hc. }
  rewrite Hl. now apply rstrip_by_line_end.
Qed.

Lemma lower_plain (s : string) :
  all_chars is_plain s = true -> PyStr.lower s = s.
Proof.
  induction s as [|c s IH]; [reflexivity|]. cbn. intros H.
  apply andb_true_iff in H as [Hc Hs].
  destruct (plain_not_space c Hc) as (_ & _ & ->). now rewrite IH.
Qed.

(** A line of plain characters reaches the grammar as it is, in either
    mode. *)
Lemma selection_text_plain (mode : cli_mode) (line : string) :
  all_chars is_plain line = true -> selection_text mode line = line.
Proof.
  intros H. destruct mode; cbn [selection_text].
  - unfold PyStr.strip. rewrite strip_by_keeps; [now apply lower_plain|].
    apply (all_chars_impl is_plain); [|exact H].
    intros c Hc. now rewrite (proj1 (plain_not_space c Hc)).
  - now apply strip_line_end.
Qed.

Lemma signed_of_digits (s : string) :
  all_chars PyInt.is_digit s = true ->
  PyInt.signed s = PyInt.digits 0 false s.
Proof.
  destruct s as [|c s]; [reflexivity|]. cbn [all_chars]. intros H.
  apply andb_true_iff in H as [Hc _].
  destruct c as [[] [] [] [] [] [] [] []]; try discriminate Hc; reflexivity.
Qed.

(** [int(str(n)) = n] *)
Lemma int_of_nat (n : nat) : PyInt.int (PyStr.of_nat n) = Some (Z.of_nat n).
Proof.
  unfold PyInt.int. pose proof (of_nat_digits n) as Hd.
  rewrite strip_by_keeps.
  - rewrite (signed_of_digits _ Hd). unfold PyStr.of_nat.
    change 0 with (Z.of_nat 0).
    rewrite digits_of_uint by (left; apply to_uint_nonnil).
    fold (Nat.of_uint (Nat.to_uint n)).
    now rewrite DecimalNat.Unsigned.of_to.
  - apply (all_chars_impl PyInt.is_digit); [|exact Hd].
    intros c Hc.
    now rewrite (proj1 (proj2 (plain_not_space c (digit_is_plain c Hc)))).
Qed.

Lemma contains_app (c : ascii) (s t : string) :
  PyStr.contains c (s ++ t)%string = PyStr.contains c s || PyStr.contains c t.
Proof.
  induction s as [|d s IH]; [reflexivity|]. cbn. now rewrite IH, orb_assoc.
Qed.

Lemma digits_contain_no (c : ascii) (s : string) :
  PyInt.is_digit c = false ->
  all_chars PyInt.is_digit s = true -> PyStr.contains c s = false.
Proof.
  intros Hc. induction s as [|d s IH]; [reflexivity|]. cbn. intros H.
  apply andb_true_iff in H as [Hd Hs]. rewrite (IH Hs), orb_false_r.
  destruct (Ascii.eqb c d) eqn:E; [|reflexivity].
  apply Ascii.eqb_eq in E. congruence.
Qed.

Lemma split_without (sep : ascii) (s : string) :
  PyStr.contains sep s = false -> PyStr.split sep s = [s].
Proof.
  induction s as [|c s IH]; [reflexivity|]. cbn. intros H.
  apply orb_false_iff in H as [Hc Hs]. rewrite Ascii.eqb_sym, Hc.
  now rewrite (IH Hs).
Qed.

Lemma split_at (sep : ascii) (s t : string) :
  PyStr.contains sep s = false ->
  PyStr.split sep (s ++ String sep t) = s :: PyStr.split sep t.
Proof.
  induction s as [|c s IH]; cbn.
  - intros _. now rewrite Ascii.eqb_refl.
  - intros H. apply orb_false_iff in H as [Hc Hs].
    rewrite Ascii.eqb_sym, Hc. now rewrite (IH Hs).
Qed.

Lemma render_token_plain (t : token) :
  all_chars is_plain (render_token t) = true.
Proof.
  assert (Hn : forall n, all_chars is_plain (PyStr.of_nat n) = true).
  { intros n. apply (all_chars_impl PyInt.is_digit); [|apply of_nat_digits].
    apply digit_is_plain. }
  destruct t as [i|first last]; cbn [render_token]; [apply Hn|].
  rewrite !all_chars_app, !Hn. reflexivity.
Qed.

Lemma render_token_no_comma (t : token) :
  PyStr.contains "," (render_token t) = false.
Proof.
  assert (Hn : forall n, PyStr.contains "," (PyStr.of_nat n) = false).
  { intros n. apply digits_contain_no; [reflexivity | apply of_nat_digits]. }
  destruct t as [i|first last]; cbn [render_token]; [apply Hn|].
  rewrite !contains_app, !Hn. reflexivity.
Qed.

(** A token is read as the indices it stands for. *)
Lemma part_indices_token (t : token) :
  part_indices (render_token t) = Some (token_indices t).
Proof.
  assert (Hn : forall n, PyStr.contains "-" (PyStr.of_nat n) = false).
  { intros n. apply digits_contain_no; [reflexivity | apply of_nat_digits]. }
  unfold part_indices, part_item.
  destruct t as [i|first last]; cbn [render_token token_indices].
  - now rewrite Hn, int_of_nat.
  - rewrite contains_app, Hn. cbn [PyStr.contains Ascii.eqb orb].
    change (PyStr.of_nat first ++ "-" ++ PyStr.of_nat last)%string
      with (PyStr.of_nat first ++ String "-" (PyStr.of_nat last))%string.
    rewrite (split_at "-" _ _ (Hn first)), (split_without "-" _ (Hn last)).
    cbn [map]. now rewrite !int_of_nat.
Qed.

Lemma render_line_plain (tokens : list token) :
  all_chars is_plain (render_line tokens) = true.
Proof.
  induction tokens as [|t [|t' rest] IH]; [reflexivity | apply render_token_plain |].
  change (render_line (t :: t' :: rest))
    with (render_token t ++ "," ++ render_line (t' :: rest))%string.
  now rewrite !all_chars_app, render_token_plain, IH.
Qed.

Lemma split_render_line (tokens : list token) :
  tokens <> [] ->
  PyStr.split "," (render_line tokens) = map render_token tokens.
Proof.
  induction tokens as [|t [|t' rest] IH]; intros Hne.
  - contradiction.
  - cbn [render_line map]. apply split_without, render_token_no_comma.
  - change (render_line (t :: t' :: rest))
      with (render_token t ++ String "," (render_line (t' :: rest)))%string.
    rewrite (split_at "," _ _ (render_token_no_comma t)), IH by discriminate.
    reflexivity.
Qed.

Lemma parts_indices_tokens (tokens : list token) (acc : list Z) :
  parts_indices (map render_token tokens) acc
  = Some (acc ++ flat_map token_indices tokens).
Proof.
  revert acc. induction tokens as [|t rest IH]; intros acc; cbn [map parts_indices flat_map].
  - now rewrite app_nil_r.
  - now rewrite part_indices_token, IH, app_assoc.
Qed.

(** The indices read from a rendered line are those of its tokens, in
    order: a single number names itself, a span names every index from its
    first to its last number. *)
Lemma typed_indices_rendered (mode : cli_mode) (tokens : list token) :
  tokens <> [] ->
  typed_indices (selection_text mode (render_line tokens))
  = Some (flat_map token_indices tokens).
Proof.
  intros Hne. rewrite (selection_text_plain mode _ (render_line_plain tokens)).
  unfold typed_indices.
  now rewrite (split_render_line tokens Hne), parts_indices_tokens.
Qed.

(** A rendered line whose indices all name candidates selects, in either
    mode, the candidate at the 0-based position [i - 1] for each 1-based
    index [i] of its tokens in turn. *)
Lemma rendered_line_selects (mode : cli_mode) (font_files : list font)
      (tokens : list token) (rest : list string) (w : world) :
  tokens <> [] ->
  Forall (names_candidate (List.length font_files))
         (flat_map token_indices tokens) ->
  exists fonts,
    fst (cli_select mode font_files (with_stdin (render_line tokens :: rest) w))
    = Ok fonts
    /\ picks font_files (flat_map token_indices tokens) fonts.
Proof.
  intros Hne Hall.
  destruct (cli_select_picked mode font_files (render_line tokens) rest
              (with_stdin (render_line tokens :: rest) w)
              (flat_map token_indices tokens) eq_refl
              (typed_indices_rendered mode tokens Hne) Hall)
    as (fonts & Hrun & _ & Hp).
  now exists fonts.
Qed.

Example rendered_lines :
  render_line [Single 1; Single 3] = "1,3"
  /\ render_line [Span 1 3] = "1-3"
  /\ render_line [Span 2 2] = "2-2"
  /\ render_line [Single 12; Span 3 10] = "12,3-10".
Proof. repeat split. Qed.

(** C5.  Over five candidates, ["1,3"] selects the first and the third,
    ["1-3"] the first three and ["2-2"] the second, at the prompt and from
    piped input alike; the indices read from the three lines are the
    1-based [1,3], [1,2,3] and [2].  In general the indices read from a line
    of decimal tokens are the numbers of its single tokens and, for a span,
    every number from its first to its last, in the order of the tokens. *)
Theorem grammar_examples
        (a b c d e : font) (mode : cli_mode) (rest : list string) (w : world)
        (t : token) (tokens : list token) :
  let font_files := [a; b; c; d; e] in
  (typed_indices (selection_text mode "1,3") = Some [1; 3]
   /\ fst (cli_select mode font_files (with_stdin ("1,3" :: rest) w))
      = Ok [a; c])
  /\ (typed_indices (selection_text mode "1-3") = Some [1; 2; 3]
      /\ fst (cli_select mode font_files (with_stdin ("1-3" :: rest) w))
         = Ok [a; b; c])
  /\ (typed_indices (selection_text mode "2-2") = Some [2]
      /\ fst (cli_select mode font_files (with_stdin ("2-2" :: rest) w))
         = Ok [b])
  /\ typed_indices (selection_text mode (render_line (t :: tokens)))
     = Some (flat_map token_indices (t :: tokens)).
Proof.
  cbv zeta.
  assert (run : forall line picked,
             parse_selection [a; b; c; d; e] (selection_text mode line)
             = Picked (Ok picked) ->
             String.eqb (selection_text mode line) "q" = false ->
             String.eqb (selection_text mode line) "all" = false ->
             fst (cli_select mode [a; b; c; d; e] (with_stdin (line :: rest) w))
             = Ok picked).
  { intros line picked Hp Hq Ha. destruct mode; cbn [cli_select selection_text] in *.
    - rewrite select_fonts_cli_run. cbn [stdin with_stdin].
      rewrite select_loop_step. cbv zeta. now rewrite Hq, Ha, Hp.
    - rewrite (piped_selection_step _ line rest) by reflexivity.
      cbv zeta. now rewrite Hq, Ha, Hp. }
  repeat split; try (destruct mode; reflexivity);
    try (apply run; destruct mode; reflexivity).
  apply typed_indices_rendered. discriminate.
Qed.

(** One failed installation among three: the loop goes on and counts it. *)
Example one_failure_of_three :
  fst (install_batch flaky_platform sample_fonts 0 0 idle) = Ok (2%nat, 1%nat)
  /\ commands (snd (install_batch flaky_platform sample_fonts 0 0 idle))
     = [["open"; "/tmp/fonts/a.ttf"]; ["osascript"; "install-font.scpt"];
        ["open"; "/tmp/fonts/sub/B.OTF"];
        ["open"; "/tmp/fonts/c.dfont"]; ["osascript"; "install-font.scpt"]].
Proof. split; reflexivity. Qed.


(** ** Whole runs *)

(** An I/O error in the middle of unpacking: the font unpacked before it is
    on disk, and [extract_zip] returns no candidate. *)
Example io_fault_gives_no_fonts :
  extract_zip faulty_platform "fonts.zip" "/tmp/fonts" scratch_created
  = (Ok [],
     World [] ["Error extracting ZIP file: OSError"]
           (Some (Dir [("a.ttf", File "A"); ("sub", Dir [])])) []).
Proof. reflexivity. Qed.

(** Three fonts and a text file, everything installed. *)
Example run_install_all :
  let a := {| zip := Some "fonts.zip"; gui_flag := false; cli_flag := false;
              install_all_flag := true; auto := false |} in
  fst (main sample_platform a idle) = Ok tt
  /\ last (stdout (snd (main sample_platform a idle))) ""
     = ("Installation complete!" ++ newline ++ newline
        ++ "Successfully installed: 3 fonts" ++ newline
        ++ "Failed to install: 0 fonts")%string
  /\ scratch (snd (main sample_platform a idle)) = None.
Proof. repeat split. Qed.

(** An archive without fonts: exit status 1, nothing asked. *)
Example run_without_fonts :
  let a := {| zip := Some "notes.zip"; gui_flag := false; cli_flag := true;
              install_all_flag := false; auto := false |} in
  main sample_platform a (with_stdin ["n"; "1"] idle)
  = (Raise (SystemExit 1),
     World ["n"; "1"]
           ["Extracting notes.zip..."; "No font files found in the ZIP file."]
           None []).
Proof. reflexivity. Qed.

(** [q] at the prompt: exit status 0, nothing installed. *)
Example run_quit :
  exit_status (fst (main sample_platform sample_args (with_stdin ["n"; "q"] idle)))
  = 0
  /\ commands (snd (main sample_platform sample_args (with_stdin ["n"; "q"] idle)))
     = [].
Proof. split; reflexivity. Qed.

(** * Further properties of the program *)

(** ** Font extensions *)

Lemma append_assoc (a b c : string) :
  ((a ++ b) ++ c)%string = (a ++ (b ++ c))%string.
Proof. induction a as [|x a IH]; [reflexivity|]. cbn. now rewrite IH. Qed.

Lemma length_append (a b : string) :
  String.length (a ++ b) = (String.length a + String.length b)%nat.
Proof. induction a as [|x a IH]; [reflexivity|]. cbn. now rewrite IH. Qed.

Lemma substring_all (s : string) : substring 0 (String.length s) s = s.
Proof. induction s as [|c s IH]; [reflexivity|]. cbn. now rewrite IH. Qed.

Lemma substring_skip (a b : string) :
  substring (String.length a) (String.length b) (a ++ b) = b.
Proof.
  induction a as [|x a IH]; cbn; [apply substring_all | exact IH].
Qed.

Lemma substring_cut (s : string) (k : nat) :
  (k <= String.length s)%nat ->
  s = (substring 0 k s ++ substring k (String.length s - k) s)%string.
Proof.
  revert k. induction s as [|c s IH]; intros k Hk.
  - destruct k; [reflexivity | cbn in Hk; lia].
  - destruct k as [|k]; cbn.
    + now rewrite substring_all.
    + f_equal. apply IH. cbn in Hk. lia.
Qed.

(** [s.endswith(suffix)] holds exactly when [s] is something followed by
    [suffix]. *)
Lemma endswith_iff (s suffix : string) :
  PyStr.endswith s suffix = true <-> exists stem, s = (stem ++ suffix)%string.
Proof.
  unfold PyStr.endswith. split.
  - intros H. apply andb_true_iff in H as [Hle Heq].
    apply Nat.leb_le in Hle. apply String.eqb_eq in Heq.
    exists (substring 0 (String.length s - String.length suffix) s).
    pose proof (substring_cut s (String.length s - String.length suffix))
      as Hcut.
    replace (String.length s - (String.length s - String.length suffix))%nat
      with (String.length suffix) in Hcut by lia.
    rewrite Heq in Hcut. apply Hcut. lia.
  - intros (stem & ->). rewrite length_append. apply andb_true_iff. split.
    + apply Nat.leb_le. lia.
    + replace (String.length stem + String.length suffix - String.length suffix)%nat
        with (String.length stem) by lia.
      rewrite substring_skip. apply String.eqb_refl.
Qed.

Lemma is_font_file_ending (filename : string) :
  is_font_file filename = true
  <-> exists stem ext,
        In ext FONT_EXTENSIONS
        /\ PyStr.lower filename = (stem ++ ext)%string.
Proof.
  unfold is_font_file. rewrite existsb_exists. split.
  - intros (ext & Hin & Hend). apply endswith_iff in Hend as (stem & Hs).
    now exists stem, ext.
  - intros (stem & ext & Hin & Hs). exists ext. split; [exact Hin|].
    apply endswith_iff. now exists stem.
Qed.

Lemma lower_append (s t : string) :
  PyStr.lower (s ++ t) = (PyStr.lower s ++ PyStr.lower t)%string.
Proof. induction s as [|c s IH]; [reflexivity|]. cbn. now rewrite IH. Qed.

Lemma lower_char_lower_char (c : ascii) :
  PyStr.lower_char (PyStr.lower_char c) = PyStr.lower_char c.
Proof. destruct c as [[] [] [] [] [] [] [] []]; reflexivity. Qed.

Lemma lower_lower (s : string) : PyStr.lower (PyStr.lower s) = PyStr.lower s.
Proof.
  induction s as [|c s IH]; [reflexivity|].
  cbn [PyStr.lower]. now rewrite lower_char_lower_char, IH.
Qed.

Lemma length_lower (s : string) :
  String.length (PyStr.lower s) = String.length s.
Proof. induction s as [|c s IH]; [reflexivity|]. cbn. now rewrite IH. Qed.

(** X1.  What [is_font_file] looks at in a name: the case of its letters
    plays no part, what comes before a name that is accepted plays no part
    either (so a member is judged the same by its name and by its path),
    and a name of fewer than four characters, such as [ttf] or [.tt], is
    never a font. *)
Theorem is_font_file_by_ending (stem filename : string) :
  is_font_file (PyStr.lower filename) = is_font_file filename
  /\ (is_font_file filename = true
      -> is_font_file (stem ++ filename) = true)
  /\ ((String.length filename < 4)%nat -> is_font_file filename = false).
Proof.
  split; [|split].
  - unfold is_font_file. now rewrite lower_lower.
  - intros H. apply is_font_file_ending in H as (st & ext & Hin & Hs).
    apply is_font_file_ending. exists (PyStr.lower stem ++ st)%string, ext.
    split; [exact Hin|]. now rewrite lower_append, Hs, append_assoc.
  - intros Hlen. destruct (is_font_file filename) eqn:E; [|reflexivity].
    apply is_font_file_ending in E as (st & ext & Hin & Hs).
    apply (f_equal String.length) in Hs.
    rewrite length_lower, length_append in Hs.
    assert (4 <= String.length ext)%nat as Hext.
    { cbn in Hin. destruct Hin as [<-|[<-|[<-|[<-|[]]]]]; cbn; lia. }
    lia.
Qed.

(** ** Where the candidates are *)

Lemma append_empty_r (s : string) : (s ++ "")%string = s.
Proof. induction s as [|c s IH]; [reflexivity|]. cbn. now rewrite IH. Qed.

Lemma path_join_below (root file : string) :
  exists sep, path_join root file = (root ++ sep ++ file)%string.
Proof.
  unfold path_join. destruct (_ || _).
  - now exists "".
  - now exists "/".
Qed.

(** Every directory [os.walk] reports lies at or below its starting
    point. *)
Lemma walk_below (n : node) :
  forall top,
    Forall (fun entry => exists rel, fst (fst entry) = (top ++ rel)%string)
           (walk top n).
Proof.
  induction n as [d|kids IH] using node_induction; intros top; cbn [walk].
  - constructor.
  - constructor.
    + exists "". cbn. now rewrite append_empty_r.
    + apply Forall_flat_map. rewrite Forall_forall in IH |- *.
      intros [c k] Hk. cbn [fst snd].
      specialize (IH (c, k) Hk (path_join top c)). cbn [snd] in IH.
      eapply Forall_impl; [|exact IH]. intros entry (rel & ->).
      destruct (path_join_below top c) as (sep & ->).
      exists (sep ++ c ++ rel)%string. now rewrite !append_assoc.
Qed.

Lemma found_fonts_below (top : string)
      (walked : list (string * list string * list string)) :
  Forall (fun entry => exists rel, fst (fst entry) = (top ++ rel)%string)
         walked ->
  Forall (fun f => is_font_file (name f) = true
                   /\ exists mid, path f = (top ++ mid ++ name f)%string)
         (found_fonts walked).
Proof.
  induction 1 as [|[[root dirs] files] walked (rel & Hroot) _ IH];
    [constructor|].
  rewrite found_fonts_cons. apply Forall_app. split; [|exact IH].
  apply Forall_forall. intros f Hf.
  apply in_map_iff in Hf as (file & <- & Hfile).
  apply filter_In in Hfile as [_ Hfont]. cbn [name path fst] in *.
  split; [exact Hfont|]. subst root.
  destruct (path_join_below (top ++ rel) file) as (sep & ->).
  exists (rel ++ sep)%string. now rewrite !append_assoc.
Qed.

(** X2.  Whatever the archive and the state, [extract_zip] returns a list,
    and every candidate in it has a name with a font extension and a path
    that begins with the extraction directory and ends with that name. *)
Theorem extract_zip_candidates_below
        (env : platform) (zip_path extract_dir : string) (w : world) :
  exists fonts,
    fst (extract_zip env zip_path extract_dir w) = Ok fonts
    /\ Forall (fun f => is_font_file (name f) = true
                        /\ exists mid,
                             path f = (extract_dir ++ mid ++ name f)%string)
              fonts.
Proof.
  rewrite extract_zip_run.
  destruct (isfile env zip_path) as [[entries|bytes]|];
    try (exists []; split; [reflexivity | constructor]).
  destruct (extractall env entries w) as [[[]|x] w1] eqn:E.
  - cbn [fst]. destruct (scratch w1) as [n|].
    + exists (found_fonts (walk extract_dir n)). split; [reflexivity|].
      apply found_fonts_below, walk_below.
    + exists []. split; [reflexivity | constructor].
  - destruct (extractall_raises _ _ _ _ _ E) as [-> | ->]; cbn;
      exists []; split; try reflexivity; constructor.
Qed.

(** ** What extraction prints *)

Lemma set_scratch_preserves_stdout s : preserves stdout (set_scratch s).
Proof. now intros w. Qed.

Lemma extract_member_preserves_stdout env e :
  preserves stdout (extract_member env e).
Proof.
  unfold extract_member.
  repeat first
    [ apply preserves_bind | apply get_scratch_preserves
    | apply set_scratch_preserves_stdout | apply preserves_raise
    | progress intros
    | match goal with
      | |- preserves _ (match ?x with _ => _ end) => destruct x
      end ].
Qed.

Lemma extractall_preserves_stdout env entries :
  preserves stdout (extractall env entries).
Proof.
  intros w. rewrite extractall_unpack. unfold unpack.
  apply preserves_for_each. apply extract_member_preserves_stdout.
Qed.

(** X3.  [extract_zip] reads no input and launches no command.  When the
    archive is unpacked without an error it prints nothing; otherwise it
    returns no candidate and prints exactly one line, which begins with
    "Error". *)
Theorem extract_zip_reports_failure
        (env : platform) (zip_path extract_dir : string) (w : world) :
  let r := extract_zip env zip_path extract_dir w in
  stdin (snd r) = stdin w
  /\ commands (snd r) = commands w
  /\ if unpacked env zip_path w then stdout (snd r) = stdout w
     else fst r = Ok []
          /\ exists msg,
               stdout (snd r) = stdout w ++ [msg]
               /\ String.prefix "Error" msg = true.
Proof.
  cbv zeta. split; [apply extract_zip_preserves_stdin|].
  split; [apply extract_zip_preserves_commands|].
  rewrite extract_zip_run. unfold unpacked.
  destruct (isfile env zip_path) as [[entries|bytes]|].
  - pose proof (extractall_preserves_stdout env entries w) as Hout.
    destruct (extractall env entries w) as [[[]|x] w1] eqn:E; cbn [fst snd] in *.
    + exact Hout.
    + destruct (extractall_raises _ _ _ _ _ E) as [-> | ->]; cbn;
        rewrite Hout; eauto.
  - cbn. eauto.
  - cbn. eauto.
Qed.

(** ** The interface mode *)

(** X4.  The program runs in exactly one of the two interface modes: the
    command line when [--auto] or [--cli] is given or Tk is missing, the GUI
    otherwise.  [--gui] has no part in the choice. *)
Theorem interface_mode_formula (env : platform) (a : args) :
  let use_cli := auto a || cli_flag a || negb (GUI_AVAILABLE env) in
  interface_mode env a = (use_cli, negb use_cli).
Proof.
  unfold interface_mode, tk_is_None.
  destruct (auto a), (cli_flag a), (gui_flag a), (GUI_AVAILABLE env);
    reflexivity.
Qed.

(** X5.  A run of [main] is the same with and without [--gui]. *)
Theorem gui_flag_is_ignored
        (env : platform) (a : args) (b : bool) (w : world) :
  main env (set_gui_flag b a) w = main env a w.
Proof.
  unfold main.
  pose proof (interface_mode_formula env a) as Ha.
  pose proof (interface_mode_formula env (set_gui_flag b a)) as Hb.
  cbv zeta in Ha, Hb. cbn [set_gui_flag auto cli_flag] in Hb.
  rewrite Ha, Hb. destruct a as [z g c i au]. reflexivity.
Qed.

(** ** How a run ends *)

Section Ends.
Context {A : Type}.
Variable Q : A -> Prop.
Variable P : exn -> Prop.

Lemma ends_ret (a : A) : Q a -> ends Q P (ret a).
Proof. intros H w. exact H. Qed.

Lemma ends_raise (e : exn) : P e -> ends Q P (@raise A e).
Proof. intros H w. exact H. Qed.

Lemma ends_bind {B} (R : B -> Prop) (m : M B) (k : B -> M A) :
  ends R P m -> (forall b, R b -> ends Q P (k b)) -> ends Q P (bind m k).
Proof.
  intros Hm Hk w. unfold bind. specialize (Hm w).
  destruct (m w) as [[b|e] w1]; cbn [fst] in *.
  - now apply Hk.
  - exact Hm.
Qed.

Lemma ends_try (P' : exn -> Prop) (m : M A) (handler : exn -> option (M A)) :
  ends Q P' m ->
  (forall e, P' e ->
     match handler e with Some h => ends Q P h | None => P e end) ->
  ends Q P (try_except m handler).
Proof.
  intros Hm Hh w. unfold try_except. specialize (Hm w).
  destruct (m w) as [[a|e] w1]; cbn [fst] in *; [exact Hm|].
  specialize (Hh e Hm). destruct (handler e) as [h|].
  - apply Hh.
  - exact Hh.
Qed.

End Ends.

Lemma ends_weaken {A} (Q Q' : A -> Prop) (P P' : exn -> Prop) (m : M A) :
  (forall a, Q a -> Q' a) -> (forall e, P e -> P' e) ->
  ends Q P m -> ends Q' P' m.
Proof.
  intros HQ HP Hm w. specialize (Hm w).
  destruct (fst (m w)); [now apply HQ | now apply HP].
Qed.

Lemma ends_print (P : exn -> Prop) (s : string) : ends anything P (print s).
Proof. intros w. exact I. Qed.

Lemma ends_input (question : string) : ends anything is_eof (input question).
Proof.
  intros w. unfold input, bind. rewrite print_run. cbn [stdin printed].
  destruct (stdin w); cbn; [reflexivity | exact I].
Qed.




Lemma ends_install_batch (env : platform)
      (fonts : list font) (successful failed : nat) :
  ends anything (fun e => e = OSError /\ launch_denied env)
       (install_batch env fonts successful failed).
Proof.
  intros w. rewrite install_batch_attempts.
  destruct (attempts_outcome env fonts w)
    as (w' & out & _ & [(oks & -> & _) | (-> & Hd)]).
  - exact I.
  - now split.
Qed.


Lemma ends_show (P : exn -> Prop) (box : gui unit) : ends anything P (show box).
Proof. intros w. destruct box; exact I. Qed.

(** Goes past a [print]. *)
Ltac after_print :=
  eapply ends_bind; [apply ends_print|]; intros _ _.

Lemma choose_zip_ends env a use_cli use_gui :
  ends (fun '(_, _, ug) => ug = true -> use_gui = true) is_exit
       (choose_zip env a use_cli use_gui).
Proof.
  unfold choose_zip.
  eapply ends_bind with (R := fun '(_, _, ug) => ug = true -> use_gui = true).
  - destruct (use_gui && _).
    + destruct (tk_is_None env).
      * eapply ends_bind; [apply ends_print|]. intros _ _. apply ends_ret. discriminate.
      * destruct (askopenfilename env).
        -- now apply ends_ret.
        -- eapply ends_bind; [apply ends_print|]. intros _ _. apply ends_ret. discriminate.
    + now apply ends_ret.
  - intros [[zp uc] ug] Hug.
    eapply ends_bind with (R := anything).
    { destruct (_ && _).
      - eapply ends_bind; [apply ends_print|]. intros _ _. apply ends_raise. now left.
      - now apply ends_ret. }
    intros _ _.
    eapply ends_bind with (R := anything).
    { destruct (_ && _); [|now apply ends_ret].
      eapply ends_bind with (R := anything).
      { destruct (auto a); [|now apply ends_ret].
        eapply ends_bind; [apply ends_print|]. intros _ _. apply ends_raise. now right. }
      intros _ _.
      apply ends_try with (P' := fun e => is_exit e \/ is_eof e).
      - eapply ends_bind with (R := anything).
        + eapply ends_weaken; [| |apply ends_input]; [auto|]. intros e He. now right.
        + intros typed _. destruct (unset _).
          * eapply ends_bind; [apply ends_print|]. intros _ _. apply ends_raise. left. now left.
          * now apply ends_ret.
      - intros e [[-> | ->] | ->]; cbn.
        + now left.
        + now right.
        + eapply ends_bind; [apply ends_print|]. intros _ _. apply ends_raise. now right. }
    intros zp' _. cbv zeta.
    destruct (isfile env _).
    + now apply ends_ret.
    + eapply ends_bind; [apply ends_print|]. intros _ _. apply ends_raise. now right.
Qed.








(** ** Leaving before the installation *)

Lemma show_preserves {X} (part : world -> X) (box : gui unit) :
  (forall s, preserves part (print s)) -> preserves part (show box).
Proof. intros Hp. destruct box; [intros w; reflexivity | apply Hp]. Qed.

Lemma ask_install_all_preserves_commands env a use_cli use_gui font_files :
  preserves commands (ask_install_all env a use_cli use_gui font_files).
Proof. unfold ask_install_all. frame. Qed.

Lemma piped_selection_preserves_commands font_files :
  preserves commands (piped_selection font_files).
Proof. unfold piped_selection. frame. Qed.

Lemma select_fonts_gui_preserves_commands env font_files :
  preserves commands (select_fonts_gui env font_files).
Proof. unfold select_fonts_gui. frame. Qed.

Lemma fonts_to_install_preserves_commands env a install_all use_gui font_files :
  preserves commands (fonts_to_install env a install_all use_gui font_files).
Proof.
  unfold fonts_to_install.
  destruct install_all; [frame|]. destruct (auto a); [frame|].
  destruct use_gui; [apply select_fonts_gui_preserves_commands|].
  apply preserves_try.
  - destruct (isatty env);
      [apply select_fonts_cli_preserves_commands
      | apply piped_selection_preserves_commands].
  - intros e h H. destruct e; try discriminate H. injection H as <-. frame.
Qed.

Lemma before_launch_preserves {A} (m : M A) :
  preserves commands m -> raises_before_launch m.
Proof. intros Hm w. destruct (fst (m w)); [exact I | right; apply Hm]. Qed.

Lemma before_launch_bind {A B} (m : M A) (k : A -> M B) :
  preserves commands m -> (forall a, raises_before_launch (k a)) ->
  raises_before_launch (bind m k).
Proof.
  intros Hm Hk w. unfold bind. specialize (Hm w).
  destruct (m w) as [[a|e] w1]; cbn [fst snd] in *.
  - specialize (Hk a w1). destruct (fst (k a w1)); [exact I|].
    destruct Hk as [Hk|Hk]; [now left | right; congruence].
  - now right.
Qed.

Lemma before_launch_OSError {A} (m : M A) :
  ends anything (fun e => e = OSError) m -> raises_before_launch m.
Proof.
  intros Hm w. specialize (Hm w).
  destruct (fst (m w)); [exact I | now left].
Qed.

Lemma before_launch_with_TemporaryDirectory {A} (env : platform)
      (body : string -> M A) :
  (forall d, raises_before_launch (body d)) ->
  raises_before_launch (with_TemporaryDirectory env body).
Proof.
  intros Hb w. unfold with_TemporaryDirectory.
  specialize (Hb (temp_dir env)
                 (World (stdin w) (stdout w) (Some (Dir [])) (commands w))).
  destruct (body _ _) as [r w1]. cbn [fst snd commands] in *. exact Hb.
Qed.


(** X7.  A run of [main] that ends in [sys.exit], or in any exception
    other than the [OSError] of a command that cannot be launched, has
    launched no command: but for that [OSError], the program is left only
    before the first font is handed to [open]. *)
Theorem main_raises_before_launch (env : platform) (a : args) (w : world) :
  match fst (main env a w) with
  | Raise e => e = OSError \/ commands (snd (main env a w)) = commands w
  | Ok _ => True
  end.
Proof.
  revert w. change (raises_before_launch (main env a)).
  unfold main. destruct (interface_mode env a) as [use_cli use_gui].
  apply before_launch_bind; [apply choose_zip_preserves_commands|].
  intros [[zip_path uc] ug].
  apply before_launch_with_TemporaryDirectory. intros d.
  apply before_launch_bind; [frame|]. intros _.
  apply before_launch_bind; [apply extract_zip_preserves_commands|].
  intros font_files.
  apply before_launch_bind.
  { destruct font_files; [|frame].
    apply preserves_bind.
    - destruct (_ && _); [apply show_preserves|]; frame.
    - frame. }
  intros _.
  apply before_launch_bind; [frame|]. intros _.
  apply before_launch_bind; [apply ask_install_all_preserves_commands|].
  intros [[install_all uc'] ug'].
  apply before_launch_bind; [apply fonts_to_install_preserves_commands|].
  intros fonts.
  apply before_launch_bind; [destruct fonts; frame|]. intros _.
  apply before_launch_OSError.
  after_print.
  eapply ends_bind with (R := anything).
  { eapply ends_weaken; [| |apply ends_install_batch]; [auto|].
    now intros e [-> _]. }
  intros [successful failed] _.
  cbv zeta. after_print.
  destruct (_ && _); [apply ends_show | now apply ends_ret].
Qed.

(** ** An unguarded prompt *)

Lemma select_loop_all_refused (font_files : list font) (lines : list string)
      (w : world) :
  Forall (fun l => refused font_files (selection_text Interactive l)) lines ->
  stdin w = lines ->
  fst (select_loop font_files lines w) = Raise EOFError
  /\ stdin (snd (select_loop font_files lines w)) = [].
Proof.
  intros H. revert w. induction H as [|line rest Hl Hr IH]; intros w Hw.
  - rewrite select_loop_eof. cbn. auto.
  - destruct (select_loop_refused font_files line rest w Hl) as (msg & ->).
    apply IH. reflexivity.
Qed.

(** X8.  In GUI mode, when installing everything was declined in the
    message box and the list dialog fails, the prompt of the fallback is
    not guarded: if every line left on the input is refused (or none is
    left), [main] dies of an uncaught [EOFError], exit status 1, with the
    input used up, no command launched and the scratch directory gone. *)
Theorem crashed_selector_dies_at_end_of_input
        (env : platform) (a : args) (p : string) (d : disk_file)
        (f : font) (fs : list font) (w : world) :
  selector_crashes env a ->
  install_all_flag a = false ->
  zip a = Some p -> unset p = false ->
  isfile env (expanduser env p) = Some d ->
  fst (extract_zip env (expanduser env p) (temp_dir env) scratch_created)
  = Ok (f :: fs) ->
  askyesno env = GuiOk false ->
  Forall (fun l => refused (f :: fs) (selection_text Interactive l)) (stdin w) ->
  fst (main env a w) = Raise EOFError
  /\ exit_status (fst (main env a w)) = 1
  /\ stdin (snd (main env a w)) = []
  /\ commands (snd (main env a w)) = commands w
  /\ scratch (snd (main env a w)) = None.
Proof.
  intros (Hauto & Hcli & Hgui & msg & Hdlg) Hflag Hzip Hset Hfile Hfound Hyes Hin.
  assert (Hmode : interface_mode env a = (false, true)).
  { unfold interface_mode, tk_is_None. rewrite Hauto, Hcli, Hgui.
    now destruct (gui_flag a). }
  assert (Hmain : exists w',
             main env a w = (Raise EOFError, w')
             /\ stdin w' = [] /\ commands w' = commands w
             /\ scratch w' = None).
  { unfold main. rewrite Hmode. unfold bind at 1.
    rewrite (choose_zip_given env a false true p d w Hzip Hset Hfile).
    unfold with_TemporaryDirectory.
    unfold bind at 1. rewrite print_run.
    set (w1 := printed _ _).
    unfold bind at 1.
    pose proof (extract_zip_preserves_stdin env (expanduser env p) (temp_dir env) w1) as Hs.
    pose proof (extract_zip_preserves_commands env (expanduser env p) (temp_dir env) w1) as Hc.
    destruct (extract_zip_disk_determined env (expanduser env p) (temp_dir env)
                w1 scratch_created eq_refl) as [Hv _].
    rewrite Hfound in Hv.
    destruct (extract_zip env (expanduser env p) (temp_dir env) w1) as [r w2].
    cbn [fst snd] in Hv, Hs, Hc. subst r.
    unfold bind at 1. cbn [ret]. unfold bind at 1. rewrite print_run.
    unfold bind at 1.
    assert (Hask : forall w0,
               ask_install_all env a false true (f :: fs) w0
               = (Ok (false, false, true), w0)).
    { intros w0. unfold ask_install_all, tk_is_None.
      rewrite Hflag, Hauto, Hgui, Hyes. reflexivity. }
    rewrite Hask.
    unfold bind at 1.
    assert (Hsel : forall w0,
               stdin w0 = stdin w ->
               exists w0',
                 fonts_to_install env a false true (f :: fs) w0
                 = (Raise EOFError, w0')
                 /\ stdin w0' = [] /\ commands w0' = commands w0).
    { intros w0 H0. unfold fonts_to_install, select_fonts_gui, tk_is_None.
      rewrite Hauto, Hgui, Hdlg. cbn [negb orb].
      unfold bind at 1. rewrite print_run.
      unfold bind at 1. rewrite print_run.
      rewrite printed_app.
      set (w3 := printed _ w0).
      pose proof (select_fonts_cli_preserves_commands (f :: fs) w3) as Hk.
      rewrite select_fonts_cli_run in *.
      destruct (select_loop_all_refused (f :: fs) (stdin w3)
                  (printed (banner (f :: fs)) w3)) as [He Hd];
        [subst w3; cbn [stdin printed]; now rewrite H0 | reflexivity |].
      destruct (select_loop _ _ _) as [r w4]. cbn [fst snd] in *. subst r.
      exists w4. auto. }
    destruct (Hsel (printed [found_message (f :: fs)] w2)) as (w5 & -> & H5 & H6);
      [exact Hs|].
    eexists. split; [reflexivity|].
    cbn [stdin commands scratch]. rewrite H5, H6. cbn [commands printed].
    rewrite Hc. auto. }
  destruct Hmain as (w' & -> & H2 & H3 & H4). cbn. auto.
Qed.

Lemma crashed_selector_dies_at_end_of_input_witness :
  fst (main crashing_desktop desktop_args (with_stdin ["0"; "x"] idle))
  = Raise EOFError
  /\ exit_status
       (fst (main crashing_desktop desktop_args (with_stdin ["0"; "x"] idle)))
     = 1
  /\ stdin (snd (main crashing_desktop desktop_args
                   (with_stdin ["0"; "x"] idle))) = []
  /\ commands (snd (main crashing_desktop desktop_args
                      (with_stdin ["0"; "x"] idle)))
     = commands (with_stdin ["0"; "x"] idle)
  /\ scratch (snd (main crashing_desktop desktop_args
                     (with_stdin ["0"; "x"] idle))) = None.
Proof.
  eapply (crashed_selector_dies_at_end_of_input
            crashing_desktop desktop_args "fonts.zip" (Zip sample_archive)).
  - repeat split; try reflexivity. now exists "no display".
  - reflexivity.
  - reflexivity.
  - reflexivity.
  - reflexivity.
  - reflexivity.
  - reflexivity.
  - repeat (apply Forall_cons; [apply refused_by_evaluation; reflexivity|]).
    apply Forall_nil.
Defined.

(** ** Unattended runs *)

Lemma install_font_preserves_stdin env font_path :
  preserves stdin (install_font env font_path).
Proof. unfold install_font. frame. Qed.

Lemma install_batch_preserves_stdin env fonts successful failed :
  preserves stdin (install_batch env fonts successful failed).
Proof.
  revert successful failed.
  induction fonts as [|f rest IH]; intros successful failed; cbn [install_batch].
  - frame.
  - apply preserves_bind; [frame|]. intros _.
    apply preserves_bind; [apply install_font_preserves_stdin|].
    intros [|]; apply IH.
Qed.

Lemma with_TemporaryDirectory_preserves_stdin {A} env (body : string -> M A) :
  (forall d, preserves stdin (body d)) ->
  preserves stdin (with_TemporaryDirectory env body).
Proof.
  intros Hb w. unfold with_TemporaryDirectory.
  specialize (Hb (temp_dir env)
                 (World (stdin w) (stdout w) (Some (Dir [])) (commands w))).
  destruct (body _ _) as [r w1]. exact Hb.
Qed.

(** X9.  With [--auto] a run reads nothing from the standard input,
    however it ends; and without an archive named by [--zip] it prints the
    error and leaves with status 1 at once. *)
Theorem auto_mode_reads_no_input (env : platform) (a : args) (w : world) :
  auto a = true ->
  stdin (snd (main env a w)) = stdin w
  /\ (match zip a with Some p => unset p | None => true end = true ->
      main env a w
      = (Raise (SystemExit 1),
         printed ["Error: In auto mode, you must specify a ZIP file with the --zip option."] w)).
Proof.
  intros Hauto. split.
  - revert w. change (preserves stdin (main env a)).
    unfold main, interface_mode. rewrite Hauto.
    apply preserves_bind.
    { unfold choose_zip. rewrite Hauto. cbn [andb].
      apply preserves_bind; [frame|]. intros [[zp uc] ug].
      apply preserves_bind; [frame|]. intros _.
      apply preserves_bind; [|frame].
      destruct (_ && _); [|frame].
      intros w. unfold bind, sys_exit, raise. rewrite print_run. reflexivity. }
    intros [[zip_path uc] ug].
    apply with_TemporaryDirectory_preserves_stdin. intros d.
    apply preserves_bind; [frame|]. intros _.
    apply preserves_bind; [apply extract_zip_preserves_stdin|].
    intros font_files.
    apply preserves_bind.
    { destruct font_files; [|frame].
      apply preserves_bind; [|frame].
      destruct (_ && _); [apply show_preserves|]; frame. }
    intros _.
    apply preserves_bind; [frame|]. intros _.
    apply preserves_bind.
    { intros w. rewrite install_all_flags; [reflexivity|].
      rewrite Hauto. apply orb_true_r. }
    intros [[install_all uc'] ug'].
    apply preserves_bind.
    { unfold fonts_to_install. rewrite Hauto. destruct install_all; frame. }
    intros fonts.
    apply preserves_bind; [destruct fonts; frame|]. intros _.
    apply preserves_bind; [frame|]. intros _.
    apply preserves_bind; [apply install_batch_preserves_stdin|].
    intros [successful failed]. cbv zeta.
    apply preserves_bind; [frame|]. intros _.
    destruct (_ && _); [apply show_preserves|]; frame.
  - intros Hzip. unfold main, interface_mode. rewrite Hauto.
    unfold choose_zip. rewrite Hauto. cbn [andb].
    destruct (zip a) as [p|]; cbv beta iota zeta delta [bind ret];
      [rewrite Hzip | change (unset "") with true];
      cbn [andb negb]; rewrite print_run; reflexivity.
Qed.

Lemma auto_mode_reads_no_input_witness :
  stdin (snd (main sample_platform auto_args (with_stdin ["n"; "q"] idle)))
  = stdin (with_stdin ["n"; "q"] idle)
  /\ (match zip auto_args with Some p => unset p | None => true end = true ->
      main sample_platform auto_args (with_stdin ["n"; "q"] idle)
      = (Raise (SystemExit 1),
         printed ["Error: In auto mode, you must specify a ZIP file with the --zip option."]
                 (with_stdin ["n"; "q"] idle))).
Proof.
  apply (auto_mode_reads_no_input
           sample_platform auto_args (with_stdin ["n"; "q"] idle)).
  reflexivity.
Defined.

(** ** The commands of the installation *)

Lemma install_font_commands (env : platform) (font_path : string) (w : world) :
  commands (snd (install_font env font_path w)) = commands w
  \/ commands (snd (install_font env font_path w))
     = commands w ++ [["open"; font_path]]
  \/ commands (snd (install_font env font_path w))
     = commands w ++ [["open"; font_path]; ["osascript"; "install-font.scpt"]].
Proof.
  rewrite install_font_run. cbv zeta.
  destruct (launch env _ ["open"; font_path]) as [status| |];
    [|now left|now left].
  destruct (status =? 0); [|right; left; reflexivity].
  destruct (launch env _ ["osascript"; _]) as [status'| |].
  - right; right. destruct (status' =? 0); cbn; now rewrite <- app_assoc.
  - right; left. reflexivity.
  - right; left. reflexivity.
Qed.

(** X10.  The installation loop launches nothing but [open] on the path of
    a font it was given and [osascript install-font.scpt], which is the
    same for every font; at most two commands a font. *)
Theorem install_batch_commands (env : platform) (fonts : list font)
        (successful failed : nat) (w : world) :
  exists cmds,
    commands (snd (install_batch env fonts successful failed w))
    = commands w ++ cmds
    /\ Forall (fun cmd => cmd = ["osascript"; "install-font.scpt"]
                          \/ exists f, In f fonts /\ cmd = ["open"; path f])
              cmds
    /\ (List.length cmds <= 2 * List.length fonts)%nat.
Proof.
  revert successful failed w.
  induction fonts as [|f rest IH]; intros successful failed w.
  - exists []. cbn. rewrite app_nil_r. repeat split; [constructor | lia].
  - cbn [install_batch]. unfold bind at 1. rewrite print_run.
    unfold bind at 1.
    pose proof (install_font_commands env (path f)
                  (printed [("Installing: " ++ name f)%string] w)) as Hc.
    destruct (install_font env (path f)
                (printed [("Installing: " ++ name f)%string] w))
      as [[ok|e] w1]; cbn [snd commands printed] in Hc.
    2:{ cbn [snd].
        destruct Hc as [Hc | [Hc | Hc]]; rewrite Hc.
        - exists []. rewrite app_nil_r.
          repeat split; [constructor | cbn [List.length]; lia].
        - exists [["open"; path f]]. repeat split.
          + constructor; [|constructor].
            right. exists f. split; [now left | reflexivity].
          + cbn [List.length]. lia.
        - exists [["open"; path f]; ["osascript"; "install-font.scpt"]].
          repeat split.
          + constructor; [right; exists f; split; [now left|reflexivity]|].
            constructor; [now left | constructor].
          + cbn [List.length]. lia. }
    assert (Hnext : forall s fl,
               exists cmds,
                 commands (snd (install_batch env rest s fl w1))
                 = commands w ++ cmds
                 /\ Forall (fun cmd => cmd = ["osascript"; "install-font.scpt"]
                              \/ exists g, In g (f :: rest)
                                           /\ cmd = ["open"; path g]) cmds
                 /\ (List.length cmds <= 2 * List.length (f :: rest))%nat).
    { intros s fl. destruct (IH s fl w1) as (cmds & Hcmds & Hall & Hlen).
      assert (Hall' : Forall (fun cmd => cmd = ["osascript"; "install-font.scpt"]
                              \/ exists g, In g (f :: rest)
                                           /\ cmd = ["open"; path g]) cmds).
      { eapply Forall_impl; [|exact Hall].
        intros cmd [-> | (g & Hg & ->)]; [now left|].
        right. exists g. split; [now right | reflexivity]. }
      destruct Hc as [Hc | [Hc | Hc]]; rewrite Hcmds, Hc.
      - exists cmds. repeat split; [exact Hall'|]. cbn [List.length]. lia.
      - exists (["open"; path f] :: cmds). rewrite <- app_assoc.
        repeat split.
        + constructor; [|exact Hall']. right. exists f. split; [now left|reflexivity].
        + cbn [List.length]. lia.
      - exists (["open"; path f] :: ["osascript"; "install-font.scpt"] :: cmds).
        rewrite <- app_assoc. repeat split.
        + constructor; [right; exists f; split; [now left|reflexivity]|].
          constructor; [now left | exact Hall'].
        + cbn [List.length]. lia. }
    destruct ok; apply Hnext.
Qed.

(** X11.  Where neither command is found, the loop counts every font as
    installed and none as failed, launches nothing, and prints two lines a
    font: "Installing: <name>" and "Would install font: <path>". *)
Theorem install_batch_off_platform (env : platform) (fonts : list font)
        (successful failed : nat) (w : world) :
  (forall n cmd, launch env n cmd = Missing) ->
  install_batch env fonts successful failed w
  = (Ok ((successful + List.length fonts)%nat, failed),
     printed (flat_map (fun f => [("Installing: " ++ name f)%string;
                                  ("Would install font: " ++ path f)%string])
                       fonts) w).
Proof.
  intros Hmissing. revert successful w.
  induction fonts as [|f rest IH]; intros successful w.
  - cbn. rewrite Nat.add_0_r. unfold ret, printed. rewrite app_nil_r.
    now destruct w.
  - cbn [install_batch]. unfold bind at 1. rewrite print_run.
    unfold bind at 1. rewrite install_font_run. cbv zeta.
    rewrite Hmissing. rewrite IH. rewrite !printed_app.
    cbn [flat_map List.length]. 
    replace (successful + 1 + List.length rest)%nat
      with (successful + S (List.length rest))%nat by lia.
    reflexivity.
Qed.

Lemma install_batch_off_platform_witness :
  install_batch off_platform sample_fonts 0 0 idle
  = (Ok ((0 + List.length sample_fonts)%nat, 0%nat),
     printed (flat_map (fun f => [("Installing: " ++ name f)%string;
                                  ("Would install font: " ++ path f)%string])
                       sample_fonts) idle).
Proof.
  apply (install_batch_off_platform off_platform sample_fonts 0 0 idle).
  intros n cmd. reflexivity.
Defined.

(** ** Whole runs, in general *)

(** X12.  When the path given with [--zip], after [~] is expanded, is not
    a regular file, [main] prints "Error: File not found: <path>" with the
    expanded path and leaves with status 1; nothing else is printed, nothing
    is read and no scratch directory is created. *)
Theorem missing_archive_exits (env : platform) (a : args) (p : string)
        (w : world) :
  zip a = Some p -> unset p = false ->
  isfile env (expanduser env p) = None ->
  main env a w
  = (Raise (SystemExit 1),
     printed [("Error: File not found: " ++ expanduser env p)%string] w).
Proof.
  intros Hz Hu Hf. unfold main.
  destruct (interface_mode env a) as [use_cli use_gui].
  unfold choose_zip. rewrite Hz, Hu, andb_false_r.
  cbv beta iota zeta delta [bind ret].
  rewrite Hu. cbn [andb]. rewrite Hf. rewrite print_run. reflexivity.
Qed.

Lemma extract_zip_stdout (env : platform) (zip_path extract_dir : string)
      (w : world) :
  exists out,
    stdout (snd (extract_zip env zip_path extract_dir w)) = stdout w ++ out.
Proof.
  rewrite extract_zip_run.
  destruct (isfile env zip_path) as [[entries|bytes]|].
  - pose proof (extractall_preserves_stdout env entries w) as Hout.
    destruct (extractall env entries w) as [[[]|x] w1] eqn:E; cbn [fst snd] in *.
    + exists []. now rewrite app_nil_r.
    + destruct (extractall_raises _ _ _ _ _ E) as [-> | ->]; cbn;
        rewrite Hout; eauto.
  - cbn. eauto.
  - cbn. eauto.
Qed.

Lemma show_run (box : gui unit) (w : world) :
  exists out, show box w = (Ok tt, printed out w).
Proof.
  destruct box as [[]|msg].
  - exists []. unfold show, ret, printed. rewrite app_nil_r. now destruct w.
  - eexists [_]. apply print_run.
Qed.

(** X13.  When [extract_zip] finds no font in the archive, [main] leaves
    with status 1 in every interface mode; the last line it prints is "No
    font files found in the ZIP file.", no question is asked (the input is
    as it was), no command is launched and the scratch directory is
    gone. *)
Theorem archive_without_fonts_exits (env : platform) (a : args) (p : string)
        (d : disk_file) (w : world) :
  zip a = Some p -> unset p = false ->
  isfile env (expanduser env p) = Some d ->
  fst (extract_zip env (expanduser env p) (temp_dir env) scratch_created)
  = Ok [] ->
  exists out,
    main env a w
    = (Raise (SystemExit 1),
       World (stdin w)
             (stdout w ++ out ++ ["No font files found in the ZIP file."])
             None (commands w)).
Proof.
  intros Hzip Hset Hfile Hfound. unfold main.
  destruct (interface_mode env a) as [use_cli use_gui].
  unfold bind at 1.
  rewrite (choose_zip_given env a use_cli use_gui p d w Hzip Hset Hfile).
  unfold with_TemporaryDirectory.
  unfold bind at 1. rewrite print_run.
  set (w1 := printed _ _).
  unfold bind at 1.
  pose proof (extract_zip_preserves_stdin env (expanduser env p) (temp_dir env) w1) as Hs.
  pose proof (extract_zip_preserves_commands env (expanduser env p) (temp_dir env) w1) as Hc.
  destruct (extract_zip_stdout env (expanduser env p) (temp_dir env) w1)
    as (out & Ho).
  destruct (extract_zip_disk_determined env (expanduser env p) (temp_dir env)
              w1 scratch_created eq_refl) as [Hv _].
  rewrite Hfound in Hv.
  destruct (extract_zip env (expanduser env p) (temp_dir env) w1) as [r w2].
  cbn [fst snd] in Hv, Hs, Hc, Ho. subst r.
  unfold bind at 1. unfold bind at 1.
  assert (Hshow : exists out',
             (if use_gui && negb (tk_is_None env) then show (showerror env)
              else ret tt) w2 = (Ok tt, printed out' w2)).
  { destruct (_ && _); [apply show_run|].
    exists []. unfold ret, printed. rewrite app_nil_r. now destruct w2. }
  destruct Hshow as (out' & ->).
  unfold bind at 1. rewrite print_run. rewrite printed_app.
  unfold sys_exit, raise. subst w1.
  cbn [printed stdin stdout commands] in Hs, Hc, Ho.
  cbn [printed stdin stdout commands].
  rewrite Hs, Hc, Ho.
  exists ([("Extracting " ++ basename (expanduser env p) ++ "...")%string]
            ++ out ++ out').
  now rewrite <- !app_assoc.
Qed.

Lemma missing_archive_exits_witness :
  main sample_platform absent_args (with_stdin ["n"] idle)
  = (Raise (SystemExit 1),
     printed [("Error: File not found: "
               ++ expanduser sample_platform "absent.zip")%string]
             (with_stdin ["n"] idle)).
Proof.
  apply (missing_archive_exits sample_platform absent_args "absent.zip"
           (with_stdin ["n"] idle)); reflexivity.
Defined.

Lemma archive_without_fonts_exits_witness :
  exists out,
    main sample_platform notes_args (with_stdin ["n"; "1"] idle)
    = (Raise (SystemExit 1),
       World (stdin (with_stdin ["n"; "1"] idle))
             (stdout (with_stdin ["n"; "1"] idle) ++ out
                ++ ["No font files found in the ZIP file."])
             None (commands (with_stdin ["n"; "1"] idle))).
Proof.
  apply (archive_without_fonts_exits sample_platform notes_args "notes.zip"
           (Zip [ZipEntry "notes.txt" "n" true]) (with_stdin ["n"; "1"] idle));
    reflexivity.
Defined.

(** X14.  With [--install-all] or [--auto], an archive given with [--zip]
    and at least one font found in it, on a platform where every command
    can be launched or is not there, [main] returns normally: every font
    found is announced by "Installing: <name>", the summary is printed with
    counts of successes and failures that add up to the number of fonts
    found, nothing is read from the input and the scratch directory is
    gone. *)
Theorem install_all_run (env : platform) (a : args) (p : string)
        (d : disk_file) (f : font) (fs : list font) (w : world) :
  launchable env ->
  install_all_flag a || auto a = true ->
  zip a = Some p -> unset p = false ->
  isfile env (expanduser env p) = Some d ->
  fst (extract_zip env (expanduser env p) (temp_dir env) scratch_created)
  = Ok (f :: fs) ->
  exists successful failed out w',
    main env a w = (Ok tt, w')
    /\ (successful + failed = List.length (f :: fs))%nat
    /\ stdin w' = stdin w
    /\ scratch w' = None
    /\ stdout w' = stdout w ++ out
    /\ In (summary successful failed) out
    /\ Forall (fun g => In ("Installing: " ++ name g)%string out) (f :: fs).
Proof.
  intros Hlaunch Hall Hzip Hset Hfile Hfound. unfold main.
  destruct (interface_mode env a) as [use_cli use_gui].
  unfold bind at 1.
  rewrite (choose_zip_given env a use_cli use_gui p d w Hzip Hset Hfile).
  unfold with_TemporaryDirectory.
  unfold bind at 1. rewrite print_run.
  set (w1 := printed _ _).
  unfold bind at 1.
  pose proof (extract_zip_preserves_stdin env (expanduser env p) (temp_dir env) w1) as Hs.
  destruct (extract_zip_stdout env (expanduser env p) (temp_dir env) w1)
    as (out1 & Ho).
  destruct (extract_zip_disk_determined env (expanduser env p) (temp_dir env)
              w1 scratch_created eq_refl) as [Hv _].
  rewrite Hfound in Hv.
  destruct (extract_zip env (expanduser env p) (temp_dir env) w1) as [r w2].
  cbn [fst snd] in Hv, Hs, Ho. subst r. subst w1.
  cbn [printed stdin stdout] in Hs, Ho.
  unfold bind at 1. cbn [ret]. unfold bind at 1. rewrite print_run.
  unfold bind at 1. rewrite (install_all_flags env a use_cli use_gui _ _ Hall).
  unfold bind at 1. unfold fonts_to_install. cbn [ret].
  unfold bind at 1. unfold ret at 1.
  unfold bind at 1. rewrite print_run. rewrite printed_app.
  set (w3 := printed _ w2).
  unfold bind at 1.
  pose proof (install_batch_preserves_stdin env (f :: fs) 0 0 w3) as Hs3.
  destruct (install_batch_total env (f :: fs) 0 0 w3 Hlaunch)
    as (successful & failed & w4 & Hrun & Hsum & out4 & Ho4 & Hall4).
  rewrite Hrun in *. cbn [snd] in Hs3.
  unfold bind at 1. rewrite print_run.
  change (printed [_] w4) with (printed [summary successful failed] w4).
  assert (Hshow : exists out',
             (if use_gui && negb (tk_is_None env) then show (showinfo env)
              else ret tt) (printed [summary successful failed] w4)
             = (Ok tt, printed out' (printed [summary successful failed] w4))).
  { destruct (_ && _); [apply show_run|].
    exists []. unfold ret, printed. cbn. now rewrite app_nil_r. }
  destruct Hshow as (out' & ->). rewrite printed_app.
  subst w3. cbn [printed stdin stdout] in Hs3, Ho4.
  exists successful, failed.
  exists ([("Extracting " ++ basename (expanduser env p) ++ "...")%string]
            ++ out1
            ++ [found_message (f :: fs);
                ("Installing " ++ PyStr.of_nat (List.length (f :: fs)) ++ " fonts...")%string]
            ++ out4 ++ [summary successful failed] ++ out').
  eexists. split; [reflexivity|]. cbn [printed stdin stdout scratch].
  split; [exact Hsum|]. split; [now rewrite Hs3|]. split; [reflexivity|].
  split.
  - rewrite Ho4, Ho. now rewrite <- !app_assoc.
  - split.
    + rewrite !in_app_iff. right. right. right. right. left. now left.
    + eapply Forall_impl; [|exact Hall4]. intros g Hg.
      rewrite !in_app_iff. right. right. right. now left.
Qed.

Lemma install_all_run_witness :
  exists successful failed out w',
    main sample_platform auto_args (with_stdin ["n"] idle) = (Ok tt, w')
    /\ (successful + failed = List.length (font_a :: [font_c; font_b]))%nat
    /\ stdin w' = stdin (with_stdin ["n"] idle)
    /\ scratch w' = None
    /\ stdout w' = stdout (with_stdin ["n"] idle) ++ out
    /\ In (summary successful failed) out
    /\ Forall (fun g => In ("Installing: " ++ name g)%string out)
              (font_a :: [font_c; font_b]).
Proof.
  apply (install_all_run sample_platform auto_args "fonts.zip"
           (Zip sample_archive) font_a [font_c; font_b]
           (with_stdin ["n"] idle)); try reflexivity.
  intros n cmd. discriminate.
Defined.

(** ** The end of the input *)

Lemma input_eof (question : string) (w : world) :
  stdin w = [] -> input question w = (Raise EOFError, printed [question] w).
Proof.
  intros Hin. unfold input. unfold bind at 1. rewrite print_run.
  cbn [stdin printed]. now rewrite Hin.
Qed.

Lemma readline_eof (w : world) :
  stdin w = [] -> readline w = (Ok EmptyString, w).
Proof. intros Hin. unfold readline. now rewrite Hin. Qed.

Lemma ask_install_all_eof (env : platform) (a : args)
      (font_files : list font) (w : world) :
  install_all_flag a = false -> auto a = false -> stdin w = [] ->
  let question :=
    (found_message font_files ++ " Install all? (y/n): ")%string in
  ask_install_all env a true false font_files w
  = if isatty env
    then (Ok (true, true, false),
          printed [question;
                   "Running in non-interactive mode. Installing all fonts by default."] w)
    else (Ok (false, true, false), printed [question; ""] w).
Proof.
  intros Hf Ha Hin. cbv zeta. unfold ask_install_all. rewrite Hf, Ha.
  cbn [orb negb andb]. unfold bind at 1. cbn [ret andb].
  unfold try_except. destruct (isatty env).
  - unfold bind at 1. rewrite (input_eof _ _ Hin).
    unfold bind at 1. rewrite print_run. now rewrite printed_app.
  - unfold bind at 1. rewrite print_run.
    unfold bind at 1. rewrite readline_eof by exact Hin.
    unfold bind at 1. rewrite print_run. now rewrite printed_app.
Qed.

(** X15.  In command-line mode, a run whose standard input is at its end
    installs every font that was found: at a terminal the question raises
    [EOFError], which sets [install_all]; with piped input the empty answer
    counts as "no" and the empty selection line as a malformed one, for
    which everything is installed.  Only messages are printed on the
    way. *)
Theorem end_of_input_installs_everything
        (env : platform) (a : args) (font_files : list font) (w : world) :
  stdin w = [] ->
  exists out,
    selection_stage env a true false font_files w
    = (Ok font_files, printed out w).
Proof.
  intros Hin. unfold selection_stage.
  destruct (install_all_flag a || auto a) eqn:Hflag.
  { unfold bind at 1. rewrite (install_all_flags env a true false _ w Hflag).
    exists []. unfold fonts_to_install, ret, printed. rewrite app_nil_r.
    now destruct w. }
  apply orb_false_iff in Hflag. destruct Hflag as [Hflag Hauto].
  unfold bind at 1.
  rewrite (ask_install_all_eof env a font_files w Hflag Hauto Hin).
  destruct (isatty env) eqn:Htty.
  - eexists. reflexivity.
  - unfold fonts_to_install, try_except. rewrite Hauto, Htty.
    rewrite (piped_selection_eof font_files) by exact Hin.
    rewrite printed_app. eexists. reflexivity.
Qed.

Lemma end_of_input_installs_everything_witness :
  exists out,
    selection_stage sample_platform sample_args true false sample_fonts idle
    = (Ok sample_fonts, printed out idle).
Proof.
  apply (end_of_input_installs_everything
           sample_platform sample_args sample_fonts idle).
  reflexivity.
Defined.

(** ** The older installer *)

Lemma extractall_preserves_stdin env entries :
  preserves stdin (extractall env entries).
Proof. unfold extractall, getinfo. frame. Qed.

Lemma extractall_preserves_commands env entries :
  preserves commands (extractall env entries).
Proof. unfold extractall, getinfo. frame. Qed.

(** The loop of [install_fonts] (lines 42-45) when no move fails. *)
Lemma move_loop (env : platform) (names : list string) :
  forall (kids : dir) (w : world),
    scratch w = Some (Dir kids) ->
    Forall (fun f => move_fault env f = false) names ->
    exists kids',
      for_each names
        (fun font => FontFox.move env font ;;
                     print ("Installed: " ++ font)%string) w
      = (Ok tt,
         World (stdin w)
               (stdout w ++ map (fun f => ("Installed: " ++ f)%string) names)
               (Some (Dir kids')) (commands w)).
Proof.
  induction names as [|f rest IH]; intros kids w Hw Hok.
  - exists kids. cbn. rewrite app_nil_r. unfold ret. rewrite <- Hw.
    now destruct w.
  - inversion Hok as [|? ? Hf Hrest]; subst.
    cbn [for_each]. unfold bind at 1. unfold bind at 1.
    unfold FontFox.move at 1. rewrite Hf.
    unfold bind at 1. unfold get_scratch. rewrite Hw.
    unfold set_scratch. rewrite print_run.
    match goal with
    | |- context [for_each rest _ ?w1] =>
        destruct (IH (filter (fun kn => negb (String.eqb (fst kn) f)) kids) w1)
          as (kids' & ->); [reflexivity | exact Hrest |]
    end.
    exists kids'. cbn [stdin stdout commands printed map].
    now rewrite <- app_assoc.
Qed.

(** X16.  [install_fonts] of [font-fox.py], when the archive is unpacked
    without an error into the emptied directory, at least one entry at the
    top of that directory has a name ending in [.ttf], [.otf] or [.dfont],
    and none of the moves fails: it returns normally, prints "Extracted
    fonts to ...", then one line "Installed: <name>" for each such entry,
    then "Font installation complete!", and the directory is removed.  The
    order of the "Installed" lines is the one [os.listdir] gives, which is
    the file system's: the lines are fixed up to their order.  Entries
    below the top are not looked at. *)
Theorem install_fonts_moves_top_level_fonts
        (env : platform) (zip_path : string) (entries : list zip_entry)
        (kids : dir) (w : world) :
  let emptied := World (stdin w) (stdout w) (Some (Dir [])) (commands w) in
  let font_files :=
    filter fox_accepts (map fst kids) in
  isfile env zip_path = Some (Zip entries) ->
  fst (extractall env entries emptied) = Ok tt ->
  scratch (snd (extractall env entries emptied)) = Some (Dir kids) ->
  font_files <> [] ->
  Forall (fun f => move_fault env f = false) font_files ->
  exists listed,
    Permutation listed font_files
    /\ FontFox.install_fonts env zip_path w
       = (Ok tt,
          World (stdin w)
                (stdout w
                   ++ [("Extracted fonts to " ++ expanduser env "~"
                        ++ "/Downloads/extracted_fonts")%string]
                   ++ map (fun f => ("Installed: " ++ f)%string) listed
                   ++ ["Font installation complete!"])
                None (commands w)).
Proof.
  cbv zeta. intros Hfile Hok Hkids Hfonts Hmove.
  exists (filter fox_accepts (map fst kids)).
  split; [apply Permutation_refl|].
  unfold FontFox.install_fonts.
  unfold bind at 1. unfold set_scratch at 1.
  unfold bind at 1. unfold try_except.
  unfold bind at 1. unfold ZipFile. rewrite Hfile. unfold ret at 1.
  unfold bind at 1.
  pose proof (extractall_preserves_stdin env entries
                (World (stdin w) (stdout w) (Some (Dir [])) (commands w))) as Hs.
  pose proof (extractall_preserves_commands env entries
                (World (stdin w) (stdout w) (Some (Dir [])) (commands w))) as Hc.
  pose proof (extractall_preserves_stdout env entries
                (World (stdin w) (stdout w) (Some (Dir [])) (commands w))) as Ho.
  destruct (extractall env entries _) as [r w1].
  cbn [fst snd stdin stdout commands] in *. subst r.
  unfold bind at 1. rewrite print_run. unfold ret at 1.
  cbn [negb]. unfold bind at 1. unfold get_scratch at 1.
  cbn [scratch printed]. rewrite Hkids.
  unfold bind at 1. unfold lift at 1. cbn [FontFox.listdir].
  destruct (filter _ (map fst kids)) as [|f fs] eqn:Hff; [now destruct Hfonts|].
  unfold bind at 1.
  match goal with
  | |- context [for_each (f :: fs) _ ?w2] =>
      destruct (move_loop env (f :: fs) kids w2) as (kids' & ->);
        [exact Hkids | exact Hmove |]
  end.
  unfold bind at 1. unfold set_scratch at 1. rewrite print_run.
  cbn [stdin stdout commands printed]. rewrite Hs, Hc, Ho.
  unfold printed. cbn [stdin stdout scratch commands].
  now rewrite <- !app_assoc.
Qed.

Lemma install_fonts_moves_top_level_fonts_witness :
  exists listed,
    Permutation listed
      (filter fox_accepts
         (map fst [("a.ttf", File "A"); ("sub", Dir [("B.OTF", File "B")]);
                   ("notes.txt", File "n"); ("c.dfont", File "C")]))
    /\ FontFox.install_fonts sample_platform "fonts.zip" idle
       = (Ok tt,
          World (stdin idle)
                (stdout idle
                   ++ [("Extracted fonts to "
                        ++ expanduser sample_platform "~"
                        ++ "/Downloads/extracted_fonts")%string]
                   ++ map (fun f => ("Installed: " ++ f)%string) listed
                   ++ ["Font installation complete!"])
                None (commands idle)).
Proof.
  apply (install_fonts_moves_top_level_fonts
           sample_platform "fonts.zip" sample_archive
           [("a.ttf", File "A"); ("sub", Dir [("B.OTF", File "B")]);
            ("notes.txt", File "n"); ("c.dfont", File "C")] idle).
  - reflexivity.
  - reflexivity.
  - reflexivity.
  - discriminate.
  - repeat constructor.
Defined.

(** X17.  The two installers do not agree on what a font is: every name
    [font-fox.py] takes for a font, [is_font_file] of [fontofx.py] accepts
    too, but not the other way round, since [font-fox.py] compares the case
    as it is and does not know [.ttc]. *)
Theorem font_fox_accepts_fewer_names :
  (forall f, fox_accepts f = true -> is_font_file f = true)
  /\ is_font_file "A.TTF" = true /\ fox_accepts "A.TTF" = false
  /\ is_font_file "a.ttc" = true /\ fox_accepts "a.ttc" = false.
Proof.
  split; [|repeat split].
  intros f Hf. unfold fox_accepts in Hf. apply existsb_exists in Hf.
  destruct Hf as (ext & Hin & Hend).
  apply endswith_iff in Hend as (stem & ->).
  unfold is_font_file. apply existsb_exists. exists ext. split.
  - cbn in Hin |- *. tauto.
  - apply endswith_iff. exists (PyStr.lower stem). rewrite lower_append.
    f_equal. cbn in Hin. destruct Hin as [<- | [<- | [<- | []]]]; reflexivity.
Qed.

(** ** More on the selection grammar *)

Lemma skipn_nth_error {A} (xs : list A) (s : nat) (x : A) :
  nth_error xs s = Some x -> skipn s xs = x :: skipn (S s) xs.
Proof.
  revert s. induction xs as [|y xs IH]; intros [|s] H; try discriminate.
  - now injection H as ->.
  - cbn [nth_error] in H. cbn [skipn]. rewrite (IH s H). reflexivity.
Qed.

Lemma block_picks (font_files : list font) (first n : nat) :
  (1 <= first)%nat ->
  forall k0, (first - 1 + k0 + n <= List.length font_files)%nat ->
    picks font_files
          (map (fun k => Z.of_nat first + Z.of_nat k) (seq k0 n))
          (firstn n (skipn (first - 1 + k0) font_files)).
Proof.
  intros H1. unfold picks.
  induction n as [|n IH]; intros k0 Hk; [constructor|].
  destruct (nth_error font_files (first - 1 + k0)) as [x|] eqn:Hx.
  - rewrite (skipn_nth_error font_files _ x Hx). cbn [seq map firstn].
    constructor.
    + rewrite <- Hx. f_equal. lia.
    + replace (S (first - 1 + k0)) with (first - 1 + S k0)%nat by lia.
      apply IH. lia.
  - apply nth_error_None in Hx. lia.
Qed.

Lemma picks_unique (font_files : list font) (idxs : list Z)
      (a b : list font) :
  picks font_files idxs a -> picks font_files idxs b -> a = b.
Proof.
  intros Ha. revert b. induction Ha as [|i f idxs a Hi Ha IH]; intros b Hb.
  - now inversion Hb.
  - inversion Hb as [|? g ? b' Hg Hb']; subst. f_equal; [congruence|].
    now apply IH.
Qed.

Lemma picks_span (font_files : list font) (first last : nat) :
  (1 <= first)%nat -> (first <= last)%nat ->
  (last <= List.length font_files)%nat ->
  picks font_files (token_indices (Span first last))
        (firstn (last - first + 1) (skipn (first - 1) font_files)).
Proof.
  intros H1 H2 H3. unfold token_indices, range.
  replace (Z.to_nat (Z.of_nat last + 1 - Z.of_nat first))
    with (last - first + 1)%nat by lia.
  pose proof (block_picks font_files first (last - first + 1) H1 0%nat) as H.
  rewrite Nat.add_0_r in H. apply H. lia.
Qed.

(** X18.  A span [first-last] with [1 <= first <= last <= N], typed as
    decimal numbers at the prompt or in piped input, selects the block of
    candidates from the [first]-th to the [last]-th, both included, in list
    order. *)
Theorem span_selects_block (mode : cli_mode) (font_files : list font)
        (first last : nat) (rest : list string) (w : world) :
  (1 <= first)%nat -> (first <= last)%nat ->
  (last <= List.length font_files)%nat ->
  fst (cli_select mode font_files
         (with_stdin (render_line [Span first last] :: rest) w))
  = Ok (firstn (last - first + 1) (skipn (first - 1) font_files)).
Proof.
  intros H1 H2 H3.
  destruct (rendered_line_selects mode font_files [Span first last] rest w)
    as (fonts & Hrun & Hpicks).
  - discriminate.
  - cbn [flat_map]. rewrite app_nil_r. apply Forall_forall. intros i Hi.
    apply in_range in Hi. unfold names_candidate. lia.
  - rewrite Hrun. f_equal. cbn [flat_map] in Hpicks.
    rewrite app_nil_r in Hpicks.
    exact (picks_unique _ _ _ _ Hpicks (picks_span _ _ _ H1 H2 H3)).
Qed.

Lemma span_selects_block_witness :
  fst (cli_select Interactive sample_fonts
         (with_stdin (render_line [Span 2 3] :: ["q"]) idle))
  = Ok (firstn (3 - 2 + 1) (skipn (2 - 1) sample_fonts)).
Proof.
  apply (span_selects_block Interactive sample_fonts 2 3 ["q"] idle).
  - lia.
  - lia.
  - cbn. lia.
Defined.

(** X19.  The keywords are matched after lower-casing at the prompt but
    as they stand in piped input: a line that reads [Q] quits at the prompt
    and selects nothing, while the same line piped in is taken for a
    malformed selection, for which every font is installed. *)
Theorem upper_case_quit_installs_everything
        (font_files : list font) (line : string) (rest : list string)
        (w : world) :
  stdin w = line :: rest ->
  selection_text Interactive line = "q" ->
  selection_text Piped line = "Q" ->
  fst (cli_select Interactive font_files w) = Ok []
  /\ fst (cli_select Piped font_files w) = Ok font_files
  /\ stdin (snd (cli_select Piped font_files w)) = rest.
Proof.
  unfold selection_text. intros Hin Hq HQ. split; [|split].
  - cbn [cli_select]. rewrite select_fonts_cli_run, Hin, select_loop_step.
    cbv zeta. now rewrite Hq.
  - cbn [cli_select]. rewrite (piped_selection_step _ _ _ _ Hin).
    cbv zeta. now rewrite HQ.
  - cbn [cli_select]. rewrite (piped_selection_step _ _ _ _ Hin).
    cbv zeta. now rewrite HQ.
Qed.

Lemma upper_case_quit_installs_everything_witness :
  fst (cli_select Interactive sample_fonts (with_stdin [" Q "; "1"] idle)) = Ok []
  /\ fst (cli_select Piped sample_fonts (with_stdin [" Q "; "1"] idle))
     = Ok sample_fonts
  /\ stdin (snd (cli_select Piped sample_fonts (with_stdin [" Q "; "1"] idle)))
     = ["1"].
Proof.
  apply (upper_case_quit_installs_everything
           sample_fonts " Q " ["1"] (with_stdin [" Q "; "1"] idle));
    reflexivity.
Defined.

(** ** The scratch directory and the choice of the archive *)

(** X20.  The scratch directory of [main] does not outlive the run: either
    it is gone when [main] ends, however it ends, or [main] left by
    [sys.exit] while the archive was being chosen, before the directory was
    created, and the disk is as it was. *)
Theorem main_scratch_lifecycle (env : platform) (a : args) (w : world) :
  scratch (snd (main env a w)) = None
  \/ (scratch (snd (main env a w)) = scratch w
      /\ (fst (main env a w) = Raise (SystemExit 0)
          \/ fst (main env a w) = Raise (SystemExit 1))).
Proof.
  unfold main. destruct (interface_mode env a) as [use_cli use_gui].
  match goal with
  | |- context [bind (choose_zip env a use_cli use_gui) ?k w] =>
      change (bind (choose_zip env a use_cli use_gui) k w)
        with (match choose_zip env a use_cli use_gui w with
              | (Ok x, w') => k x w'
              | (Raise e, w') => (Raise e, w')
              end)
  end.
  pose proof (choose_zip_preserves_scratch env a use_cli use_gui w) as Hs.
  pose proof (choose_zip_ends env a use_cli use_gui w) as He.
  destruct (choose_zip env a use_cli use_gui w) as [[[[zip_path uc] ug]|e] w1];
    cbn [fst snd] in *.
  - left. apply with_TemporaryDirectory_removes.
  - right. split; [exact Hs|]. destruct He as [-> | ->]; auto.
Qed.

(** X21.  Without [--zip] in command-line mode the archive is asked for
    once: at the end of the input the program leaves with status 1, on a
    blank line with status 0, and otherwise the line, stripped and with [~]
    expanded, is the path, which must be a regular file or the program
    leaves with status 1. *)
Theorem archive_asked_at_prompt (env : platform) (a : args) (w : world) :
  auto a = false ->
  match zip a with Some p => unset p | None => true end = true ->
  let question := "Enter the path to the ZIP file containing fonts: " in
  choose_zip env a true false w
  = match stdin w with
    | [] =>
        (Raise (SystemExit 1),
         printed [question;
                  "Error: In non-interactive mode, you must specify a ZIP file with the --zip option."] w)
    | line :: rest =>
        let w1 := with_stdin rest (printed [question] w) in
        let zip_path := expanduser env (PyStr.strip line) in
        if unset (PyStr.strip line) then
          (Raise (SystemExit 0), printed ["No ZIP file specified. Exiting."] w1)
        else
          match isfile env zip_path with
          | Some _ => (Ok (zip_path, true, false), w1)
          | None =>
              (Raise (SystemExit 1),
               printed [("Error: File not found: " ++ zip_path)%string] w1)
          end
    end.
Proof.
  intros Hauto Hzip. cbv zeta. unfold choose_zip. rewrite Hauto.
  assert (Hz : unset match zip a with Some p => p | None => "" end = true).
  { destruct (zip a); [exact Hzip | reflexivity]. }
  cbv zeta. cbn [andb].
  unfold bind at 1. unfold ret at 1.
  rewrite Hz. cbn [andb negb].
  unfold bind at 1. unfold ret at 1.
  unfold bind at 1. unfold bind at 1. unfold ret at 1.
  unfold try_except. unfold bind at 1.
  destruct (stdin w) as [|line rest] eqn:Hin.
  - rewrite (input_eof _ _ Hin). unfold bind at 1. rewrite print_run.
    now rewrite printed_app.
  - rewrite (input_run _ _ _ _ Hin).
    destruct (unset (PyStr.strip line)).
    + unfold bind at 1. rewrite print_run. reflexivity.
    + unfold ret at 1. destruct (isfile env _); [reflexivity|].
      unfold bind at 1. rewrite print_run. reflexivity.
Qed.

Lemma archive_asked_at_prompt_witness :
  let question := "Enter the path to the ZIP file containing fonts: " in
  choose_zip sample_platform bare_args true false
             (with_stdin ["  fonts.zip "; "n"] idle)
  = match stdin (with_stdin ["  fonts.zip "; "n"] idle) with
    | [] =>
        (Raise (SystemExit 1),
         printed [question;
                  "Error: In non-interactive mode, you must specify a ZIP file with the --zip option."]
                 (with_stdin ["  fonts.zip "; "n"] idle))
    | line :: rest =>
        let w1 := with_stdin rest
                    (printed [question]
                             (with_stdin ["  fonts.zip "; "n"] idle)) in
        let zip_path := expanduser sample_platform (PyStr.strip line) in
        if unset (PyStr.strip line) then
          (Raise (SystemExit 0), printed ["No ZIP file specified. Exiting."] w1)
        else
          match isfile sample_platform zip_path with
          | Some _ => (Ok (zip_path, true, false), w1)
          | None =>
              (Raise (SystemExit 1),
               printed [("Error: File not found: " ++ zip_path)%string] w1)
          end
    end.
Proof.
  apply (archive_asked_at_prompt sample_platform bare_args
           (with_stdin ["  fonts.zip "; "n"] idle)); reflexivity.
Defined.

(** X22.  Without [--zip] in GUI mode the archive is asked for in the file
    dialog: a dismissed dialog (the empty path) ends the program with
    status 0, a path that is not a regular file with status 1, and a
    dialog that fails is reported, after which the program goes on exactly
    as in command-line mode. *)
Theorem archive_asked_in_dialog (env : platform) (a : args) (w : world) :
  GUI_AVAILABLE env = true ->
  match zip a with Some p => unset p | None => true end = true ->
  choose_zip env a false true w
  = match askopenfilename env with
    | GuiOk chosen =>
        let zip_path := expanduser env chosen in
        if unset chosen then
          (Raise (SystemExit 0), printed ["No ZIP file selected. Exiting."] w)
        else
          match isfile env zip_path with
          | Some _ => (Ok (zip_path, false, true), w)
          | None =>
              (Raise (SystemExit 1),
               printed [("Error: File not found: " ++ zip_path)%string] w)
          end
    | GuiFail msg =>
        choose_zip env a true false
          (printed [("Failed to open GUI file dialog: " ++ msg)%string] w)
    end.
Proof.
  intros Hgui Hzip. unfold choose_zip, tk_is_None. rewrite Hgui.
  assert (Hz : unset match zip a with Some p => p | None => "" end = true).
  { destruct (zip a); [exact Hzip | reflexivity]. }
  cbv zeta. rewrite Hz. cbn [andb negb].
  destruct (askopenfilename env) as [chosen|msg].
  - unfold bind at 1. unfold ret at 1.
    destruct (unset chosen) eqn:Hc; cbn [andb negb].
    + unfold bind at 1. unfold bind at 1. rewrite print_run. reflexivity.
    + unfold bind at 1. unfold ret at 1. unfold bind at 1. unfold ret at 1.
      destruct (isfile env _); [reflexivity|].
      unfold bind at 1. rewrite print_run. reflexivity.
  - unfold bind at 1. unfold bind at 1. rewrite print_run. unfold ret at 1.
    symmetry. unfold bind at 1. unfold ret at 1. reflexivity.
Qed.

Lemma archive_asked_in_dialog_witness :
  choose_zip crashing_desktop bare_args false true idle
  = match askopenfilename crashing_desktop with
    | GuiOk chosen =>
        let zip_path := expanduser crashing_desktop chosen in
        if unset chosen then
          (Raise (SystemExit 0), printed ["No ZIP file selected. Exiting."] idle)
        else
          match isfile crashing_desktop zip_path with
          | Some _ => (Ok (zip_path, false, true), idle)
          | None =>
              (Raise (SystemExit 1),
               printed [("Error: File not found: " ++ zip_path)%string] idle)
          end
    | GuiFail msg =>
        choose_zip crashing_desktop bare_args true false
          (printed [("Failed to open GUI file dialog: " ++ msg)%string] idle)
    end.
Proof.
  apply (archive_asked_in_dialog crashing_desktop bare_args idle);
    reflexivity.
Defined.
